(** * The UART transfer engine of the PY32F4xx HAL driver

    A shallow embedding of [py32f4xx_hal_uart.c]: the handle and the
    peripheral registers are records of integers, every driver function is
    a function on the system state, the user callbacks (the [__weak]
    defaults of the driver, which do nothing) leave a trace of their
    invocations, and the DMA engine and the hardware are inputs. *)

From Stdlib Require Import ZArith List Bool Lia.
Import ListNotations.
Local Open Scope Z_scope.

(** ** Register access macros

    [SET_BIT], [CLEAR_BIT], [MODIFY_REG] and [HAL_IS_BIT_SET] are macros
    of the device header and of [py32f4xx_hal_def.h], which are not among
    the sources; the driver uses them as bitwise operations on 32-bit
    registers: [REG |= BIT], [REG &= ~BIT], [(REG & ~CLEARMASK) | SETMASK],
    [(REG & BIT) == BIT]. *)

Definition bit (pos : Z) : Z := Z.shiftl 1 pos.

Definition NOT32 (x : Z) : Z := Z.lxor x 0xFFFFFFFF.

Definition SET_BIT (REG BIT : Z) : Z := Z.lor REG BIT.

Definition CLEAR_BIT (REG BIT : Z) : Z := Z.land REG (NOT32 BIT).

Definition MODIFY_REG (REG CLEARMASK SETMASK : Z) : Z :=
  Z.lor (Z.land REG (NOT32 CLEARMASK)) SETMASK.

Definition HAL_IS_BIT_SET (REG BIT : Z) : bool := Z.land REG BIT =? BIT.

(** [(x & MASK) != RESET] *)
Definition flagged (x MASK : Z) : bool := negb (Z.land x MASK =? 0).

(** ** Types of the HAL *)

Inductive HAL_StatusTypeDef := HAL_OK | HAL_ERROR | HAL_BUSY | HAL_TIMEOUT.

Inductive HAL_LockTypeDef := HAL_UNLOCKED | HAL_LOCKED.

Inductive HAL_UART_StateTypeDef :=
| HAL_UART_STATE_RESET
| HAL_UART_STATE_READY
| HAL_UART_STATE_BUSY
| HAL_UART_STATE_BUSY_TX
| HAL_UART_STATE_BUSY_RX
| HAL_UART_STATE_BUSY_TX_RX
| HAL_UART_STATE_TIMEOUT
| HAL_UART_STATE_ERROR.

Definition HAL_StatusTypeDef_eqb (a b : HAL_StatusTypeDef) : bool :=
  match a, b with
  | HAL_OK, HAL_OK | HAL_ERROR, HAL_ERROR
  | HAL_BUSY, HAL_BUSY | HAL_TIMEOUT, HAL_TIMEOUT => true
  | _, _ => false
  end.

Definition HAL_UART_StateTypeDef_eqb (a b : HAL_UART_StateTypeDef) : bool :=
  match a, b with
  | HAL_UART_STATE_RESET, HAL_UART_STATE_RESET
  | HAL_UART_STATE_READY, HAL_UART_STATE_READY
  | HAL_UART_STATE_BUSY, HAL_UART_STATE_BUSY
  | HAL_UART_STATE_BUSY_TX, HAL_UART_STATE_BUSY_TX
  | HAL_UART_STATE_BUSY_RX, HAL_UART_STATE_BUSY_RX
  | HAL_UART_STATE_BUSY_TX_RX, HAL_UART_STATE_BUSY_TX_RX
  | HAL_UART_STATE_TIMEOUT, HAL_UART_STATE_TIMEOUT
  | HAL_UART_STATE_ERROR, HAL_UART_STATE_ERROR => true
  | _, _ => false
  end.

(** The functions of the driver that are handed to the DMA engine as
    callbacks; a callback field holds one of them or [NULL] ([None]). *)
Inductive DMA_CallbackTypeDef :=
| PTR_UART_DMATransmitCplt
| PTR_UART_DMATxHalfCplt
| PTR_UART_DMAReceiveCplt
| PTR_UART_DMARxHalfCplt
| PTR_UART_DMAError
| PTR_UART_DMAAbortOnError
| PTR_UART_DMATxAbortCallback
| PTR_UART_DMARxAbortCallback
| PTR_UART_DMATxOnlyAbortCallback
| PTR_UART_DMARxOnlyAbortCallback.

(** [DMA_HandleTypeDef], the fields the UART driver reads or writes:
    [Instance->CCR], the four callbacks and the error code; [Request] is
    the transfer handed to the engine by [HAL_DMA_Start_IT]. *)
Module DMA.
Record DMA_HandleTypeDef := mkDMA {
  CCR : Z;
  XferCpltCallback : option DMA_CallbackTypeDef;
  XferHalfCpltCallback : option DMA_CallbackTypeDef;
  XferErrorCallback : option DMA_CallbackTypeDef;
  XferAbortCallback : option DMA_CallbackTypeDef;
  ErrorCode : Z;
  Request : option (Z * Z * Z)
}.

Definition set_XferCpltCallback v (d : DMA_HandleTypeDef) :=
  mkDMA (CCR d) v (XferHalfCpltCallback d) (XferErrorCallback d)
        (XferAbortCallback d) (ErrorCode d) (Request d).
Definition set_XferHalfCpltCallback v (d : DMA_HandleTypeDef) :=
  mkDMA (CCR d) (XferCpltCallback d) v (XferErrorCallback d)
        (XferAbortCallback d) (ErrorCode d) (Request d).
Definition set_XferErrorCallback v (d : DMA_HandleTypeDef) :=
  mkDMA (CCR d) (XferCpltCallback d) (XferHalfCpltCallback d) v
        (XferAbortCallback d) (ErrorCode d) (Request d).
Definition set_XferAbortCallback v (d : DMA_HandleTypeDef) :=
  mkDMA (CCR d) (XferCpltCallback d) (XferHalfCpltCallback d)
        (XferErrorCallback d) v (ErrorCode d) (Request d).
Definition set_ErrorCode v (d : DMA_HandleTypeDef) :=
  mkDMA (CCR d) (XferCpltCallback d) (XferHalfCpltCallback d)
        (XferErrorCallback d) (XferAbortCallback d) v (Request d).
Definition set_Request v (d : DMA_HandleTypeDef) :=
  mkDMA (CCR d) (XferCpltCallback d) (XferHalfCpltCallback d)
        (XferErrorCallback d) (XferAbortCallback d) (ErrorCode d) v.
End DMA.

Definition HAL_DMA_ERROR_NONE : Z := 0x00000000.
Definition HAL_DMA_ERROR_TIMEOUT : Z := 0x00000020.

(** The USART register block. *)
Record USART_TypeDef := mkUSART {
  SR : Z; DR : Z; BRR : Z; CR1 : Z; CR2 : Z; CR3 : Z
}.

Record UART_InitTypeDef := mkInit {
  BaudRate : Z;
  WordLength : Z;
  StopBits : Z;
  Parity : Z;
  Mode : Z;
  HwFlowCtl : Z;
  OverSampling : Z
}.

Record UART_AdvFeatureInitTypeDef := mkAdvInit {
  AdvFeatureInit : Z;
  AutoBaudRateEnable : Z;
  AutoBaudRateMode : Z
}.

(** [UART_HandleTypeDef].  [Instance] holds the registers the handle
    points to and [Instance_base] the address of that register block;
    [hdmatx] and [hdmarx] hold the bound DMA channel, [None] for [NULL]. *)
Record UART_HandleTypeDef := mkHandle {
  Instance_base : Z;
  Instance : USART_TypeDef;
  Init : UART_InitTypeDef;
  AdvancedInit : UART_AdvFeatureInitTypeDef;
  pTxBuffPtr : Z;
  TxXferSize : Z;
  TxXferCount : Z;
  pRxBuffPtr : Z;
  RxXferSize : Z;
  RxXferCount : Z;
  hdmatx : option DMA.DMA_HandleTypeDef;
  hdmarx : option DMA.DMA_HandleTypeDef;
  Lock : HAL_LockTypeDef;
  gState : HAL_UART_StateTypeDef;
  RxState : HAL_UART_StateTypeDef;
  ErrorCode : Z
}.

(** The user callbacks of the driver. *)
Inductive UART_UserCallback :=
| HAL_UART_MspInit
| HAL_UART_TxCpltCallback
| HAL_UART_TxHalfCpltCallback
| HAL_UART_RxCpltCallback
| HAL_UART_RxHalfCpltCallback
| HAL_UART_ErrorCallback
| HAL_UART_AbortCpltCallback
| HAL_UART_AbortTransmitCpltCallback
| HAL_UART_AbortReceiveCpltCallback
| HAL_UART_IdleFrameDetectCpltCallback.

(** The system: the handle, the memory the buffers live in (one byte per
    address), the trace of the user callbacks invoked so far, each with the
    handle as the callback received it, and the units written to the data
    register. *)
Record System := mkSystem {
  huart : UART_HandleTypeDef;
  ram : Z -> Z;
  calls : list (UART_UserCallback * UART_HandleTypeDef);
  txd : list Z
}.

(** ** Field updates *)

Definition set_SR v (u : USART_TypeDef) := mkUSART v (DR u) (BRR u) (CR1 u) (CR2 u) (CR3 u).
Definition set_DR v (u : USART_TypeDef) := mkUSART (SR u) v (BRR u) (CR1 u) (CR2 u) (CR3 u).
Definition set_BRR v (u : USART_TypeDef) := mkUSART (SR u) (DR u) v (CR1 u) (CR2 u) (CR3 u).
Definition set_CR1 v (u : USART_TypeDef) := mkUSART (SR u) (DR u) (BRR u) v (CR2 u) (CR3 u).
Definition set_CR2 v (u : USART_TypeDef) := mkUSART (SR u) (DR u) (BRR u) (CR1 u) v (CR3 u).
Definition set_CR3 v (u : USART_TypeDef) := mkUSART (SR u) (DR u) (BRR u) (CR1 u) (CR2 u) v.

Definition set_Instance v (h : UART_HandleTypeDef) :=
  mkHandle (Instance_base h) v (Init h) (AdvancedInit h) (pTxBuffPtr h)
    (TxXferSize h) (TxXferCount h) (pRxBuffPtr h) (RxXferSize h)
    (RxXferCount h) (hdmatx h) (hdmarx h) (Lock h) (gState h) (RxState h)
    (ErrorCode h).
Definition set_Init v (h : UART_HandleTypeDef) :=
  mkHandle (Instance_base h) (Instance h) v (AdvancedInit h) (pTxBuffPtr h)
    (TxXferSize h) (TxXferCount h) (pRxBuffPtr h) (RxXferSize h)
    (RxXferCount h) (hdmatx h) (hdmarx h) (Lock h) (gState h) (RxState h)
    (ErrorCode h).
Definition set_pTxBuffPtr v (h : UART_HandleTypeDef) :=
  mkHandle (Instance_base h) (Instance h) (Init h) (AdvancedInit h) v
    (TxXferSize h) (TxXferCount h) (pRxBuffPtr h) (RxXferSize h)
    (RxXferCount h) (hdmatx h) (hdmarx h) (Lock h) (gState h) (RxState h)
    (ErrorCode h).
Definition set_TxXferSize v (h : UART_HandleTypeDef) :=
  mkHandle (Instance_base h) (Instance h) (Init h) (AdvancedInit h)
    (pTxBuffPtr h) v (TxXferCount h) (pRxBuffPtr h) (RxXferSize h)
    (RxXferCount h) (hdmatx h) (hdmarx h) (Lock h) (gState h) (RxState h)
    (ErrorCode h).
Definition set_TxXferCount v (h : UART_HandleTypeDef) :=
  mkHandle (Instance_base h) (Instance h) (Init h) (AdvancedInit h)
    (pTxBuffPtr h) (TxXferSize h) v (pRxBuffPtr h) (RxXferSize h)
    (RxXferCount h) (hdmatx h) (hdmarx h) (Lock h) (gState h) (RxState h)
    (ErrorCode h).
Definition set_pRxBuffPtr v (h : UART_HandleTypeDef) :=
  mkHandle (Instance_base h) (Instance h) (Init h) (AdvancedInit h)
    (pTxBuffPtr h) (TxXferSize h) (TxXferCount h) v (RxXferSize h)
    (RxXferCount h) (hdmatx h) (hdmarx h) (Lock h) (gState h) (RxState h)
    (ErrorCode h).
Definition set_RxXferSize v (h : UART_HandleTypeDef) :=
  mkHandle (Instance_base h) (Instance h) (Init h) (AdvancedInit h)
    (pTxBuffPtr h) (TxXferSize h) (TxXferCount h) (pRxBuffPtr h) v
    (RxXferCount h) (hdmatx h) (hdmarx h) (Lock h) (gState h) (RxState h)
    (ErrorCode h).
Definition set_RxXferCount v (h : UART_HandleTypeDef) :=
  mkHandle (Instance_base h) (Instance h) (Init h) (AdvancedInit h)
    (pTxBuffPtr h) (TxXferSize h) (TxXferCount h) (pRxBuffPtr h)
    (RxXferSize h) v (hdmatx h) (hdmarx h) (Lock h) (gState h) (RxState h)
    (ErrorCode h).
Definition set_hdmatx v (h : UART_HandleTypeDef) :=
  mkHandle (Instance_base h) (Instance h) (Init h) (AdvancedInit h)
    (pTxBuffPtr h) (TxXferSize h) (TxXferCount h) (pRxBuffPtr h)
    (RxXferSize h) (RxXferCount h) v (hdmarx h) (Lock h) (gState h)
    (RxState h) (ErrorCode h).
Definition set_hdmarx v (h : UART_HandleTypeDef) :=
  mkHandle (Instance_base h) (Instance h) (Init h) (AdvancedInit h)
    (pTxBuffPtr h) (TxXferSize h) (TxXferCount h) (pRxBuffPtr h)
    (RxXferSize h) (RxXferCount h) (hdmatx h) v (Lock h) (gState h)
    (RxState h) (ErrorCode h).
Definition set_Lock v (h : UART_HandleTypeDef) :=
  mkHandle (Instance_base h) (Instance h) (Init h) (AdvancedInit h)
    (pTxBuffPtr h) (TxXferSize h) (TxXferCount h) (pRxBuffPtr h)
    (RxXferSize h) (RxXferCount h) (hdmatx h) (hdmarx h) v (gState h)
    (RxState h) (ErrorCode h).
Definition set_gState v (h : UART_HandleTypeDef) :=
  mkHandle (Instance_base h) (Instance h) (Init h) (AdvancedInit h)
    (pTxBuffPtr h) (TxXferSize h) (TxXferCount h) (pRxBuffPtr h)
    (RxXferSize h) (RxXferCount h) (hdmatx h) (hdmarx h) (Lock h) v
    (RxState h) (ErrorCode h).
Definition set_RxState v (h : UART_HandleTypeDef) :=
  mkHandle (Instance_base h) (Instance h) (Init h) (AdvancedInit h)
    (pTxBuffPtr h) (TxXferSize h) (TxXferCount h) (pRxBuffPtr h)
    (RxXferSize h) (RxXferCount h) (hdmatx h) (hdmarx h) (Lock h)
    (gState h) v (ErrorCode h).
Definition set_ErrorCode v (h : UART_HandleTypeDef) :=
  mkHandle (Instance_base h) (Instance h) (Init h) (AdvancedInit h)
    (pTxBuffPtr h) (TxXferSize h) (TxXferCount h) (pRxBuffPtr h)
    (RxXferSize h) (RxXferCount h) (hdmatx h) (hdmarx h) (Lock h)
    (gState h) (RxState h) v.

(** Assignments through the handle pointer, on the system. *)
Definition on_huart (f : UART_HandleTypeDef -> UART_HandleTypeDef) (s : System) : System :=
  mkSystem (f (huart s)) (ram s) (calls s) (txd s).

Definition on_Instance (f : USART_TypeDef -> USART_TypeDef) : System -> System :=
  on_huart (fun h => set_Instance (f (Instance h)) h).

Definition on_CR1 (f : Z -> Z) : System -> System :=
  on_Instance (fun u => set_CR1 (f (CR1 u)) u).
Definition on_CR2 (f : Z -> Z) : System -> System :=
  on_Instance (fun u => set_CR2 (f (CR2 u)) u).
Definition on_CR3 (f : Z -> Z) : System -> System :=
  on_Instance (fun u => set_CR3 (f (CR3 u)) u).
Definition on_SR (f : Z -> Z) : System -> System :=
  on_Instance (fun u => set_SR (f (SR u)) u).

(** [huart->hdmatx->field = v] and [huart->hdmarx->field = v]; the source
    dereferences the channel only where it is bound. *)
Definition on_hdmatx (f : DMA.DMA_HandleTypeDef -> DMA.DMA_HandleTypeDef) : System -> System :=
  on_huart (fun h => set_hdmatx (option_map f (hdmatx h)) h).
Definition on_hdmarx (f : DMA.DMA_HandleTypeDef -> DMA.DMA_HandleTypeDef) : System -> System :=
  on_huart (fun h => set_hdmarx (option_map f (hdmarx h)) h).

(** A call of a user callback: the [__weak] default does nothing; the
    trace records the call and the handle it was passed. *)
Definition invoke (cb : UART_UserCallback) (s : System) : System :=
  mkSystem (huart s) (ram s) (calls s ++ [(cb, huart s)]) (txd s).

(** A write to the data register sends the unit. *)
Definition write_DR (v : Z) (s : System) : System :=
  let s := on_Instance (set_DR v) s in
  mkSystem (huart s) (ram s) (calls s) (txd s ++ [v]).

(** Memory accesses through [uint8_t *] and [uint16_t *] (little endian). *)
Definition load8 (m : Z -> Z) (a : Z) : Z := Z.land (m a) 0xFF.
Definition load16 (m : Z -> Z) (a : Z) : Z :=
  Z.lor (load8 m a) (Z.shiftl (load8 m ((a + 1) mod 2 ^ 32)) 8).
Definition store8 (m : Z -> Z) (a v : Z) : Z -> Z :=
  fun x => if x =? a then Z.land v 0xFF else m x.
Definition store16 (m : Z -> Z) (a v : Z) : Z -> Z :=
  store8 (store8 m a v) ((a + 1) mod 2 ^ 32) (Z.shiftr v 8).

Definition set_ram (m : Z -> Z) (s : System) : System :=
  mkSystem (huart s) m (calls s) (txd s).

(** Number of invocations of a user callback in a trace. *)
Definition UART_UserCallback_eqb (a b : UART_UserCallback) : bool :=
  match a, b with
  | HAL_UART_MspInit, HAL_UART_MspInit
  | HAL_UART_TxCpltCallback, HAL_UART_TxCpltCallback
  | HAL_UART_TxHalfCpltCallback, HAL_UART_TxHalfCpltCallback
  | HAL_UART_RxCpltCallback, HAL_UART_RxCpltCallback
  | HAL_UART_RxHalfCpltCallback, HAL_UART_RxHalfCpltCallback
  | HAL_UART_ErrorCallback, HAL_UART_ErrorCallback
  | HAL_UART_AbortCpltCallback, HAL_UART_AbortCpltCallback
  | HAL_UART_AbortTransmitCpltCallback, HAL_UART_AbortTransmitCpltCallback
  | HAL_UART_AbortReceiveCpltCallback, HAL_UART_AbortReceiveCpltCallback
  | HAL_UART_IdleFrameDetectCpltCallback, HAL_UART_IdleFrameDetectCpltCallback => true
  | _, _ => false
  end.

Definition invocations (cb : UART_UserCallback)
    (t : list (UART_UserCallback * UART_HandleTypeDef)) : nat :=
  length (filter (fun e => UART_UserCallback_eqb (fst e) cb) t).

(** ** The constants of the headers *)

(** Modelled from the spec: the bit masks and constants of the device
    header and of [py32f4xx_hal_uart.h] and [py32f4xx_hal_def.h], and the
    clock queries of the RCC driver, none of which is among the sources.
    The spec leaves the register layout abstract (named control and status
    operations), and so does this class: a status flag, an interrupt
    enable, a DMA request and an error code are each one bit, at a
    position the header chooses; the other fields are masks or values the
    driver only copies into registers. *)
Class DeviceHeader := {
  (* status register flags *)
  USART_SR_PE_Pos : Z;
  USART_SR_FE_Pos : Z;
  USART_SR_NE_Pos : Z;
  USART_SR_ORE_Pos : Z;
  USART_SR_IDLE_Pos : Z;
  USART_SR_RXNE_Pos : Z;
  USART_SR_TC_Pos : Z;
  USART_SR_TXE_Pos : Z;
  (* interrupt enables of CR1 *)
  USART_CR1_IDLEIE_Pos : Z;
  USART_CR1_RXNEIE_Pos : Z;
  USART_CR1_TCIE_Pos : Z;
  USART_CR1_TXEIE_Pos : Z;
  USART_CR1_PEIE_Pos : Z;
  (* error interrupt enable and DMA requests of CR3 *)
  USART_CR3_EIE_Pos : Z;
  USART_CR3_DMAR_Pos : Z;
  USART_CR3_DMAT_Pos : Z;
  (* configuration masks *)
  USART_CR1_RE : Z;
  USART_CR1_TE : Z;
  USART_CR1_PS : Z;
  USART_CR1_PCE : Z;
  USART_CR1_WAKE : Z;
  USART_CR1_M : Z;
  USART_CR1_UE : Z;
  USART_CR2_ADD : Z;
  USART_CR2_LBDL : Z;
  USART_CR2_CLKEN : Z;
  USART_CR2_STOP : Z;
  USART_CR2_LINEN : Z;
  USART_CR3_IREN : Z;
  USART_CR3_HDSEL : Z;
  USART_CR3_SCEN : Z;
  USART_CR3_RTSE : Z;
  USART_CR3_CTSE : Z;
  USART_CR3_OVER8 : Z;
  USART_CR3_OVER8_defined : bool;
  USART_CR3_ABREN : Z;
  USART_CR3_ABRMOD : Z;
  DMA_CCR_CIRC : Z;
  (* values of the UART driver header *)
  UART_WORDLENGTH_8B : Z;
  UART_WORDLENGTH_9B : Z;
  UART_PARITY_NONE : Z;
  UART_STOPBITS_1 : Z;
  UART_OVERSAMPLING_16 : Z;
  UART_OVERSAMPLING_8 : Z;
  UART_ADVFEATURE_NO_INIT : Z;
  UART_ADVFEATURE_AUTOBAUDRATE_INIT : Z;
  UART_ADVFEATURE_AUTOBAUDRATE_ENABLE : Z;
  HAL_UART_ERROR_PE_Pos : Z;
  HAL_UART_ERROR_NE_Pos : Z;
  HAL_UART_ERROR_FE_Pos : Z;
  HAL_UART_ERROR_ORE_Pos : Z;
  HAL_UART_ERROR_DMA_Pos : Z;
  HAL_MAX_DELAY : Z;
  (* the first USART, the offset of DR in the register block, the bus
     clocks and the divider macros *)
  USART1 : Z;
  USART_DR_offset : Z;
  HAL_RCC_GetPCLK1Freq : Z;
  HAL_RCC_GetPCLK2Freq : Z;
  UART_BRR_SAMPLING8 : Z -> Z -> Z;
  UART_BRR_SAMPLING16 : Z -> Z -> Z;
  (* every named bit lies in its 32-bit register *)
  USART_SR_range :
    0 <= USART_SR_PE_Pos < 32 /\ 0 <= USART_SR_FE_Pos < 32 /\
    0 <= USART_SR_NE_Pos < 32 /\ 0 <= USART_SR_ORE_Pos < 32 /\
    0 <= USART_SR_IDLE_Pos < 32 /\ 0 <= USART_SR_RXNE_Pos < 32 /\
    0 <= USART_SR_TC_Pos < 32 /\ 0 <= USART_SR_TXE_Pos < 32;
  USART_CR1_range :
    0 <= USART_CR1_IDLEIE_Pos < 32 /\ 0 <= USART_CR1_RXNEIE_Pos < 32 /\
    0 <= USART_CR1_TCIE_Pos < 32 /\ 0 <= USART_CR1_TXEIE_Pos < 32 /\
    0 <= USART_CR1_PEIE_Pos < 32;
  USART_CR3_range :
    0 <= USART_CR3_EIE_Pos < 32 /\ 0 <= USART_CR3_DMAR_Pos < 32 /\
    0 <= USART_CR3_DMAT_Pos < 32;
  HAL_UART_ERROR_range :
    0 <= HAL_UART_ERROR_PE_Pos < 32 /\ 0 <= HAL_UART_ERROR_NE_Pos < 32 /\
    0 <= HAL_UART_ERROR_FE_Pos < 32 /\ 0 <= HAL_UART_ERROR_ORE_Pos < 32 /\
    0 <= HAL_UART_ERROR_DMA_Pos < 32;
  (* distinct names are distinct bits *)
  USART_CR3_distinct :
    USART_CR3_EIE_Pos <> USART_CR3_DMAR_Pos /\
    USART_CR3_EIE_Pos <> USART_CR3_DMAT_Pos /\
    USART_CR3_DMAR_Pos <> USART_CR3_DMAT_Pos;
  HAL_UART_ERROR_distinct :
    HAL_UART_ERROR_PE_Pos <> HAL_UART_ERROR_ORE_Pos /\
    HAL_UART_ERROR_NE_Pos <> HAL_UART_ERROR_ORE_Pos /\
    HAL_UART_ERROR_FE_Pos <> HAL_UART_ERROR_ORE_Pos /\
    HAL_UART_ERROR_DMA_Pos <> HAL_UART_ERROR_ORE_Pos
}.

(** A header to run the model on concrete inputs: the register map of the
    USART family the driver is written for, 32-bit tick, USART1 on the
    second bus. *)
Definition reference_header : DeviceHeader.
Proof.
  refine {|
    USART_SR_PE_Pos := 0; USART_SR_FE_Pos := 1; USART_SR_NE_Pos := 2;
    USART_SR_ORE_Pos := 3; USART_SR_IDLE_Pos := 4; USART_SR_RXNE_Pos := 5;
    USART_SR_TC_Pos := 6; USART_SR_TXE_Pos := 7;
    USART_CR1_IDLEIE_Pos := 4; USART_CR1_RXNEIE_Pos := 5;
    USART_CR1_TCIE_Pos := 6; USART_CR1_TXEIE_Pos := 7;
    USART_CR1_PEIE_Pos := 8;
    USART_CR3_EIE_Pos := 0; USART_CR3_DMAR_Pos := 6; USART_CR3_DMAT_Pos := 7;
    USART_CR1_RE := 0x4; USART_CR1_TE := 0x8; USART_CR1_PS := 0x200;
    USART_CR1_PCE := 0x400; USART_CR1_WAKE := 0x800; USART_CR1_M := 0x1000;
    USART_CR1_UE := 0x2000;
    USART_CR2_ADD := 0xF; USART_CR2_LBDL := 0x20; USART_CR2_CLKEN := 0x800;
    USART_CR2_STOP := 0x3000; USART_CR2_LINEN := 0x4000;
    USART_CR3_IREN := 0x2; USART_CR3_HDSEL := 0x8; USART_CR3_SCEN := 0x20;
    USART_CR3_RTSE := 0x100; USART_CR3_CTSE := 0x200;
    USART_CR3_OVER8 := 0x800; USART_CR3_OVER8_defined := true;
    USART_CR3_ABREN := 0x1000;
    USART_CR3_ABRMOD := 0x6000;
    DMA_CCR_CIRC := 0x20;
    UART_WORDLENGTH_8B := 0; UART_WORDLENGTH_9B := 0x1000;
    UART_PARITY_NONE := 0; UART_STOPBITS_1 := 0;
    UART_OVERSAMPLING_16 := 0; UART_OVERSAMPLING_8 := 0x800;
    UART_ADVFEATURE_NO_INIT := 0; UART_ADVFEATURE_AUTOBAUDRATE_INIT := 0x40;
    UART_ADVFEATURE_AUTOBAUDRATE_ENABLE := 0x1000;
    HAL_UART_ERROR_PE_Pos := 0; HAL_UART_ERROR_NE_Pos := 1;
    HAL_UART_ERROR_FE_Pos := 2; HAL_UART_ERROR_ORE_Pos := 3;
    HAL_UART_ERROR_DMA_Pos := 4;
    HAL_MAX_DELAY := 0xFFFFFFFF;
    USART1 := 0x40013800; USART_DR_offset := 4;
    HAL_RCC_GetPCLK1Freq := 72000000; HAL_RCC_GetPCLK2Freq := 144000000;
    UART_BRR_SAMPLING8 := fun pclk baud => (2 * pclk) / baud;
    UART_BRR_SAMPLING16 := fun pclk baud => pclk / baud
  |}; repeat split; lia.
Defined.

(** The answer of the DMA engine to a request: the status the call
    returns and the error code it leaves in the channel when it refuses. *)
Record DMA_Answer := mkAnswer {
  dma_status : HAL_StatusTypeDef;
  dma_error : Z
}.

(** ** Systems to run the model on

    Handles of the second USART under [reference_header], in the states
    the driver itself leaves them in. *)

(** A DMA channel in normal mode, with no callback registered. *)
Definition idle_channel : DMA.DMA_HandleTypeDef :=
  DMA.mkDMA 0 None None None None HAL_DMA_ERROR_NONE None.

(** A DMA channel serving a transmission started by [HAL_UART_Transmit_DMA]. *)
Definition tx_channel : DMA.DMA_HandleTypeDef :=
  DMA.mkDMA 0 (Some PTR_UART_DMATransmitCplt) (Some PTR_UART_DMATxHalfCplt)
    (Some PTR_UART_DMAError) None HAL_DMA_ERROR_NONE
    (Some (0x20000000, 0x40004404, 16)).

(** A DMA channel serving a reception started by [HAL_UART_Receive_DMA]. *)
Definition rx_channel : DMA.DMA_HandleTypeDef :=
  DMA.mkDMA 0 (Some PTR_UART_DMAReceiveCplt) (Some PTR_UART_DMARxHalfCplt)
    (Some PTR_UART_DMAError) None HAL_DMA_ERROR_NONE
    (Some (0x40004404, 0x20000100, 16)).

(** 8 data bits, no parity, transmitter and receiver on. *)
Definition config_8N1 : UART_InitTypeDef := mkInit 115200 0 0 0 0xC 0 0.


Definition empty_ram : Z -> Z := fun _ => 0.

(** After initialization: both directions Ready. *)
Definition ready_system : System :=
  mkSystem
    (mkHandle 0x40004400 (mkUSART 0xC0 0 0x271 0x200C 0 0) config_8N1 (mkAdvInit 0 0 0)
       0 0 0 0 0 0 None None HAL_UNLOCKED
       HAL_UART_STATE_READY HAL_UART_STATE_READY 0)
    empty_ram [] [].

(** After an overrun ended a reception: Ready, the error code still set. *)
Definition ready_after_overrun : System :=
  mkSystem
    (mkHandle 0x40004400 (mkUSART 0xC0 0 0x271 0x200C 0 0) config_8N1 (mkAdvInit 0 0 0)
       0 0 0 0x20000100 16 5 None None HAL_UNLOCKED
       HAL_UART_STATE_READY HAL_UART_STATE_READY 0x8)
    empty_ram [] [].


(** An interrupt-mode transmission that waits for its last frame: TCIE
    enabled, gState BusyTx; the receiver is Ready. *)
Definition transmit_ending : System :=
  mkSystem
    (mkHandle 0x40004400 (mkUSART 0x80 0 0x271 0x204C 0 0) config_8N1 (mkAdvInit 0 0 0)
       0x20000008 8 0 0 0 0 None None HAL_UNLOCKED
       HAL_UART_STATE_BUSY_TX HAL_UART_STATE_READY 0)
    empty_ram [] [].

(** Both directions served by DMA: request bits and error interrupt
    enabled, both channels bound. *)
Definition duplex_DMA : System :=
  mkSystem
    (mkHandle 0x40004400 (mkUSART 0x00 0 0x271 0x210C 0 0xC1) config_8N1 (mkAdvInit 0 0 0)
       0x20000000 16 16 0x20000100 16 0 (Some tx_channel) (Some rx_channel) HAL_UNLOCKED
       HAL_UART_STATE_BUSY_TX HAL_UART_STATE_BUSY_RX 0)
    empty_ram [] [].

(** A DMA reception on which the overrun flag comes up. *)
Definition overrun_in_DMA_receive : System :=
  mkSystem
    (mkHandle 0x40004400 (mkUSART 0xC8 0 0x271 0x210C 0 0x41) config_8N1 (mkAdvInit 0 0 0)
       0 0 0 0x20000100 16 0 None (Some rx_channel) HAL_UNLOCKED
       HAL_UART_STATE_READY HAL_UART_STATE_BUSY_RX 0)
    empty_ram [] [].

(** An interrupt-mode reception, four units to go, on a handle that has an
    Rx DMA channel bound but not in use; the overrun flag comes up. *)
Definition overrun_in_IT_receive : System :=
  mkSystem
    (mkHandle 0x40004400 (mkUSART 0xC8 0 0x271 0x212C 0 0x01) config_8N1 (mkAdvInit 0 0 0)
       0 0 0 0x20000100 8 4 None (Some idle_channel) HAL_UNLOCKED
       HAL_UART_STATE_READY HAL_UART_STATE_BUSY_RX 0)
    empty_ram [] [].

(** An interrupt-mode reception, four units to go; a unit arrives with a
    parity error. *)
Definition parity_error_in_IT_receive : System :=
  mkSystem
    (mkHandle 0x40004400 (mkUSART 0xE1 0x55 0x271 0x212C 0 0x01) config_8N1 (mkAdvInit 0 0 0)
       0 0 0 0x20000100 8 4 None None HAL_UNLOCKED
       HAL_UART_STATE_READY HAL_UART_STATE_BUSY_RX 0)
    empty_ram [] [].

(** The same, one unit to go: the unit with the parity error is the last. *)
Definition parity_error_on_last_unit : System :=
  mkSystem
    (mkHandle 0x40004400 (mkUSART 0xE1 0x55 0x271 0x212C 0 0x01) config_8N1 (mkAdvInit 0 0 0)
       0 0 0 0x20000107 8 1 None None HAL_UNLOCKED
       HAL_UART_STATE_READY HAL_UART_STATE_BUSY_RX 0)
    empty_ram [] [].

(** A memory that holds at each address its low byte. *)
Definition counting_ram : Z -> Z := fun a => Z.land a 0xFF.

(** After initialization, both DMA channels bound and idle, data to send
    in memory. *)
Definition ready_with_DMA : System :=
  mkSystem
    (mkHandle 0x40004400 (mkUSART 0xC0 0 0x271 0x200C 0 0) config_8N1 (mkAdvInit 0 0 0)
       0 0 0 0 0 0 (Some idle_channel) (Some idle_channel) HAL_UNLOCKED
       HAL_UART_STATE_READY HAL_UART_STATE_READY 0)
    counting_ram [] [].

(** The DMA engine accepts a request; it refuses one for want of a
    transfer. *)
Definition DMA_accepts : DMA_Answer := mkAnswer HAL_OK HAL_DMA_ERROR_NONE.
Definition DMA_refuses : DMA_Answer := mkAnswer HAL_ERROR 0x4.

Section Driver.

Context {hdr : DeviceHeader}.

(** ** Masks *)

Definition USART_SR_PE := bit USART_SR_PE_Pos.
Definition USART_SR_FE := bit USART_SR_FE_Pos.
Definition USART_SR_NE := bit USART_SR_NE_Pos.
Definition USART_SR_ORE := bit USART_SR_ORE_Pos.
Definition USART_SR_IDLE := bit USART_SR_IDLE_Pos.
Definition USART_SR_RXNE := bit USART_SR_RXNE_Pos.
Definition USART_SR_TC := bit USART_SR_TC_Pos.
Definition USART_SR_TXE := bit USART_SR_TXE_Pos.

Definition USART_CR1_IDLEIE := bit USART_CR1_IDLEIE_Pos.
Definition USART_CR1_RXNEIE := bit USART_CR1_RXNEIE_Pos.
Definition USART_CR1_TCIE := bit USART_CR1_TCIE_Pos.
Definition USART_CR1_TXEIE := bit USART_CR1_TXEIE_Pos.
Definition USART_CR1_PEIE := bit USART_CR1_PEIE_Pos.

Definition USART_CR3_EIE := bit USART_CR3_EIE_Pos.
Definition USART_CR3_DMAR := bit USART_CR3_DMAR_Pos.
Definition USART_CR3_DMAT := bit USART_CR3_DMAT_Pos.

Definition HAL_UART_ERROR_NONE : Z := 0.
Definition HAL_UART_ERROR_PE := bit HAL_UART_ERROR_PE_Pos.
Definition HAL_UART_ERROR_NE := bit HAL_UART_ERROR_NE_Pos.
Definition HAL_UART_ERROR_FE := bit HAL_UART_ERROR_FE_Pos.
Definition HAL_UART_ERROR_ORE := bit HAL_UART_ERROR_ORE_Pos.
Definition HAL_UART_ERROR_DMA := bit HAL_UART_ERROR_DMA_Pos.

(** The flags the blocking calls poll are the status bits themselves. *)
Definition UART_FLAG_TXE := USART_SR_TXE.
Definition UART_FLAG_TC := USART_SR_TC.
Definition UART_FLAG_RXNE := USART_SR_RXNE.

Inductive FlagStatus := RESET | SET.

Definition FlagStatus_eqb (a b : FlagStatus) : bool :=
  match a, b with
  | RESET, RESET | SET, SET => true
  | _, _ => false
  end.

(** The interrupt sources [__HAL_UART_ENABLE_IT] and
    [__HAL_UART_DISABLE_IT] take, each naming one enable bit of CR1 or
    CR3. *)
Inductive UART_IT :=
| UART_IT_PE | UART_IT_TXE | UART_IT_TC | UART_IT_RXNE | UART_IT_IDLE
| UART_IT_ERR.

(** ** Macros of the driver header

    The macros of [py32f4xx_hal_uart.h] and [py32f4xx_hal_def.h] the driver
    uses; the two headers are not among the sources. *)

(** Modelled from the spec: [__HAL_LOCK], the single-acquisition guard that
    rejects re-entry; [None] when the handle is locked, and the calling
    function then returns Busy. *)
Definition __HAL_LOCK (s : System) : option System :=
  match Lock (huart s) with
  | HAL_LOCKED => None
  | HAL_UNLOCKED => Some (on_huart (set_Lock HAL_LOCKED) s)
  end.

(** Modelled from the spec: [__HAL_UNLOCK], the release of the guard. *)
Definition __HAL_UNLOCK (s : System) : System :=
  on_huart (set_Lock HAL_UNLOCKED) s.

(** Modelled from the spec: [__HAL_UART_ENABLE_IT], which enables a
    hardware interrupt source by setting its enable bit. *)
Definition __HAL_UART_ENABLE_IT (it : UART_IT) (s : System) : System :=
  match it with
  | UART_IT_PE => on_CR1 (fun r => SET_BIT r USART_CR1_PEIE) s
  | UART_IT_TXE => on_CR1 (fun r => SET_BIT r USART_CR1_TXEIE) s
  | UART_IT_TC => on_CR1 (fun r => SET_BIT r USART_CR1_TCIE) s
  | UART_IT_RXNE => on_CR1 (fun r => SET_BIT r USART_CR1_RXNEIE) s
  | UART_IT_IDLE => on_CR1 (fun r => SET_BIT r USART_CR1_IDLEIE) s
  | UART_IT_ERR => on_CR3 (fun r => SET_BIT r USART_CR3_EIE) s
  end.

(** Modelled from the spec: [__HAL_UART_DISABLE_IT], which disables an
    interrupt source by clearing its enable bit. *)
Definition __HAL_UART_DISABLE_IT (it : UART_IT) (s : System) : System :=
  match it with
  | UART_IT_PE => on_CR1 (fun r => CLEAR_BIT r USART_CR1_PEIE) s
  | UART_IT_TXE => on_CR1 (fun r => CLEAR_BIT r USART_CR1_TXEIE) s
  | UART_IT_TC => on_CR1 (fun r => CLEAR_BIT r USART_CR1_TCIE) s
  | UART_IT_RXNE => on_CR1 (fun r => CLEAR_BIT r USART_CR1_RXNEIE) s
  | UART_IT_IDLE => on_CR1 (fun r => CLEAR_BIT r USART_CR1_IDLEIE) s
  | UART_IT_ERR => on_CR3 (fun r => CLEAR_BIT r USART_CR3_EIE) s
  end.

(** Modelled from the spec: [__HAL_UART_GET_FLAG], the test of a hardware
    flag in the status register. *)
Definition __HAL_UART_GET_FLAG (s : System) (Flag : Z) : bool :=
  Z.land (SR (Instance (huart s))) Flag =? Flag.

(** Modelled from the spec: [__HAL_UART_CLEAR_FLAG], after which the
    hardware shows the flag reset. *)
Definition __HAL_UART_CLEAR_FLAG (Flag : Z) (s : System) : System :=
  on_SR (fun r => CLEAR_BIT r Flag) s.

(** Modelled from the spec: [__HAL_UART_CLEAR_OREFLAG], which clears a
    stale overrun flag. *)
Definition __HAL_UART_CLEAR_OREFLAG (s : System) : System :=
  on_SR (fun r => CLEAR_BIT r USART_SR_ORE) s.

(** Modelled from the spec: [__HAL_UART_CLEAR_IDLEFLAG], which clears the
    idle-line condition. *)
Definition __HAL_UART_CLEAR_IDLEFLAG (s : System) : System :=
  on_SR (fun r => CLEAR_BIT r USART_SR_IDLE) s.

(** Modelled from the spec: [__HAL_UART_ENABLE], which enables the
    peripheral. *)
Definition __HAL_UART_ENABLE (s : System) : System :=
  on_CR1 (fun r => SET_BIT r USART_CR1_UE) s.

(** Modelled from the spec: [__HAL_UART_DISABLE], which disables the
    peripheral. *)
Definition __HAL_UART_DISABLE (s : System) : System :=
  on_CR1 (fun r => CLEAR_BIT r USART_CR1_UE) s.

(** ** The DMA engine

    The DMA driver ([py32f4xx_hal_dma.c]) is not among the sources, only
    its header is.  Whether the engine accepts a request is its own
    business: each call takes the engine's answer. *)

(** Modelled from the spec: [StartAsync(channel, source, destination,
    length)] of the DMA engine, which returns before the transfer is done
    and invokes the registered callbacks later. *)
Definition HAL_DMA_Start_IT (a : DMA_Answer) (hdma : DMA.DMA_HandleTypeDef)
    (SrcAddress DstAddress DataLength : Z)
  : HAL_StatusTypeDef * DMA.DMA_HandleTypeDef :=
  match dma_status a with
  | HAL_OK => (HAL_OK, DMA.set_Request (Some (SrcAddress, DstAddress, DataLength)) hdma)
  | st => (st, DMA.set_ErrorCode (dma_error a) hdma)
  end.

(** Modelled from the spec: [Abort(channel)] of the DMA engine, blocking. *)
Definition HAL_DMA_Abort (a : DMA_Answer) (hdma : DMA.DMA_HandleTypeDef)
  : HAL_StatusTypeDef * DMA.DMA_HandleTypeDef :=
  match dma_status a with
  | HAL_OK => (HAL_OK, DMA.set_Request None hdma)
  | st => (st, DMA.set_ErrorCode (dma_error a) hdma)
  end.

(** Modelled from the spec: [AbortAsync(channel)] of the DMA engine, which
    schedules the abort-complete callback: the callback fires later, see
    [DMA_IRQ_AbortCplt]. *)
Definition HAL_DMA_Abort_IT (a : DMA_Answer) (hdma : DMA.DMA_HandleTypeDef)
  : HAL_StatusTypeDef * DMA.DMA_HandleTypeDef :=
  match dma_status a with
  | HAL_OK => (HAL_OK, DMA.set_Request None hdma)
  | st => (st, DMA.set_ErrorCode (dma_error a) hdma)
  end.

(** Modelled from the spec: [GetError(channel)] of the DMA engine. *)
Definition HAL_DMA_GetError (hdma : DMA.DMA_HandleTypeDef) : Z :=
  DMA.ErrorCode hdma.

(** ** Private functions: end of a transfer *)

Definition UART_EndTxTransfer (s : System) : System :=
  (* Disable TXEIE and TCIE interrupts *)
  let s := on_CR1 (fun r => CLEAR_BIT r (Z.lor USART_CR1_TXEIE USART_CR1_TCIE)) s in
  (* At end of Tx process, restore huart->gState to Ready *)
  on_huart (set_gState HAL_UART_STATE_READY) s.

Definition UART_EndRxTransfer (s : System) : System :=
  (* Disable RXNE, PE and ERR interrupts *)
  let s := on_CR1 (fun r => CLEAR_BIT r (Z.lor USART_CR1_RXNEIE USART_CR1_PEIE)) s in
  let s := on_CR3 (fun r => CLEAR_BIT r USART_CR3_EIE) s in
  (* At end of Rx process, restore huart->RxState to Ready *)
  on_huart (set_RxState HAL_UART_STATE_READY) s.

(** The 9 bits / no parity configuration, in which a unit is a [uint16_t]. *)
Definition units_are_u16 (s : System) : bool :=
  (WordLength (Init (huart s)) =? UART_WORDLENGTH_9B) &&
  (Parity (Init (huart s)) =? UART_PARITY_NONE).

(** ** Blocking transfers

    What the hardware shows at one turn of a polling loop: the status
    register, the data register and the tick counter. *)
Record HwSample := mkSample { hw_SR : Z; hw_DR : Z; hw_tick : Z }.

Definition hardware (e : HwSample) (s : System) : System :=
  on_Instance (fun u => set_DR (hw_DR e) (set_SR (hw_SR e) u)) s.

(** [(HAL_GetTick() - Tickstart) > Timeout], on [uint32_t]. *)
Definition elapsed (e : HwSample) (Tickstart Timeout : Z) : bool :=
  (hw_tick e - Tickstart) mod 2 ^ 32 >? Timeout.

(** The polling loop consumes one sample per turn; [None] when the samples
    end before the loop does. *)
Fixpoint UART_WaitOnFlagUntilTimeout (Flag : Z) (Status : FlagStatus)
    (Tickstart Timeout : Z) (s : System) (env : list HwSample)
  : option (HAL_StatusTypeDef * System * list HwSample) :=
  match env with
  | [] => None
  | e :: env =>
    let s := hardware e s in
    (* Wait until flag is set *)
    if FlagStatus_eqb (if __HAL_UART_GET_FLAG s Flag then SET else RESET) Status
    then
      (* Check for the Timeout *)
      if negb (Timeout =? HAL_MAX_DELAY) &&
         ((Timeout =? 0) || elapsed e Tickstart Timeout)
      then
        (* Disable TXE, RXNE, PE and ERR interrupts for the interrupt process *)
        let s := on_CR1 (fun r => CLEAR_BIT r
                   (Z.lor (Z.lor USART_CR1_RXNEIE USART_CR1_PEIE) USART_CR1_TXEIE)) s in
        let s := on_CR3 (fun r => CLEAR_BIT r USART_CR3_EIE) s in
        let s := on_huart (set_gState HAL_UART_STATE_READY) s in
        let s := on_huart (set_RxState HAL_UART_STATE_READY) s in
        (* Process Unlocked *)
        let s := __HAL_UNLOCK s in
        Some (HAL_TIMEOUT, s, env)
      else UART_WaitOnFlagUntilTimeout Flag Status Tickstart Timeout s env
    else Some (HAL_OK, s, env)
  end.

(** [while (huart->TxXferCount > 0U)]: one turn per unit, [n] bounds the
    number of turns. *)
Fixpoint Transmit_loop (n : nat) (pdata8bits pdata16bits : Z)
    (tickstart Timeout : Z) (s : System) (env : list HwSample)
  : option (HAL_StatusTypeDef * System * list HwSample) :=
  if TxXferCount (huart s) >? 0 then
    match n with
    | O => None
    | S n =>
      match UART_WaitOnFlagUntilTimeout UART_FLAG_TXE RESET tickstart Timeout s env with
      | None => None
      | Some (HAL_OK, s, env) =>
        let s := on_huart (fun h => set_TxXferCount ((TxXferCount h - 1) mod 2 ^ 16) h)
                   (if pdata8bits =? 0
                    then write_DR (Z.land (load16 (ram s) pdata16bits) 0x01FF) s
                    else write_DR (Z.land (load8 (ram s) pdata8bits) 0xFF) s) in
        if pdata8bits =? 0
        then Transmit_loop n pdata8bits ((pdata16bits + 2) mod 2 ^ 32) tickstart Timeout s env
        else Transmit_loop n ((pdata8bits + 1) mod 2 ^ 32) pdata16bits tickstart Timeout s env
      | Some (_, s, env) => Some (HAL_TIMEOUT, s, env)
      end
    end
  else Some (HAL_OK, s, env).

(** [tickstart] is what [HAL_GetTick()] returns at entry. *)
Definition HAL_UART_Transmit (pData Size Timeout : Z) (tickstart : Z)
    (env : list HwSample) (s : System) : option (HAL_StatusTypeDef * System) :=
  (* Check that a Tx process is not already ongoing *)
  if HAL_UART_StateTypeDef_eqb (gState (huart s)) HAL_UART_STATE_READY then
    if (pData =? 0) || (Size =? 0) then Some (HAL_ERROR, s)
    else if units_are_u16 s && negb (Z.land pData 1 =? 0) then Some (HAL_ERROR, s)
    else
      (* Process Locked *)
      match __HAL_LOCK s with
      | None => Some (HAL_BUSY, s)
      | Some s =>
        let s := on_huart (set_ErrorCode HAL_UART_ERROR_NONE) s in
        let s := on_huart (set_gState HAL_UART_STATE_BUSY_TX) s in
        let s := on_huart (set_TxXferSize Size) s in
        let s := on_huart (set_TxXferCount Size) s in
        let pdata8bits := if units_are_u16 s then 0 else pData in
        let pdata16bits := if units_are_u16 s then pData else 0 in
        match Transmit_loop (Z.to_nat Size) pdata8bits pdata16bits tickstart Timeout s env with
        | None => None
        | Some (HAL_OK, s, env) =>
          match UART_WaitOnFlagUntilTimeout UART_FLAG_TC RESET tickstart Timeout s env with
          | None => None
          | Some (HAL_OK, s, _) =>
            (* At end of Tx process, restore huart->gState to Ready *)
            let s := on_huart (set_gState HAL_UART_STATE_READY) s in
            (* Process Unlocked *)
            Some (HAL_OK, __HAL_UNLOCK s)
          | Some (_, s, _) => Some (HAL_TIMEOUT, s)
          end
        | Some (st, s, _) => Some (st, s)
        end
      end
  else Some (HAL_BUSY, s).

(** [while (huart->RxXferCount > 0U)] *)
Fixpoint Receive_loop (n : nat) (pdata8bits pdata16bits : Z)
    (tickstart Timeout : Z) (s : System) (env : list HwSample)
  : option (HAL_StatusTypeDef * System * list HwSample) :=
  if RxXferCount (huart s) >? 0 then
    match n with
    | O => None
    | S n =>
      match UART_WaitOnFlagUntilTimeout UART_FLAG_RXNE RESET tickstart Timeout s env with
      | None => None
      | Some (HAL_OK, s, env) =>
        let s := on_huart (fun h => set_RxXferCount ((RxXferCount h - 1) mod 2 ^ 16) h)
                   (if pdata8bits =? 0
                    then set_ram (store16 (ram s) pdata16bits
                                    (Z.land (DR (Instance (huart s))) 0x1FF)) s
                    else set_ram (store8 (ram s) pdata8bits
                                    (Z.land (DR (Instance (huart s))) 0xFF)) s) in
        if pdata8bits =? 0
        then Receive_loop n pdata8bits ((pdata16bits + 2) mod 2 ^ 32) tickstart Timeout s env
        else Receive_loop n ((pdata8bits + 1) mod 2 ^ 32) pdata16bits tickstart Timeout s env
      | Some (_, s, env) => Some (HAL_TIMEOUT, s, env)
      end
    end
  else Some (HAL_OK, s, env).

Definition HAL_UART_Receive (pData Size Timeout : Z) (tickstart : Z)
    (env : list HwSample) (s : System) : option (HAL_StatusTypeDef * System) :=
  (* Check that a Rx process is not already ongoing *)
  if HAL_UART_StateTypeDef_eqb (RxState (huart s)) HAL_UART_STATE_READY then
    if (pData =? 0) || (Size =? 0) then Some (HAL_ERROR, s)
    else if units_are_u16 s && negb (Z.land pData 1 =? 0) then Some (HAL_ERROR, s)
    else
      (* Process Locked *)
      match __HAL_LOCK s with
      | None => Some (HAL_BUSY, s)
      | Some s =>
        let s := on_huart (set_ErrorCode HAL_UART_ERROR_NONE) s in
        let s := on_huart (set_RxState HAL_UART_STATE_BUSY_RX) s in
        let s := on_huart (set_RxXferSize Size) s in
        let s := on_huart (set_RxXferCount Size) s in
        let pdata8bits := if units_are_u16 s then 0 else pData in
        let pdata16bits := if units_are_u16 s then pData else 0 in
        match Receive_loop (Z.to_nat Size) pdata8bits pdata16bits tickstart Timeout s env with
        | None => None
        | Some (HAL_OK, s, _) =>
          (* At end of Rx process, restore huart->RxState to Ready *)
          let s := on_huart (set_RxState HAL_UART_STATE_READY) s in
          (* Process Unlocked *)
          Some (HAL_OK, __HAL_UNLOCK s)
        | Some (st, s, _) => Some (st, s)
        end
      end
  else Some (HAL_BUSY, s).

(** ** Interrupt-mode and DMA-mode transfer starts *)

Definition HAL_UART_Transmit_IT (pData Size : Z) (s : System)
  : HAL_StatusTypeDef * System :=
  (* Check that a Tx process is not already ongoing *)
  if HAL_UART_StateTypeDef_eqb (gState (huart s)) HAL_UART_STATE_READY then
    if (pData =? 0) || (Size =? 0) then (HAL_ERROR, s)
    else
      match __HAL_LOCK s with
      | None => (HAL_BUSY, s)
      | Some s =>
        let s := on_huart (set_pTxBuffPtr pData) s in
        let s := on_huart (set_TxXferSize Size) s in
        let s := on_huart (set_TxXferCount Size) s in
        let s := on_huart (set_ErrorCode HAL_UART_ERROR_NONE) s in
        let s := on_huart (set_gState HAL_UART_STATE_BUSY_TX) s in
        (* Process Unlocked *)
        let s := __HAL_UNLOCK s in
        (* Enable the UART Transmit data register empty Interrupt *)
        let s := __HAL_UART_ENABLE_IT UART_IT_TXE s in
        (HAL_OK, s)
      end
  else (HAL_BUSY, s).

Definition HAL_UART_Receive_IT (pData Size : Z) (s : System)
  : HAL_StatusTypeDef * System :=
  (* Check that a Rx process is not already ongoing *)
  if HAL_UART_StateTypeDef_eqb (RxState (huart s)) HAL_UART_STATE_READY then
    if (pData =? 0) || (Size =? 0) then (HAL_ERROR, s)
    else
      match __HAL_LOCK s with
      | None => (HAL_BUSY, s)
      | Some s =>
        let s := on_huart (set_pRxBuffPtr pData) s in
        let s := on_huart (set_RxXferSize Size) s in
        let s := on_huart (set_RxXferCount Size) s in
        let s := on_huart (set_ErrorCode HAL_UART_ERROR_NONE) s in
        let s := on_huart (set_RxState HAL_UART_STATE_BUSY_RX) s in
        (* Process Unlocked *)
        let s := __HAL_UNLOCK s in
        (* Enable the UART Parity Error Interrupt *)
        let s := __HAL_UART_ENABLE_IT UART_IT_PE s in
        (* Enable the UART Error Interrupt: (Frame error, noise error, overrun error) *)
        let s := __HAL_UART_ENABLE_IT UART_IT_ERR s in
        (* Enable the UART Data Register not empty Interrupt *)
        let s := __HAL_UART_ENABLE_IT UART_IT_RXNE s in
        (HAL_OK, s)
      end
  else (HAL_BUSY, s).

(** The DMA starts write through [huart->hdmatx] and [huart->hdmarx]
    without a test: with no channel bound the source dereferences [NULL],
    and the model has no result ([None]).  [DR_address] is
    [&huart->Instance->DR]. *)
Definition DR_address (s : System) : Z :=
  Instance_base (huart s) + USART_DR_offset.

Definition HAL_UART_Transmit_DMA (dma : DMA_Answer) (pData Size : Z) (s : System)
  : option (HAL_StatusTypeDef * System) :=
  (* Check that a Tx process is not already ongoing *)
  if HAL_UART_StateTypeDef_eqb (gState (huart s)) HAL_UART_STATE_READY then
    if (pData =? 0) || (Size =? 0) then Some (HAL_ERROR, s)
    else
      match __HAL_LOCK s with
      | None => Some (HAL_BUSY, s)
      | Some s =>
        let s := on_huart (set_pTxBuffPtr pData) s in
        let s := on_huart (set_TxXferSize Size) s in
        let s := on_huart (set_TxXferCount Size) s in
        let s := on_huart (set_ErrorCode HAL_UART_ERROR_NONE) s in
        let s := on_huart (set_gState HAL_UART_STATE_BUSY_TX) s in
        match hdmatx (huart s) with
        | None => None
        | Some _ =>
          (* Set the UART DMA transfer complete callback *)
          let s := on_hdmatx (DMA.set_XferCpltCallback (Some PTR_UART_DMATransmitCplt)) s in
          (* Set the UART DMA Half transfer complete callback *)
          let s := on_hdmatx (DMA.set_XferHalfCpltCallback (Some PTR_UART_DMATxHalfCplt)) s in
          (* Set the DMA error callback *)
          let s := on_hdmatx (DMA.set_XferErrorCallback (Some PTR_UART_DMAError)) s in
          (* Set the DMA abort callback *)
          let s := on_hdmatx (DMA.set_XferAbortCallback None) s in
          (* Enable the UART transmit DMA channel *)
          let s := on_hdmatx (fun d => snd (HAL_DMA_Start_IT dma d pData (DR_address s) Size)) s in
          (* Clear the TC flag in the SR register by writing 0 to it *)
          let s := __HAL_UART_CLEAR_FLAG UART_FLAG_TC s in
          (* Process Unlocked *)
          let s := __HAL_UNLOCK s in
          (* Enable the DMA transfer for transmit request *)
          let s := on_CR3 (fun r => SET_BIT r USART_CR3_DMAT) s in
          Some (HAL_OK, s)
        end
      end
  else Some (HAL_BUSY, s).

Definition HAL_UART_Receive_DMA (dma : DMA_Answer) (pData Size : Z) (s : System)
  : option (HAL_StatusTypeDef * System) :=
  (* Check that a Rx process is not already ongoing *)
  if HAL_UART_StateTypeDef_eqb (RxState (huart s)) HAL_UART_STATE_READY then
    if (pData =? 0) || (Size =? 0) then Some (HAL_ERROR, s)
    else if units_are_u16 s && negb (Z.land pData 1 =? 0) then Some (HAL_ERROR, s)
    else
      match __HAL_LOCK s with
      | None => Some (HAL_BUSY, s)
      | Some s =>
        let s := on_huart (set_pRxBuffPtr pData) s in
        let s := on_huart (set_RxXferSize Size) s in
        let s := on_huart (set_ErrorCode HAL_UART_ERROR_NONE) s in
        let s := on_huart (set_RxState HAL_UART_STATE_BUSY_RX) s in
        match hdmarx (huart s) with
        | None => None
        | Some _ =>
          (* Set the UART DMA transfer complete callback *)
          let s := on_hdmarx (DMA.set_XferCpltCallback (Some PTR_UART_DMAReceiveCplt)) s in
          (* Set the UART DMA Half transfer complete callback *)
          let s := on_hdmarx (DMA.set_XferHalfCpltCallback (Some PTR_UART_DMARxHalfCplt)) s in
          (* Set the DMA error callback *)
          let s := on_hdmarx (DMA.set_XferErrorCallback (Some PTR_UART_DMAError)) s in
          (* Set the DMA abort callback *)
          let s := on_hdmarx (DMA.set_XferAbortCallback None) s in
          (* Enable the DMA channel *)
          let s := on_hdmarx (fun d => snd (HAL_DMA_Start_IT dma d (DR_address s)
                                              (pRxBuffPtr (huart s)) Size)) s in
          (* Clear the Overrun flag just before enabling the DMA Rx request *)
          let s := __HAL_UART_CLEAR_OREFLAG s in
          (* Process Unlocked *)
          let s := __HAL_UNLOCK s in
          (* Enable the UART Parity Error Interrupt *)
          let s := on_CR1 (fun r => SET_BIT r USART_CR1_PEIE) s in
          (* Enable the UART Error Interrupt: (Frame error, noise error, overrun error) *)
          let s := on_CR3 (fun r => SET_BIT r USART_CR3_EIE) s in
          (* Enable the DMA transfer for the receiver request *)
          let s := on_CR3 (fun r => SET_BIT r USART_CR3_DMAR) s in
          Some (HAL_OK, s)
        end
      end
  else Some (HAL_BUSY, s).

(** ** Private functions: one unit in interrupt mode *)

Definition UART_Transmit_IT (s : System) : HAL_StatusTypeDef * System :=
  (* Check that a Tx process is ongoing *)
  if HAL_UART_StateTypeDef_eqb (gState (huart s)) HAL_UART_STATE_BUSY_TX then
    let s :=
      if units_are_u16 s then
        let s := write_DR (Z.land (load16 (ram s) (pTxBuffPtr (huart s))) 0x01FF) s in
        on_huart (fun h => set_pTxBuffPtr ((pTxBuffPtr h + 2) mod 2 ^ 32) h) s
      else
        let s := write_DR (Z.land (load8 (ram s) (pTxBuffPtr (huart s))) 0x00FF) s in
        on_huart (fun h => set_pTxBuffPtr ((pTxBuffPtr h + 1) mod 2 ^ 32) h) s in
    let s := on_huart (fun h => set_TxXferCount ((TxXferCount h - 1) mod 2 ^ 16) h) s in
    if TxXferCount (huart s) =? 0 then
      (* Disable the UART Transmit Complete Interrupt *)
      let s := __HAL_UART_DISABLE_IT UART_IT_TXE s in
      (* Enable the UART Transmit Complete Interrupt *)
      let s := __HAL_UART_ENABLE_IT UART_IT_TC s in
      (HAL_OK, s)
    else (HAL_OK, s)
  else (HAL_BUSY, s).

Definition UART_EndTransmit_IT (s : System) : HAL_StatusTypeDef * System :=
  (* Disable the UART Transmit Complete Interrupt *)
  let s := __HAL_UART_DISABLE_IT UART_IT_TC s in
  (* Tx process is ended, restore huart->gState to Ready *)
  let s := on_huart (set_gState HAL_UART_STATE_READY) s in
  let s := invoke HAL_UART_TxCpltCallback s in
  (HAL_OK, s).

Definition UART_Receive_IT (s : System) : HAL_StatusTypeDef * System :=
  (* Check that a Rx process is ongoing *)
  if HAL_UART_StateTypeDef_eqb (RxState (huart s)) HAL_UART_STATE_BUSY_RX then
    let s :=
      if units_are_u16 s then
        let s := set_ram (store16 (ram s) (pRxBuffPtr (huart s))
                            (Z.land (DR (Instance (huart s))) 0x01FF)) s in
        on_huart (fun h => set_pRxBuffPtr ((pRxBuffPtr h + 2) mod 2 ^ 32) h) s
      else
        let s := set_ram (store8 (ram s) (pRxBuffPtr (huart s))
                            (Z.land (DR (Instance (huart s))) 0x00FF)) s in
        on_huart (fun h => set_pRxBuffPtr ((pRxBuffPtr h + 1) mod 2 ^ 32) h) s in
    let s := on_huart (fun h => set_RxXferCount ((RxXferCount h - 1) mod 2 ^ 16) h) s in
    if RxXferCount (huart s) =? 0 then
      (* Disable the UART Data Register not empty Interrupt *)
      let s := __HAL_UART_DISABLE_IT UART_IT_RXNE s in
      (* Disable the UART Parity Error Interrupt *)
      let s := __HAL_UART_DISABLE_IT UART_IT_PE s in
      (* Disable the UART Error Interrupt: (Frame error, noise error, overrun error) *)
      let s := __HAL_UART_DISABLE_IT UART_IT_ERR s in
      (* Rx process is completed, restore huart->RxState to Ready *)
      let s := on_huart (set_RxState HAL_UART_STATE_READY) s in
      let s := invoke HAL_UART_RxCpltCallback s in
      (HAL_OK, s)
    else (HAL_OK, s)
  else (HAL_BUSY, s).

(** ** The DMA completion bridge

    Each function is called by the DMA engine with the channel it is
    registered on; [huart] is the channel's [Parent]. *)

Definition UART_DMATransmitCplt (hdma : DMA.DMA_HandleTypeDef) (s : System) : System :=
  (* DMA Normal mode *)
  if Z.land (DMA.CCR hdma) DMA_CCR_CIRC =? 0 then
    let s := on_huart (set_TxXferCount 0) s in
    (* Disable the DMA transfer for transmit request *)
    let s := on_CR3 (fun r => CLEAR_BIT r USART_CR3_DMAT) s in
    (* Enable the UART Transmit Complete Interrupt *)
    on_CR1 (fun r => SET_BIT r USART_CR1_TCIE) s
  (* DMA Circular mode *)
  else invoke HAL_UART_TxCpltCallback s.

Definition UART_DMATxHalfCplt (hdma : DMA.DMA_HandleTypeDef) (s : System) : System :=
  invoke HAL_UART_TxHalfCpltCallback s.

Definition UART_DMAReceiveCplt (hdma : DMA.DMA_HandleTypeDef) (s : System) : System :=
  let s :=
    (* DMA Normal mode *)
    if Z.land (DMA.CCR hdma) DMA_CCR_CIRC =? 0 then
      let s := on_huart (set_RxXferCount 0) s in
      (* Disable RXNE, PE and ERR interrupts *)
      let s := on_CR1 (fun r => CLEAR_BIT r USART_CR1_PEIE) s in
      let s := on_CR3 (fun r => CLEAR_BIT r USART_CR3_EIE) s in
      (* Disable the DMA transfer for the receiver request *)
      let s := on_CR3 (fun r => CLEAR_BIT r USART_CR3_DMAR) s in
      (* At end of Rx process, restore huart->RxState to Ready *)
      on_huart (set_RxState HAL_UART_STATE_READY) s
    else s in
  invoke HAL_UART_RxCpltCallback s.

Definition UART_DMARxHalfCplt (hdma : DMA.DMA_HandleTypeDef) (s : System) : System :=
  invoke HAL_UART_RxHalfCpltCallback s.

Definition UART_DMAError (hdma : DMA.DMA_HandleTypeDef) (s : System) : System :=
  (* Stop UART DMA Tx request if ongoing *)
  let dmarequest := HAL_IS_BIT_SET (CR3 (Instance (huart s))) USART_CR3_DMAT in
  let s :=
    if HAL_UART_StateTypeDef_eqb (gState (huart s)) HAL_UART_STATE_BUSY_TX && dmarequest
    then UART_EndTxTransfer (on_huart (set_TxXferCount 0) s)
    else s in
  (* Stop UART DMA Rx request if ongoing *)
  let dmarequest := HAL_IS_BIT_SET (CR3 (Instance (huart s))) USART_CR3_DMAR in
  let s :=
    if HAL_UART_StateTypeDef_eqb (RxState (huart s)) HAL_UART_STATE_BUSY_RX && dmarequest
    then UART_EndRxTransfer (on_huart (set_RxXferCount 0) s)
    else s in
  let s := on_huart (fun h => set_ErrorCode (Z.lor (ErrorCode h) HAL_UART_ERROR_DMA) h) s in
  invoke HAL_UART_ErrorCallback s.

Definition UART_DMAAbortOnError (hdma : DMA.DMA_HandleTypeDef) (s : System) : System :=
  let s := on_huart (set_RxXferCount 0) s in
  let s := on_huart (set_TxXferCount 0) s in
  invoke HAL_UART_ErrorCallback s.

(** [ptr != NULL] on a callback field of a channel pointer that may itself
    be [NULL]. *)
Definition abort_callback_bound (ch : option DMA.DMA_HandleTypeDef) : bool :=
  match ch with
  | Some d => match DMA.XferAbortCallback d with Some _ => true | None => false end
  | None => false
  end.

Definition UART_DMATxAbortCallback (hdma : DMA.DMA_HandleTypeDef) (s : System) : System :=
  let s := on_hdmatx (DMA.set_XferAbortCallback None) s in
  (* Check if an Abort process is still ongoing *)
  if abort_callback_bound (hdmarx (huart s)) then s
  else
    (* No Abort process still ongoing : All DMA channels are aborted *)
    let s := on_huart (set_TxXferCount 0) s in
    let s := on_huart (set_RxXferCount 0) s in
    (* Reset ErrorCode *)
    let s := on_huart (set_ErrorCode HAL_UART_ERROR_NONE) s in
    (* Restore huart->gState and huart->RxState to Ready *)
    let s := on_huart (set_gState HAL_UART_STATE_READY) s in
    let s := on_huart (set_RxState HAL_UART_STATE_READY) s in
    (* Call user Abort complete callback *)
    invoke HAL_UART_AbortCpltCallback s.

Definition UART_DMARxAbortCallback (hdma : DMA.DMA_HandleTypeDef) (s : System) : System :=
  let s := on_hdmarx (DMA.set_XferAbortCallback None) s in
  (* Check if an Abort process is still ongoing *)
  if abort_callback_bound (hdmatx (huart s)) then s
  else
    (* No Abort process still ongoing : All DMA channels are aborted *)
    let s := on_huart (set_TxXferCount 0) s in
    let s := on_huart (set_RxXferCount 0) s in
    (* Reset ErrorCode *)
    let s := on_huart (set_ErrorCode HAL_UART_ERROR_NONE) s in
    (* Restore huart->gState and huart->RxState to Ready *)
    let s := on_huart (set_gState HAL_UART_STATE_READY) s in
    let s := on_huart (set_RxState HAL_UART_STATE_READY) s in
    (* Call user Abort complete callback *)
    invoke HAL_UART_AbortCpltCallback s.

Definition UART_DMATxOnlyAbortCallback (hdma : DMA.DMA_HandleTypeDef) (s : System) : System :=
  let s := on_huart (set_TxXferCount 0) s in
  (* Restore huart->gState to Ready *)
  let s := on_huart (set_gState HAL_UART_STATE_READY) s in
  invoke HAL_UART_AbortTransmitCpltCallback s.

Definition UART_DMARxOnlyAbortCallback (hdma : DMA.DMA_HandleTypeDef) (s : System) : System :=
  let s := on_huart (set_RxXferCount 0) s in
  (* Restore huart->RxState to Ready *)
  let s := on_huart (set_RxState HAL_UART_STATE_READY) s in
  invoke HAL_UART_AbortReceiveCpltCallback s.

(** A call through a callback field: [hdma->XferAbortCallback(hdma)]. *)
Definition call_DMA_callback (f : DMA_CallbackTypeDef)
    (hdma : DMA.DMA_HandleTypeDef) (s : System) : System :=
  match f with
  | PTR_UART_DMATransmitCplt => UART_DMATransmitCplt hdma s
  | PTR_UART_DMATxHalfCplt => UART_DMATxHalfCplt hdma s
  | PTR_UART_DMAReceiveCplt => UART_DMAReceiveCplt hdma s
  | PTR_UART_DMARxHalfCplt => UART_DMARxHalfCplt hdma s
  | PTR_UART_DMAError => UART_DMAError hdma s
  | PTR_UART_DMAAbortOnError => UART_DMAAbortOnError hdma s
  | PTR_UART_DMATxAbortCallback => UART_DMATxAbortCallback hdma s
  | PTR_UART_DMARxAbortCallback => UART_DMARxAbortCallback hdma s
  | PTR_UART_DMATxOnlyAbortCallback => UART_DMATxOnlyAbortCallback hdma s
  | PTR_UART_DMARxOnlyAbortCallback => UART_DMARxOnlyAbortCallback hdma s
  end.

(** The two channels of the handle. *)
Inductive DMA_Direction := DMA_TX | DMA_RX.

Definition DMA_channel (dir : DMA_Direction) (s : System) : option DMA.DMA_HandleTypeDef :=
  match dir with
  | DMA_TX => hdmatx (huart s)
  | DMA_RX => hdmarx (huart s)
  end.

(** Modelled from the spec: the abort-complete event of the DMA engine,
    whose driver is not among the sources.  When the teardown of a channel
    ends, the engine calls the abort-complete callback registered on that
    channel, if one is registered. *)
Definition DMA_IRQ_AbortCplt (dir : DMA_Direction) (s : System) : System :=
  match DMA_channel dir s with
  | Some hdma =>
    match DMA.XferAbortCallback hdma with
    | Some f => call_DMA_callback f hdma s
    | None => s
    end
  | None => s
  end.

(** The abort completions of a list of channels, delivered in order. *)
Fixpoint DMA_IRQ_AbortCplts (dirs : list DMA_Direction) (s : System) : System :=
  match dirs with
  | [] => s
  | dir :: dirs => DMA_IRQ_AbortCplts dirs (DMA_IRQ_AbortCplt dir s)
  end.

Definition DMA_Direction_eqb (a b : DMA_Direction) : bool :=
  match a, b with
  | DMA_TX, DMA_TX | DMA_RX, DMA_RX => true
  | _, _ => false
  end.

(** ** Abort

    A function body that may leave early: [Next] goes on with the next
    statement, [Return] is a [return] statement. *)
Inductive Flow :=
| Next (s : System)
| Return (st : HAL_StatusTypeDef) (s : System).

Definition and_then (f : Flow) (k : System -> Flow) : Flow :=
  match f with
  | Next s => k s
  | Return st s => Return st s
  end.

Notation "'do' s '<-' f ';' k" := (and_then f (fun s => k))
  (at level 10, s name, f at level 100, k at level 200).

Definition returned (f : Flow) : HAL_StatusTypeDef * System :=
  match f with
  | Next s => (HAL_OK, s)
  | Return st s => (st, s)
  end.

Definition HAL_UART_Abort (dma_tx dma_rx : DMA_Answer) (s : System)
  : HAL_StatusTypeDef * System :=
  (* Disable TXEIE, TCIE, RXNE, PE and ERR interrupts *)
  let s := on_CR1 (fun r => CLEAR_BIT r
             (Z.lor (Z.lor (Z.lor USART_CR1_RXNEIE USART_CR1_PEIE) USART_CR1_TXEIE)
                    USART_CR1_TCIE)) s in
  let s := on_CR3 (fun r => CLEAR_BIT r USART_CR3_EIE) s in
  returned (
    do s <-
      (* Disable the UART DMA Tx request if enabled *)
      (if HAL_IS_BIT_SET (CR3 (Instance (huart s))) USART_CR3_DMAT then
         let s := on_CR3 (fun r => CLEAR_BIT r USART_CR3_DMAT) s in
         (* Abort the UART DMA Tx channel: use blocking DMA Abort API (no callback) *)
         match hdmatx (huart s) with
         | Some _ =>
           let s := on_hdmatx (DMA.set_XferAbortCallback None) s in
           match hdmatx (huart s) with
           | Some hdma =>
             let r := HAL_DMA_Abort dma_tx hdma in
             let s := on_huart (set_hdmatx (Some (snd r))) s in
             if negb (HAL_StatusTypeDef_eqb (fst r) HAL_OK) &&
                (HAL_DMA_GetError (snd r) =? HAL_DMA_ERROR_TIMEOUT)
             then
               (* Set error code to DMA *)
               Return HAL_TIMEOUT (on_huart (set_ErrorCode HAL_UART_ERROR_DMA) s)
             else Next s
           | None => Next s
           end
         | None => Next s
         end
       else Next s);
    do s <-
      (* Disable the UART DMA Rx request if enabled *)
      (if HAL_IS_BIT_SET (CR3 (Instance (huart s))) USART_CR3_DMAR then
         let s := on_CR3 (fun r => CLEAR_BIT r USART_CR3_DMAR) s in
         (* Abort the UART DMA Rx channel: use blocking DMA Abort API (no callback) *)
         match hdmarx (huart s) with
         | Some _ =>
           let s := on_hdmarx (DMA.set_XferAbortCallback None) s in
           match hdmarx (huart s) with
           | Some hdma =>
             let r := HAL_DMA_Abort dma_rx hdma in
             let s := on_huart (set_hdmarx (Some (snd r))) s in
             if negb (HAL_StatusTypeDef_eqb (fst r) HAL_OK) &&
                (HAL_DMA_GetError (snd r) =? HAL_DMA_ERROR_TIMEOUT)
             then
               (* Set error code to DMA *)
               Return HAL_TIMEOUT (on_huart (set_ErrorCode HAL_UART_ERROR_DMA) s)
             else Next s
           | None => Next s
           end
         | None => Next s
         end
       else Next s);
    (* Reset Tx and Rx transfer counters *)
    let s := on_huart (set_TxXferCount 0) s in
    let s := on_huart (set_RxXferCount 0) s in
    (* Reset ErrorCode *)
    let s := on_huart (set_ErrorCode HAL_UART_ERROR_NONE) s in
    (* Restore huart->RxState and huart->gState to Ready *)
    let s := on_huart (set_RxState HAL_UART_STATE_READY) s in
    let s := on_huart (set_gState HAL_UART_STATE_READY) s in
    Return HAL_OK s).

(** The asynchronous abort, block by block in the order of the source.
    [AbortCplt] is the local flag of the source: [true] is [0x01U]. *)

(* Disable TXEIE, TCIE, RXNE, PE and ERR interrupts *)
Definition Abort_IT_disable_interrupts (s : System) : System :=
  let s := on_CR1 (fun r => CLEAR_BIT r
             (Z.lor (Z.lor (Z.lor USART_CR1_RXNEIE USART_CR1_PEIE) USART_CR1_TXEIE)
                    USART_CR1_TCIE)) s in
  on_CR3 (fun r => CLEAR_BIT r USART_CR3_EIE) s.

(* DMA Tx Handle is valid: set DMA Abort Complete callback if UART DMA Tx
   request if enabled. Otherwise, set it to NULL *)
Definition Abort_IT_set_tx_callback (s : System) : System :=
  match hdmatx (huart s) with
  | Some _ =>
    if HAL_IS_BIT_SET (CR3 (Instance (huart s))) USART_CR3_DMAT
    then on_hdmatx (DMA.set_XferAbortCallback (Some PTR_UART_DMATxAbortCallback)) s
    else on_hdmatx (DMA.set_XferAbortCallback None) s
  | None => s
  end.

(* DMA Rx Handle is valid: the same for Rx *)
Definition Abort_IT_set_rx_callback (s : System) : System :=
  match hdmarx (huart s) with
  | Some _ =>
    if HAL_IS_BIT_SET (CR3 (Instance (huart s))) USART_CR3_DMAR
    then on_hdmarx (DMA.set_XferAbortCallback (Some PTR_UART_DMARxAbortCallback)) s
    else on_hdmarx (DMA.set_XferAbortCallback None) s
  | None => s
  end.

(* Disable the UART DMA Tx request if enabled *)
Definition Abort_IT_abort_tx (dma_tx : DMA_Answer) (AbortCplt : bool) (s : System)
  : bool * System :=
  if HAL_IS_BIT_SET (CR3 (Instance (huart s))) USART_CR3_DMAT then
    (* Disable DMA Tx at UART level *)
    let s := on_CR3 (fun r => CLEAR_BIT r USART_CR3_DMAT) s in
    (* Abort the UART DMA Tx channel : use non blocking DMA Abort API (callback) *)
    match hdmatx (huart s) with
    | Some hdma =>
      let r := HAL_DMA_Abort_IT dma_tx hdma in
      let s := on_huart (set_hdmatx (Some (snd r))) s in
      if negb (HAL_StatusTypeDef_eqb (fst r) HAL_OK)
      then (AbortCplt, on_hdmatx (DMA.set_XferAbortCallback None) s)
      else (false, s)
    | None => (AbortCplt, s)
    end
  else (AbortCplt, s).

(* Disable the UART DMA Rx request if enabled *)
Definition Abort_IT_abort_rx (dma_rx : DMA_Answer) (AbortCplt : bool) (s : System)
  : bool * System :=
  if HAL_IS_BIT_SET (CR3 (Instance (huart s))) USART_CR3_DMAR then
    let s := on_CR3 (fun r => CLEAR_BIT r USART_CR3_DMAR) s in
    (* Abort the UART DMA Rx channel : use non blocking DMA Abort API (callback) *)
    match hdmarx (huart s) with
    | Some hdma =>
      let r := HAL_DMA_Abort_IT dma_rx hdma in
      let s := on_huart (set_hdmarx (Some (snd r))) s in
      if negb (HAL_StatusTypeDef_eqb (fst r) HAL_OK)
      then (true, on_hdmarx (DMA.set_XferAbortCallback None) s)
      else (false, s)
    | None => (AbortCplt, s)
    end
  else (AbortCplt, s).

(* if no DMA abort complete callback execution is required => call user
   Abort Complete callback *)
Definition Abort_IT_complete (AbortCplt : bool) (s : System)
  : HAL_StatusTypeDef * System :=
  if AbortCplt then
    (* Reset Tx and Rx transfer counters *)
    let s := on_huart (set_TxXferCount 0) s in
    let s := on_huart (set_RxXferCount 0) s in
    (* Reset ErrorCode *)
    let s := on_huart (set_ErrorCode HAL_UART_ERROR_NONE) s in
    (* Restore huart->gState and huart->RxState to Ready *)
    let s := on_huart (set_gState HAL_UART_STATE_READY) s in
    let s := on_huart (set_RxState HAL_UART_STATE_READY) s in
    (* As no DMA to be aborted, call directly user Abort complete callback *)
    (HAL_OK, invoke HAL_UART_AbortCpltCallback s)
  else (HAL_OK, s).

Definition HAL_UART_Abort_IT (dma_tx dma_rx : DMA_Answer) (s : System)
  : HAL_StatusTypeDef * System :=
  let AbortCplt := true in
  let s := Abort_IT_disable_interrupts s in
  let s := Abort_IT_set_tx_callback s in
  let s := Abort_IT_set_rx_callback s in
  let '(AbortCplt, s) := Abort_IT_abort_tx dma_tx AbortCplt s in
  let '(AbortCplt, s) := Abort_IT_abort_rx dma_rx AbortCplt s in
  Abort_IT_complete AbortCplt s.

(** ** The interrupt handler

    The handler block by block, in the order of the source.  [isrflags],
    [cr1its] and [cr3its] are the registers as read at entry; [dma_rx] is
    the answer of the DMA engine to the abort request of the
    blocking-error branch. *)

(* UART parity, noise, frame and Over-Run error interrupt occurred *)
Definition IRQ_accumulate_errors (isrflags cr1its cr3its : Z) (s : System) : System :=
  let s :=
    if flagged isrflags USART_SR_PE && flagged cr1its USART_CR1_PEIE
    then on_huart (fun h => set_ErrorCode (Z.lor (ErrorCode h) HAL_UART_ERROR_PE) h) s
    else s in
  let s :=
    if flagged isrflags USART_SR_NE && flagged cr3its USART_CR3_EIE
    then on_huart (fun h => set_ErrorCode (Z.lor (ErrorCode h) HAL_UART_ERROR_NE) h) s
    else s in
  let s :=
    if flagged isrflags USART_SR_FE && flagged cr3its USART_CR3_EIE
    then on_huart (fun h => set_ErrorCode (Z.lor (ErrorCode h) HAL_UART_ERROR_FE) h) s
    else s in
  if flagged isrflags USART_SR_ORE && flagged cr3its USART_CR3_EIE
  then on_huart (fun h => set_ErrorCode (Z.lor (ErrorCode h) HAL_UART_ERROR_ORE) h) s
  else s.

(* UART in mode Receiver, within the error branch *)
Definition IRQ_drain (isrflags cr1its : Z) (s : System) : System :=
  if flagged isrflags USART_SR_RXNE && flagged cr1its USART_CR1_RXNEIE
  then snd (UART_Receive_IT s)
  else s.

(* Blocking error : transfer is aborted.  Set the UART state ready to be
   able to start again the process, Disable Rx Interrupts, and disable Rx
   DMA request, if ongoing *)
Definition IRQ_blocking_error (dma_rx : DMA_Answer) (s : System) : System :=
  let s := UART_EndRxTransfer s in
  (* Disable the UART DMA Rx request if enabled *)
  if HAL_IS_BIT_SET (CR3 (Instance (huart s))) USART_CR3_DMAR then
    let s := on_CR3 (fun r => CLEAR_BIT r USART_CR3_DMAR) s in
    (* Abort the UART DMA Rx channel *)
    match hdmarx (huart s) with
    | Some hdma =>
      (* Set the UART DMA Abort callback :
         will lead to call HAL_UART_ErrorCallback() at end of DMA abort procedure *)
      let hdma := DMA.set_XferAbortCallback (Some PTR_UART_DMAAbortOnError) hdma in
      let r := HAL_DMA_Abort_IT dma_rx hdma in
      let s := on_huart (set_hdmarx (Some (snd r))) s in
      if negb (HAL_StatusTypeDef_eqb (fst r) HAL_OK) then
        (* Call Directly XferAbortCallback function in case of error *)
        match DMA.XferAbortCallback (snd r) with
        | Some f => call_DMA_callback f (snd r) s
        | None => s
        end
      else s
    | None =>
      (* Call user error callback *)
      invoke HAL_UART_ErrorCallback s
    end
  else
    (* Call user error callback *)
    invoke HAL_UART_ErrorCallback s.

(* Non Blocking error : transfer could go on.
   Error is notified to user through user error callback *)
Definition IRQ_non_blocking_error (s : System) : System :=
  let s := invoke HAL_UART_ErrorCallback s in
  on_huart (set_ErrorCode HAL_UART_ERROR_NONE) s.

(* Idle frame detect, UART in mode Transmitter, UART in mode Transmitter end *)
Definition IRQ_idle_and_transmit (isrflags cr1its : Z) (s : System) : System :=
  let s :=
    if flagged isrflags USART_SR_IDLE && flagged cr1its USART_CR1_IDLEIE
    then invoke HAL_UART_IdleFrameDetectCpltCallback (__HAL_UART_CLEAR_IDLEFLAG s)
    else s in
  if flagged isrflags USART_SR_TXE && flagged cr1its USART_CR1_TXEIE
  then snd (UART_Transmit_IT s)
  else
  if flagged isrflags USART_SR_TC && flagged cr1its USART_CR1_TCIE
  then snd (UART_EndTransmit_IT s)
  else s.

Definition HAL_UART_IRQHandler (dma_rx : DMA_Answer) (s : System) : System :=
  let isrflags := SR (Instance (huart s)) in
  let cr1its := CR1 (Instance (huart s)) in
  let cr3its := CR3 (Instance (huart s)) in
  (* If no error occurs *)
  let errorflags :=
    Z.land isrflags
      (Z.lor (Z.lor (Z.lor USART_SR_PE USART_SR_FE) USART_SR_ORE) USART_SR_NE) in
  if (errorflags =? 0) && flagged isrflags USART_SR_RXNE && flagged cr1its USART_CR1_RXNEIE
  then
    (* UART in mode Receiver *)
    snd (UART_Receive_IT s)
  else
  (* If some errors occur *)
  if negb (errorflags =? 0) &&
     (flagged cr3its USART_CR3_EIE ||
      flagged cr1its (Z.lor USART_CR1_RXNEIE USART_CR1_PEIE))
  then
    let s := IRQ_accumulate_errors isrflags cr1its cr3its s in
    (* Call UART Error Call back function if need be *)
    if negb (ErrorCode (huart s) =? HAL_UART_ERROR_NONE) then
      let s := IRQ_drain isrflags cr1its s in
      (* If Overrun error occurs, or if any error occurs in DMA mode reception,
         consider error as blocking *)
      let dmarequest := HAL_IS_BIT_SET (CR3 (Instance (huart s))) USART_CR3_DMAR in
      if flagged (ErrorCode (huart s)) HAL_UART_ERROR_ORE || dmarequest
      then IRQ_blocking_error dma_rx s
      else IRQ_non_blocking_error s
    else s
  else IRQ_idle_and_transmit isrflags cr1its s.

(** ** Initialization *)

Definition UART_SetConfig (s : System) : System :=
  (* USART CR2 Configuration *)
  let s := on_CR2 (fun r => MODIFY_REG r USART_CR2_STOP (StopBits (Init (huart s)))) s in
  (* USART CR1 Configuration *)
  let tmpreg := Z.lor (Z.lor (WordLength (Init (huart s))) (Parity (Init (huart s))))
                      (Mode (Init (huart s))) in
  let s := on_CR1 (fun r => MODIFY_REG r
             (Z.lor (Z.lor (Z.lor (Z.lor USART_CR1_M USART_CR1_PCE) USART_CR1_PS)
                           USART_CR1_TE) USART_CR1_RE) tmpreg) s in
  (* USART CR3 Configuration *)
  let s := on_CR3 (fun r => MODIFY_REG r (Z.lor USART_CR3_RTSE USART_CR3_CTSE)
                              (HwFlowCtl (Init (huart s)))) s in
  let s := if USART_CR3_OVER8_defined
           then on_CR3 (fun r => MODIFY_REG r USART_CR3_OVER8 (OverSampling (Init (huart s)))) s
           else s in
  (* USART BRR Configuration *)
  let pclk := if Instance_base (huart s) =? USART1
              then HAL_RCC_GetPCLK2Freq else HAL_RCC_GetPCLK1Freq in
  if USART_CR3_OVER8_defined && (OverSampling (Init (huart s)) =? UART_OVERSAMPLING_8)
  then on_Instance (set_BRR (UART_BRR_SAMPLING8 pclk (BaudRate (Init (huart s))))) s
  else on_Instance (set_BRR (UART_BRR_SAMPLING16 pclk (BaudRate (Init (huart s))))) s.

Definition UART_AdvFeatureConfig (s : System) : System :=
  (* if required, configure auto Baud rate detection scheme *)
  if HAL_IS_BIT_SET (AdvFeatureInit (AdvancedInit (huart s))) UART_ADVFEATURE_AUTOBAUDRATE_INIT
  then
    let s := on_CR3 (fun r => MODIFY_REG r USART_CR3_ABREN
                                (AutoBaudRateEnable (AdvancedInit (huart s)))) s in
    (* set auto Baudrate detection parameters if detection is enabled *)
    if AutoBaudRateEnable (AdvancedInit (huart s)) =? UART_ADVFEATURE_AUTOBAUDRATE_ENABLE
    then on_CR3 (fun r => MODIFY_REG r USART_CR3_ABRMOD
                            (AutoBaudRateMode (AdvancedInit (huart s)))) s
    else s
  else s.

(** The argument of the initialization functions: [NULL] or the address
    of the handle of the system. *)
Inductive UART_HandlePtr := NULL | PTR_huart.

(** The part the four variants share up to [__HAL_UART_DISABLE]. *)
Definition Init_prologue (s : System) : System :=
  let s :=
    if HAL_UART_StateTypeDef_eqb (gState (huart s)) HAL_UART_STATE_RESET then
      (* Allocate lock resource and initialize it *)
      let s := on_huart (set_Lock HAL_UNLOCKED) s in
      (* Init the low level hardware : GPIO, CLOCK *)
      invoke HAL_UART_MspInit s
    else s in
  let s := on_huart (set_gState HAL_UART_STATE_BUSY) s in
  (* Disable the peripheral *)
  __HAL_UART_DISABLE s.

(** The part they share from [__HAL_UART_ENABLE]. *)
Definition Init_epilogue (s : System) : HAL_StatusTypeDef * System :=
  (* Enable the peripheral *)
  let s := __HAL_UART_ENABLE s in
  (* Initialize the UART state *)
  let s := on_huart (set_ErrorCode HAL_UART_ERROR_NONE) s in
  let s := on_huart (set_gState HAL_UART_STATE_READY) s in
  let s := on_huart (set_RxState HAL_UART_STATE_READY) s in
  (HAL_OK, s).

Definition HAL_UART_Init (huart_ptr : UART_HandlePtr) (s : System)
  : HAL_StatusTypeDef * System :=
  match huart_ptr with
  | NULL => (HAL_ERROR, s)
  | PTR_huart =>
    let s := Init_prologue s in
    (* Set the UART Communication parameters *)
    let s := UART_SetConfig s in
    let s :=
      if negb (AdvFeatureInit (AdvancedInit (huart s)) =? UART_ADVFEATURE_NO_INIT)
      then UART_AdvFeatureConfig s else s in
    let s := on_CR2 (fun r => CLEAR_BIT r (Z.lor USART_CR2_LINEN USART_CR2_CLKEN)) s in
    let s := on_CR3 (fun r => CLEAR_BIT r
               (Z.lor (Z.lor USART_CR3_SCEN USART_CR3_HDSEL) USART_CR3_IREN)) s in
    Init_epilogue s
  end.

Definition HAL_HalfDuplex_Init (huart_ptr : UART_HandlePtr) (s : System)
  : HAL_StatusTypeDef * System :=
  match huart_ptr with
  | NULL => (HAL_ERROR, s)
  | PTR_huart =>
    let s := Init_prologue s in
    (* Set the UART Communication parameters *)
    let s := UART_SetConfig s in
    let s := on_CR2 (fun r => CLEAR_BIT r (Z.lor USART_CR2_LINEN USART_CR2_CLKEN)) s in
    let s := on_CR3 (fun r => CLEAR_BIT r (Z.lor USART_CR3_IREN USART_CR3_SCEN)) s in
    (* Enable the Half-Duplex mode by setting the HDSEL bit in the CR3 register *)
    let s := on_CR3 (fun r => SET_BIT r USART_CR3_HDSEL) s in
    Init_epilogue s
  end.

Definition HAL_LIN_Init (huart_ptr : UART_HandlePtr) (BreakDetectLength : Z) (s : System)
  : HAL_StatusTypeDef * System :=
  match huart_ptr with
  | NULL => (HAL_ERROR, s)
  | PTR_huart =>
    let s := Init_prologue s in
    (* In LIN mode, stop bit occupies 1 bit, 16 times oversampling, and data
       length occupies 8 bits. *)
    let s := on_huart (fun h =>
               let i := Init h in
               set_Init (mkInit (BaudRate i) UART_WORDLENGTH_8B UART_STOPBITS_1
                                (Parity i) (Mode i) (HwFlowCtl i) UART_OVERSAMPLING_16) h) s in
    let s := UART_SetConfig s in
    let s := on_CR2 (fun r => CLEAR_BIT r USART_CR2_CLKEN) s in
    let s := on_CR3 (fun r => CLEAR_BIT r
               (Z.lor (Z.lor USART_CR3_HDSEL USART_CR3_IREN) USART_CR3_SCEN)) s in
    (* Enable the LIN mode by setting the LINEN bit in the CR2 register *)
    let s := on_CR2 (fun r => SET_BIT r USART_CR2_LINEN) s in
    (* Set the USART LIN Break detection length. *)
    let s := on_CR2 (fun r => CLEAR_BIT r USART_CR2_LBDL) s in
    let s := on_CR2 (fun r => SET_BIT r BreakDetectLength) s in
    Init_epilogue s
  end.

Definition HAL_MultiProcessor_Init (huart_ptr : UART_HandlePtr) (Address WakeUpMethod : Z)
    (s : System) : HAL_StatusTypeDef * System :=
  match huart_ptr with
  | NULL => (HAL_ERROR, s)
  | PTR_huart =>
    let s := Init_prologue s in
    (* Set the UART Communication parameters *)
    let s := UART_SetConfig s in
    let s := on_CR2 (fun r => CLEAR_BIT r (Z.lor USART_CR2_LINEN USART_CR2_CLKEN)) s in
    let s := on_CR3 (fun r => CLEAR_BIT r
               (Z.lor (Z.lor USART_CR3_SCEN USART_CR3_HDSEL) USART_CR3_IREN)) s in
    (* Set the USART address node *)
    let s := on_CR2 (fun r => CLEAR_BIT r USART_CR2_ADD) s in
    let s := on_CR2 (fun r => SET_BIT r Address) s in
    (* Set the wake up method by setting the WAKE bit in the CR1 register *)
    let s := on_CR1 (fun r => CLEAR_BIT r USART_CR1_WAKE) s in
    let s := on_CR1 (fun r => SET_BIT r WakeUpMethod) s in
    Init_epilogue s
  end.

(** ** Vocabulary of the properties *)

(** [__HAL_UART_GET_IT_SOURCE]: whether an interrupt source is enabled. *)
Definition __HAL_UART_GET_IT_SOURCE (it : UART_IT) (s : System) : bool :=
  match it with
  | UART_IT_PE => flagged (CR1 (Instance (huart s))) USART_CR1_PEIE
  | UART_IT_TXE => flagged (CR1 (Instance (huart s))) USART_CR1_TXEIE
  | UART_IT_TC => flagged (CR1 (Instance (huart s))) USART_CR1_TCIE
  | UART_IT_RXNE => flagged (CR1 (Instance (huart s))) USART_CR1_RXNEIE
  | UART_IT_IDLE => flagged (CR1 (Instance (huart s))) USART_CR1_IDLEIE
  | UART_IT_ERR => flagged (CR3 (Instance (huart s))) USART_CR3_EIE
  end.

(** The six transfer-start operations, with the arguments that are not
    the buffer. *)
Inductive TransferStart :=
| Transmit (Timeout tickstart : Z) (env : list HwSample)
| Receive (Timeout tickstart : Z) (env : list HwSample)
| Transmit_IT
| Receive_IT
| Transmit_DMA (dma : DMA_Answer)
| Receive_DMA (dma : DMA_Answer).

Definition transfer_start (op : TransferStart) (pData Size : Z) (s : System)
  : option (HAL_StatusTypeDef * System) :=
  match op with
  | Transmit Timeout tickstart env => HAL_UART_Transmit pData Size Timeout tickstart env s
  | Receive Timeout tickstart env => HAL_UART_Receive pData Size Timeout tickstart env s
  | Transmit_IT => Some (HAL_UART_Transmit_IT pData Size s)
  | Receive_IT => Some (HAL_UART_Receive_IT pData Size s)
  | Transmit_DMA dma => HAL_UART_Transmit_DMA dma pData Size s
  | Receive_DMA dma => HAL_UART_Receive_DMA dma pData Size s
  end.

(** The state of the direction an operation starts a transfer in. *)
Definition direction_state (op : TransferStart) (s : System) : HAL_UART_StateTypeDef :=
  match op with
  | Transmit _ _ _ | Transmit_IT | Transmit_DMA _ => gState (huart s)
  | Receive _ _ _ | Receive_IT | Receive_DMA _ => RxState (huart s)
  end.

(** A poll exceeds the deadline: the flag is still reset and the timeout,
    which is finite, is zero or has elapsed. *)
Definition flag_is_set (e : HwSample) (Flag : Z) : bool :=
  Z.land (hw_SR e) Flag =? Flag.

Definition deadline_passed (Tickstart Timeout : Z) (e : HwSample) : bool :=
  negb (Timeout =? HAL_MAX_DELAY) && ((Timeout =? 0) || elapsed e Tickstart Timeout).

(** The hardware samples on which a blocking call that polls the flags
    [flags], one after the other, meets a poll that exceeds the deadline:
    before that poll every flag either came up or was polled again in
    time. *)
Inductive PollsExpire (Tickstart Timeout : Z) : list Z -> list HwSample -> Prop :=
| expire_here Flag flags e env :
    flag_is_set e Flag = false ->
    deadline_passed Tickstart Timeout e = true ->
    PollsExpire Tickstart Timeout (Flag :: flags) (e :: env)
| expire_later Flag flags e env :
    flag_is_set e Flag = false ->
    deadline_passed Tickstart Timeout e = false ->
    PollsExpire Tickstart Timeout (Flag :: flags) env ->
    PollsExpire Tickstart Timeout (Flag :: flags) (e :: env)
| expire_next Flag flags e env :
    flag_is_set e Flag = true ->
    PollsExpire Tickstart Timeout flags env ->
    PollsExpire Tickstart Timeout (Flag :: flags) (e :: env).

(** The flags a blocking transmit and a blocking receive of [Size] units
    poll. *)
Definition Transmit_flags (Size : Z) : list Z :=
  repeat UART_FLAG_TXE (Z.to_nat Size) ++ [UART_FLAG_TC].

Definition Receive_flags (Size : Z) : list Z :=
  repeat UART_FLAG_RXNE (Z.to_nat Size).

(** The arguments a transfer-start operation accepts in the configuration
    of the handle. *)
Definition aligned_for (s : System) (pData : Z) : bool :=
  negb (units_are_u16 s && negb (Z.land pData 1 =? 0)).

(** The line errors an interrupt entry detects: a flag of the status
    register whose interrupt source is enabled. *)
Definition PE_detected (s : System) : bool :=
  flagged (SR (Instance (huart s))) USART_SR_PE && flagged (CR1 (Instance (huart s))) USART_CR1_PEIE.
Definition NE_detected (s : System) : bool :=
  flagged (SR (Instance (huart s))) USART_SR_NE && flagged (CR3 (Instance (huart s))) USART_CR3_EIE.
Definition FE_detected (s : System) : bool :=
  flagged (SR (Instance (huart s))) USART_SR_FE && flagged (CR3 (Instance (huart s))) USART_CR3_EIE.
Definition ORE_detected (s : System) : bool :=
  flagged (SR (Instance (huart s))) USART_SR_ORE && flagged (CR3 (Instance (huart s))) USART_CR3_EIE.

(** The error code once the detected errors are added to it. *)
Definition accumulated_ErrorCode (s : System) : Z :=
  let c := ErrorCode (huart s) in
  let c := if PE_detected s then Z.lor c HAL_UART_ERROR_PE else c in
  let c := if NE_detected s then Z.lor c HAL_UART_ERROR_NE else c in
  let c := if FE_detected s then Z.lor c HAL_UART_ERROR_FE else c in
  if ORE_detected s then Z.lor c HAL_UART_ERROR_ORE else c.

(** A received unit is waiting and its interrupt is enabled. *)
Definition RXNE_pending (s : System) : bool :=
  flagged (SR (Instance (huart s))) USART_SR_RXNE &&
  flagged (CR1 (Instance (huart s))) USART_CR1_RXNEIE.

(** The state the error branch of the handler works on: the error code
    accumulated, the pending unit drained. *)
Definition drained (s : System) : System :=
  let s := on_huart (set_ErrorCode (accumulated_ErrorCode s)) s in
  if RXNE_pending s then snd (UART_Receive_IT s) else s.

(** No interrupt source of the UART is enabled. *)
Definition no_interrupt_source_enabled (s : System) : bool :=
  negb (__HAL_UART_GET_IT_SOURCE UART_IT_PE s) &&
  negb (__HAL_UART_GET_IT_SOURCE UART_IT_TXE s) &&
  negb (__HAL_UART_GET_IT_SOURCE UART_IT_TC s) &&
  negb (__HAL_UART_GET_IT_SOURCE UART_IT_RXNE s) &&
  negb (__HAL_UART_GET_IT_SOURCE UART_IT_IDLE s) &&
  negb (__HAL_UART_GET_IT_SOURCE UART_IT_ERR s).

(** The writes of the blocking abort when no DMA request is enabled. *)
Definition Abort_without_DMA (s : System) : System :=
  let s := on_CR1 (fun r => CLEAR_BIT r
             (Z.lor (Z.lor (Z.lor USART_CR1_RXNEIE USART_CR1_PEIE) USART_CR1_TXEIE)
                    USART_CR1_TCIE)) s in
  let s := on_CR3 (fun r => CLEAR_BIT r USART_CR3_EIE) s in
  let s := on_huart (set_TxXferCount 0) s in
  let s := on_huart (set_RxXferCount 0) s in
  on_huart (set_ErrorCode HAL_UART_ERROR_NONE) s.

(** What the user abort-complete callback sees when it is called. *)
Definition aborted_view (e : UART_UserCallback * UART_HandleTypeDef) : Prop :=
  fst e = HAL_UART_AbortCpltCallback /\
  gState (snd e) = HAL_UART_STATE_READY /\
  RxState (snd e) = HAL_UART_STATE_READY /\
  ErrorCode (snd e) = HAL_UART_ERROR_NONE /\
  TxXferCount (snd e) = 0 /\
  RxXferCount (snd e) = 0.

(** Both channels are bound; [ptx] and [prx] tell which of them still
    holds its abort callback of the combined abort. *)
Definition abort_pending (s : System) (ptx prx : bool) : Prop :=
  exists dtx drx,
    hdmatx (huart s) = Some dtx /\ hdmarx (huart s) = Some drx /\
    DMA.XferAbortCallback dtx = (if ptx then Some PTR_UART_DMATxAbortCallback else None) /\
    DMA.XferAbortCallback drx = (if prx then Some PTR_UART_DMARxAbortCallback else None).

(** The trace after some steps: one more call, of the abort-complete
    callback on an aborted handle, or no more call. *)
Definition joined (fires : bool) (s s' : System) : Prop :=
  if fires
  then exists h, calls s' = calls s ++ [(HAL_UART_AbortCpltCallback, h)] /\
                 aborted_view (HAL_UART_AbortCpltCallback, h)
  else calls s' = calls s.

(** The polling loops and the unit transfers leave the control registers
    CR1 and CR3 and the trace alone. *)
Definition control_kept (s s' : System) : Prop :=
  CR1 (Instance (huart s')) = CR1 (Instance (huart s)) /\
  CR3 (Instance (huart s')) = CR3 (Instance (huart s)) /\
  calls s' = calls s.

(** What a poll that exceeds the deadline leaves. *)
Definition timed_out (s s' : System) : Prop :=
  gState (huart s') = HAL_UART_STATE_READY /\
  RxState (huart s') = HAL_UART_STATE_READY /\
  Lock (huart s') = HAL_UNLOCKED /\
  CR1 (Instance (huart s')) =
    CLEAR_BIT (CR1 (Instance (huart s)))
      (Z.lor (Z.lor USART_CR1_RXNEIE USART_CR1_PEIE) USART_CR1_TXEIE) /\
  CR3 (Instance (huart s')) = CLEAR_BIT (CR3 (Instance (huart s))) USART_CR3_EIE /\
  calls s' = calls s.

(** The outcome of a loop of polls on samples that hold a poll past the
    deadline: the timeout, or success with such a poll still ahead. *)
Definition expires_or_goes_on (Tickstart Timeout : Z) (flags : list Z) (s : System)
    (r : option (HAL_StatusTypeDef * System * list HwSample)) : Prop :=
  (exists s' env', r = Some (HAL_TIMEOUT, s', env') /\ timed_out s s') \/
  (exists s' env', r = Some (HAL_OK, s', env') /\ control_kept s s' /\
     PollsExpire Tickstart Timeout flags env').

(** A line error is detected at this interrupt entry. *)
Definition error_detected (s : System) : bool :=
  PE_detected s || NE_detected s || FE_detected s || ORE_detected s.

(** ** De-initialization, DMA control and the one-direction aborts *)


(* Tx part of HAL_UART_DMAPause *)
Definition DMAPause_tx (s : System) : System :=
  let dmarequest := HAL_IS_BIT_SET (CR3 (Instance (huart s))) USART_CR3_DMAT in
  if HAL_UART_StateTypeDef_eqb (gState (huart s)) HAL_UART_STATE_BUSY_TX && dmarequest
  then
    (* Disable the UART DMA Tx request *)
    on_CR3 (fun r => CLEAR_BIT r USART_CR3_DMAT) s
  else s.

(* Rx part of HAL_UART_DMAPause *)
Definition DMAPause_rx (s : System) : System :=
  let dmarequest := HAL_IS_BIT_SET (CR3 (Instance (huart s))) USART_CR3_DMAR in
  if HAL_UART_StateTypeDef_eqb (RxState (huart s)) HAL_UART_STATE_BUSY_RX && dmarequest
  then
    (* Disable RXNE, PE and ERR interrupts *)
    let s := on_CR1 (fun r => CLEAR_BIT r USART_CR1_PEIE) s in
    let s := on_CR3 (fun r => CLEAR_BIT r USART_CR3_EIE) s in
    (* Disable the UART DMA Rx request *)
    on_CR3 (fun r => CLEAR_BIT r USART_CR3_DMAR) s
  else s.

Definition HAL_UART_DMAPause (s : System) : HAL_StatusTypeDef * System :=
  (* Process Locked *)
  match __HAL_LOCK s with
  | None => (HAL_BUSY, s)
  | Some s =>
    let s := DMAPause_tx s in
    let s := DMAPause_rx s in
    (* Process Unlocked *)
    (HAL_OK, __HAL_UNLOCK s)
  end.

(* Tx part of HAL_UART_DMAResume *)
Definition DMAResume_tx (s : System) : System :=
  if HAL_UART_StateTypeDef_eqb (gState (huart s)) HAL_UART_STATE_BUSY_TX
  then
    (* Enable the UART DMA Tx request *)
    on_CR3 (fun r => SET_BIT r USART_CR3_DMAT) s
  else s.

(* Rx part of HAL_UART_DMAResume *)
Definition DMAResume_rx (s : System) : System :=
  if HAL_UART_StateTypeDef_eqb (RxState (huart s)) HAL_UART_STATE_BUSY_RX
  then
    (* Clear the Overrun flag before resuming the Rx transfer *)
    let s := __HAL_UART_CLEAR_OREFLAG s in
    (* Reenable PE and ERR interrupts *)
    let s := on_CR1 (fun r => SET_BIT r USART_CR1_PEIE) s in
    let s := on_CR3 (fun r => SET_BIT r USART_CR3_EIE) s in
    (* Enable the UART DMA Rx request *)
    on_CR3 (fun r => SET_BIT r USART_CR3_DMAR) s
  else s.

Definition HAL_UART_DMAResume (s : System) : HAL_StatusTypeDef * System :=
  (* Process Locked *)
  match __HAL_LOCK s with
  | None => (HAL_BUSY, s)
  | Some s =>
    let s := DMAResume_tx s in
    let s := DMAResume_rx s in
    (* Process Unlocked *)
    (HAL_OK, __HAL_UNLOCK s)
  end.

(* Stop UART DMA Tx request if ongoing *)
Definition DMAStop_tx (dma_tx : DMA_Answer) (s : System) : System :=
  let dmarequest := HAL_IS_BIT_SET (CR3 (Instance (huart s))) USART_CR3_DMAT in
  if HAL_UART_StateTypeDef_eqb (gState (huart s)) HAL_UART_STATE_BUSY_TX && dmarequest
  then
    let s := on_CR3 (fun r => CLEAR_BIT r USART_CR3_DMAT) s in
    (* Abort the UART DMA Tx channel *)
    let s := on_hdmatx (fun d => snd (HAL_DMA_Abort dma_tx d)) s in
    UART_EndTxTransfer s
  else s.

(* Stop UART DMA Rx request if ongoing *)
Definition DMAStop_rx (dma_rx : DMA_Answer) (s : System) : System :=
  let dmarequest := HAL_IS_BIT_SET (CR3 (Instance (huart s))) USART_CR3_DMAR in
  if HAL_UART_StateTypeDef_eqb (RxState (huart s)) HAL_UART_STATE_BUSY_RX && dmarequest
  then
    let s := on_CR3 (fun r => CLEAR_BIT r USART_CR3_DMAR) s in
    (* Abort the UART DMA Rx channel *)
    let s := on_hdmarx (fun d => snd (HAL_DMA_Abort dma_rx d)) s in
    UART_EndRxTransfer s
  else s.

(** The lock is not taken by this function. *)
Definition HAL_UART_DMAStop (dma_tx dma_rx : DMA_Answer) (s : System)
  : HAL_StatusTypeDef * System :=
  let s := DMAStop_tx dma_tx s in
  let s := DMAStop_rx dma_rx s in
  (HAL_OK, s).

Definition HAL_UART_AbortTransmit (dma_tx : DMA_Answer) (s : System)
  : HAL_StatusTypeDef * System :=
  (* Disable TXEIE and TCIE interrupts *)
  let s := on_CR1 (fun r => CLEAR_BIT r (Z.lor USART_CR1_TXEIE USART_CR1_TCIE)) s in
  returned (
    do s <-
      (* Disable the UART DMA Tx request if enabled *)
      (if HAL_IS_BIT_SET (CR3 (Instance (huart s))) USART_CR3_DMAT then
         let s := on_CR3 (fun r => CLEAR_BIT r USART_CR3_DMAT) s in
         (* Abort the UART DMA Tx channel : use blocking DMA Abort API (no callback) *)
         match hdmatx (huart s) with
         | Some hdma =>
           let hdma := DMA.set_XferAbortCallback None hdma in
           let r := HAL_DMA_Abort dma_tx hdma in
           let s := on_huart (set_hdmatx (Some (snd r))) s in
           if negb (HAL_StatusTypeDef_eqb (fst r) HAL_OK) &&
              (HAL_DMA_GetError (snd r) =? HAL_DMA_ERROR_TIMEOUT)
           then
             (* Set error code to DMA *)
             Return HAL_TIMEOUT (on_huart (set_ErrorCode HAL_UART_ERROR_DMA) s)
           else Next s
         | None => Next s
         end
       else Next s);
    (* Reset Tx transfer counter *)
    let s := on_huart (set_TxXferCount 0) s in
    (* Restore huart->gState to Ready *)
    let s := on_huart (set_gState HAL_UART_STATE_READY) s in
    Return HAL_OK s).

Definition HAL_UART_AbortReceive (dma_rx : DMA_Answer) (s : System)
  : HAL_StatusTypeDef * System :=
  (* Disable RXNE, PE and ERR interrupts *)
  let s := on_CR1 (fun r => CLEAR_BIT r (Z.lor USART_CR1_RXNEIE USART_CR1_PEIE)) s in
  let s := on_CR3 (fun r => CLEAR_BIT r USART_CR3_EIE) s in
  returned (
    do s <-
      (* Disable the UART DMA Rx request if enabled *)
      (if HAL_IS_BIT_SET (CR3 (Instance (huart s))) USART_CR3_DMAR then
         let s := on_CR3 (fun r => CLEAR_BIT r USART_CR3_DMAR) s in
         (* Abort the UART DMA Rx channel : use blocking DMA Abort API (no callback) *)
         match hdmarx (huart s) with
         | Some hdma =>
           let hdma := DMA.set_XferAbortCallback None hdma in
           let r := HAL_DMA_Abort dma_rx hdma in
           let s := on_huart (set_hdmarx (Some (snd r))) s in
           if negb (HAL_StatusTypeDef_eqb (fst r) HAL_OK) &&
              (HAL_DMA_GetError (snd r) =? HAL_DMA_ERROR_TIMEOUT)
           then
             (* Set error code to DMA *)
             Return HAL_TIMEOUT (on_huart (set_ErrorCode HAL_UART_ERROR_DMA) s)
           else Next s
         | None => Next s
         end
       else Next s);
    (* Reset Rx transfer counter *)
    let s := on_huart (set_RxXferCount 0) s in
    (* Restore huart->RxState to Ready *)
    let s := on_huart (set_RxState HAL_UART_STATE_READY) s in
    Return HAL_OK s).

(* As no DMA to be aborted, call directly user Abort complete callback *)
Definition AbortTransmit_IT_complete (s : System) : System :=
  (* Reset Tx transfer counter *)
  let s := on_huart (set_TxXferCount 0) s in
  (* Restore huart->gState to Ready *)
  let s := on_huart (set_gState HAL_UART_STATE_READY) s in
  invoke HAL_UART_AbortTransmitCpltCallback s.

Definition HAL_UART_AbortTransmit_IT (dma_tx : DMA_Answer) (s : System)
  : HAL_StatusTypeDef * System :=
  (* Disable TXEIE and TCIE interrupts *)
  let s := on_CR1 (fun r => CLEAR_BIT r (Z.lor USART_CR1_TXEIE USART_CR1_TCIE)) s in
  (* Disable the UART DMA Tx request if enabled *)
  if HAL_IS_BIT_SET (CR3 (Instance (huart s))) USART_CR3_DMAT then
    let s := on_CR3 (fun r => CLEAR_BIT r USART_CR3_DMAT) s in
    match hdmatx (huart s) with
    | Some hdma =>
      (* Set the UART DMA Abort callback *)
      let hdma := DMA.set_XferAbortCallback (Some PTR_UART_DMATxOnlyAbortCallback) hdma in
      (* Abort DMA TX *)
      let r := HAL_DMA_Abort_IT dma_tx hdma in
      let s := on_huart (set_hdmatx (Some (snd r))) s in
      if negb (HAL_StatusTypeDef_eqb (fst r) HAL_OK) then
        (* Call Directly huart->hdmatx->XferAbortCallback function in case of error *)
        match DMA.XferAbortCallback (snd r) with
        | Some f => (HAL_OK, call_DMA_callback f (snd r) s)
        | None => (HAL_OK, s)
        end
      else (HAL_OK, s)
    | None => (HAL_OK, AbortTransmit_IT_complete s)
    end
  else (HAL_OK, AbortTransmit_IT_complete s).

(* As no DMA to be aborted, call directly user Abort complete callback *)
Definition AbortReceive_IT_complete (s : System) : System :=
  (* Reset Rx transfer counter *)
  let s := on_huart (set_RxXferCount 0) s in
  (* Restore huart->RxState to Ready *)
  let s := on_huart (set_RxState HAL_UART_STATE_READY) s in
  invoke HAL_UART_AbortReceiveCpltCallback s.

Definition HAL_UART_AbortReceive_IT (dma_rx : DMA_Answer) (s : System)
  : HAL_StatusTypeDef * System :=
  (* Disable RXNE, PE and ERR interrupts *)
  let s := on_CR1 (fun r => CLEAR_BIT r (Z.lor USART_CR1_RXNEIE USART_CR1_PEIE)) s in
  let s := on_CR3 (fun r => CLEAR_BIT r USART_CR3_EIE) s in
  (* Disable the UART DMA Rx request if enabled *)
  if HAL_IS_BIT_SET (CR3 (Instance (huart s))) USART_CR3_DMAR then
    let s := on_CR3 (fun r => CLEAR_BIT r USART_CR3_DMAR) s in
    match hdmarx (huart s) with
    | Some hdma =>
      (* Set the UART DMA Abort callback *)
      let hdma := DMA.set_XferAbortCallback (Some PTR_UART_DMARxOnlyAbortCallback) hdma in
      (* Abort DMA RX *)
      let r := HAL_DMA_Abort_IT dma_rx hdma in
      let s := on_huart (set_hdmarx (Some (snd r))) s in
      if negb (HAL_StatusTypeDef_eqb (fst r) HAL_OK) then
        (* Call Directly huart->hdmarx->XferAbortCallback function in case of error *)
        match DMA.XferAbortCallback (snd r) with
        | Some f => (HAL_OK, call_DMA_callback f (snd r) s)
        | None => (HAL_OK, s)
        end
      else (HAL_OK, s)
    | None => (HAL_OK, AbortReceive_IT_complete s)
    end
  else (HAL_OK, AbortReceive_IT_complete s).

(** ** Peripheral control in half-duplex mode *)

Definition HAL_HalfDuplex_EnableTransmitter (s : System) : HAL_StatusTypeDef * System :=
  (* Process Locked *)
  match __HAL_LOCK s with
  | None => (HAL_BUSY, s)
  | Some s =>
    let s := on_huart (set_gState HAL_UART_STATE_BUSY) s in
    let tmpreg := CR1 (Instance (huart s)) in
    (* Clear TE and RE bits *)
    let tmpreg := Z.land tmpreg (NOT32 (Z.lor USART_CR1_TE USART_CR1_RE)) in
    (* Enable the USART's transmit interface by setting the TE bit *)
    let tmpreg := Z.lor tmpreg USART_CR1_TE in
    (* Write to USART CR1 *)
    let s := on_CR1 (fun _ => tmpreg) s in
    let s := on_huart (set_gState HAL_UART_STATE_READY) s in
    (* Process Unlocked *)
    (HAL_OK, __HAL_UNLOCK s)
  end.

Definition HAL_HalfDuplex_EnableReceiver (s : System) : HAL_StatusTypeDef * System :=
  (* Process Locked *)
  match __HAL_LOCK s with
  | None => (HAL_BUSY, s)
  | Some s =>
    let s := on_huart (set_gState HAL_UART_STATE_BUSY) s in
    let tmpreg := CR1 (Instance (huart s)) in
    (* Clear TE and RE bits *)
    let tmpreg := Z.land tmpreg (NOT32 (Z.lor USART_CR1_TE USART_CR1_RE)) in
    (* Enable the USART's receive interface by setting the RE bit *)
    let tmpreg := Z.lor tmpreg USART_CR1_RE in
    (* Write to USART CR1 *)
    let s := on_CR1 (fun _ => tmpreg) s in
    let s := on_huart (set_gState HAL_UART_STATE_READY) s in
    (* Process Unlocked *)
    (HAL_OK, __HAL_UNLOCK s)
  end.

(** ** The blocks of the blocking abort *)

(** The Tx and the Rx block of [HAL_UART_Abort], and what follows them. *)
Definition Abort_tx_block (dma_tx : DMA_Answer) (s : System) : Flow :=
  if HAL_IS_BIT_SET (CR3 (Instance (huart s))) USART_CR3_DMAT then
    let s := on_CR3 (fun r => CLEAR_BIT r USART_CR3_DMAT) s in
    match hdmatx (huart s) with
    | Some _ =>
      let s := on_hdmatx (DMA.set_XferAbortCallback None) s in
      match hdmatx (huart s) with
      | Some hdma =>
        let r := HAL_DMA_Abort dma_tx hdma in
        let s := on_huart (set_hdmatx (Some (snd r))) s in
        if negb (HAL_StatusTypeDef_eqb (fst r) HAL_OK) &&
           (HAL_DMA_GetError (snd r) =? HAL_DMA_ERROR_TIMEOUT)
        then Return HAL_TIMEOUT (on_huart (set_ErrorCode HAL_UART_ERROR_DMA) s)
        else Next s
      | None => Next s
      end
    | None => Next s
    end
  else Next s.

Definition Abort_rx_block (dma_rx : DMA_Answer) (s : System) : Flow :=
  if HAL_IS_BIT_SET (CR3 (Instance (huart s))) USART_CR3_DMAR then
    let s := on_CR3 (fun r => CLEAR_BIT r USART_CR3_DMAR) s in
    match hdmarx (huart s) with
    | Some _ =>
      let s := on_hdmarx (DMA.set_XferAbortCallback None) s in
      match hdmarx (huart s) with
      | Some hdma =>
        let r := HAL_DMA_Abort dma_rx hdma in
        let s := on_huart (set_hdmarx (Some (snd r))) s in
        if negb (HAL_StatusTypeDef_eqb (fst r) HAL_OK) &&
           (HAL_DMA_GetError (snd r) =? HAL_DMA_ERROR_TIMEOUT)
        then Return HAL_TIMEOUT (on_huart (set_ErrorCode HAL_UART_ERROR_DMA) s)
        else Next s
      | None => Next s
      end
    | None => Next s
    end
  else Next s.

Definition Abort_reset (s : System) : Flow :=
  let s := on_huart (set_TxXferCount 0) s in
  let s := on_huart (set_RxXferCount 0) s in
  let s := on_huart (set_ErrorCode HAL_UART_ERROR_NONE) s in
  let s := on_huart (set_RxState HAL_UART_STATE_READY) s in
  let s := on_huart (set_gState HAL_UART_STATE_READY) s in
  Return HAL_OK s.

(** A blocking DMA abort that the engine fails with its timeout error. *)
Definition DMA_abort_times_out (request : bool) (ch : option DMA.DMA_HandleTypeDef)
    (a : DMA_Answer) : bool :=
  request && match ch with Some _ => true | None => false end &&
  negb (HAL_StatusTypeDef_eqb (dma_status a) HAL_OK) &&
  (dma_error a =? HAL_DMA_ERROR_TIMEOUT).

(** What a block of the abort leaves alone. *)
Definition Abort_block_frame (s s' : System) : Prop :=
  calls s' = calls s /\ ram s' = ram s /\
  CR1 (Instance (huart s')) = CR1 (Instance (huart s)) /\
  gState (huart s') = gState (huart s) /\ RxState (huart s') = RxState (huart s) /\
  TxXferCount (huart s') = TxXferCount (huart s) /\
  RxXferCount (huart s') = RxXferCount (huart s).

(** ** Pausing DMA transfers *)

(** The transfers in progress are in DMA mode, as [HAL_UART_Transmit_DMA]
    and [HAL_UART_Receive_DMA] leave them: the DMA request of a busy
    direction is enabled, and so are the error interrupts of a busy
    receiver. *)
Definition DMA_mode_transfers (s : System) : bool :=
  implb (HAL_UART_StateTypeDef_eqb (gState (huart s)) HAL_UART_STATE_BUSY_TX)
        (HAL_IS_BIT_SET (CR3 (Instance (huart s))) USART_CR3_DMAT) &&
  implb (HAL_UART_StateTypeDef_eqb (RxState (huart s)) HAL_UART_STATE_BUSY_RX)
        (HAL_IS_BIT_SET (CR3 (Instance (huart s))) USART_CR3_DMAR &&
         HAL_IS_BIT_SET (CR3 (Instance (huart s))) USART_CR3_EIE &&
         HAL_IS_BIT_SET (CR1 (Instance (huart s))) USART_CR1_PEIE).

(** ** Interrupt entries *)

(** The status register of a sample shows no line error. *)
Definition no_line_error (e : HwSample) : bool :=
  Z.land (hw_SR e)
    (Z.lor (Z.lor (Z.lor USART_SR_PE USART_SR_FE) USART_SR_ORE) USART_SR_NE) =? 0.

(** The hardware raises the interrupt on the registers of a sample. *)
Definition IRQ_entry (dma_rx : DMA_Answer) (e : HwSample) (s : System) : System :=
  HAL_UART_IRQHandler dma_rx (hardware e s).

Fixpoint IRQ_entries (dma_rx : DMA_Answer) (es : list HwSample) (s : System) : System :=
  match es with
  | [] => s
  | e :: es => IRQ_entries dma_rx es (IRQ_entry dma_rx e s)
  end.

(** A sample that shows a received unit and no line error. *)
Definition unit_received (e : HwSample) : bool :=
  no_line_error e && flagged (hw_SR e) USART_SR_RXNE.

(** A sample that shows the flag [Flag] of the transmitter, no line error,
    no received unit and no idle line. *)
Definition transmitter_event (Flag : Z) (e : HwSample) : bool :=
  no_line_error e && negb (flagged (hw_SR e) USART_SR_RXNE) &&
  negb (flagged (hw_SR e) USART_SR_IDLE) && flagged (hw_SR e) Flag.

(** The units of a list of samples stored from [p] on, as
    [UART_Receive_IT] stores them: 16 bits wide in the 9 bits / no parity
    configuration, 8 bits wide otherwise. *)
Fixpoint store_units (u16 : bool) (m : Z -> Z) (p : Z) (es : list HwSample) : Z -> Z :=
  match es with
  | [] => m
  | e :: es =>
    if u16
    then store_units u16 (store16 m p (Z.land (hw_DR e) 0x01FF)) ((p + 2) mod 2 ^ 32) es
    else store_units u16 (store8 m p (Z.land (hw_DR e) 0x00FF)) ((p + 1) mod 2 ^ 32) es
  end.

(** The state of a reception in interrupt mode with [n] units to come:
    what the entries of the handler keep up to the last unit. *)
Definition receiving (n : Z) (s0 s : System) : Prop :=
  RxState (huart s) = HAL_UART_STATE_BUSY_RX /\
  RxXferCount (huart s) = n /\
  flagged (CR1 (Instance (huart s))) USART_CR1_RXNEIE = true /\
  calls s = calls s0 /\
  Init (huart s) = Init (huart s0) /\
  gState (huart s) = gState (huart s0) /\
  ErrorCode (huart s) = HAL_UART_ERROR_NONE.

(** The units of a buffer of [n] units at [p], as [UART_Transmit_IT]
    reads them. *)
Fixpoint load_units (u16 : bool) (m : Z -> Z) (p : Z) (n : nat) : list Z :=
  match n with
  | O => []
  | S n =>
    if u16
    then Z.land (load16 m p) 0x01FF :: load_units u16 m ((p + 2) mod 2 ^ 32) n
    else Z.land (load8 m p) 0x00FF :: load_units u16 m ((p + 1) mod 2 ^ 32) n
  end.

(** The state of a transmission in interrupt mode with [n] units to
    write. *)
Definition transmitting (n : Z) (s0 s : System) : Prop :=
  gState (huart s) = HAL_UART_STATE_BUSY_TX /\
  TxXferCount (huart s) = n /\
  flagged (CR1 (Instance (huart s))) USART_CR1_TXEIE = true /\
  calls s = calls s0 /\
  Init (huart s) = Init (huart s0) /\
  RxState (huart s) = RxState (huart s0) /\
  ram s = ram s0.

(** The state of a transmission in interrupt mode that has written its
    last unit and waits for the end of the frame. *)
Definition transmission_ending (s0 s : System) : Prop :=
  gState (huart s) = HAL_UART_STATE_BUSY_TX /\
  TxXferCount (huart s) = 0 /\
  flagged (CR1 (Instance (huart s))) USART_CR1_TXEIE = false /\
  flagged (CR1 (Instance (huart s))) USART_CR1_TCIE = true /\
  calls s = calls s0 /\
  RxState (huart s) = RxState (huart s0).

(** ** Blocking transfers that meet their flags in time *)

(** The hardware samples on which a blocking call that polls the flags
    [flags], one after the other, finds each of them set before a poll
    exceeds the deadline; the last argument lists the samples on which the
    flags were found set. *)
Inductive PollsSucceed (Tickstart Timeout : Z)
  : list Z -> list HwSample -> list HwSample -> Prop :=
| succeed_done env :
    PollsSucceed Tickstart Timeout [] env []
| succeed_here Flag flags e env hits :
    flag_is_set e Flag = true ->
    PollsSucceed Tickstart Timeout flags env hits ->
    PollsSucceed Tickstart Timeout (Flag :: flags) (e :: env) (e :: hits)
| succeed_later Flag flags e env hits :
    flag_is_set e Flag = false ->
    deadline_passed Tickstart Timeout e = false ->
    PollsSucceed Tickstart Timeout (Flag :: flags) env hits ->
    PollsSucceed Tickstart Timeout (Flag :: flags) (e :: env) hits.

(** What the polling loops of a blocking transfer leave alone. *)
Definition polling_frame (s s' : System) : Prop :=
  control_kept s s' /\
  gState (huart s') = gState (huart s) /\
  RxState (huart s') = RxState (huart s) /\
  Lock (huart s') = Lock (huart s) /\
  ErrorCode (huart s') = ErrorCode (huart s) /\
  Init (huart s') = Init (huart s).

(** * Properties *)

(** ** Decisions on the enumerations *)

Lemma HAL_UART_StateTypeDef_eqb_spec (a b : HAL_UART_StateTypeDef) :
  reflect (a = b) (HAL_UART_StateTypeDef_eqb a b).
Proof. destruct a, b; simpl; constructor; congruence. Qed.

Lemma HAL_UART_StateTypeDef_eqb_neq (a b : HAL_UART_StateTypeDef) :
  a <> b -> HAL_UART_StateTypeDef_eqb a b = false.
Proof. destruct (HAL_UART_StateTypeDef_eqb_spec a b); congruence. Qed.

(** ** Rejected transfer starts *)

(** C4. A transfer-start operation (blocking, interrupt-mode or DMA-mode
    transmit or receive) called while the state of its direction is not
    Ready returns Busy and leaves the system as it was: the handle with its
    buffer pointers, sizes, counters, states and error code, and the trace
    of the callbacks. *)
Theorem transfer_start_busy (op : TransferStart) (pData Size : Z) (s : System) :
  direction_state op s <> HAL_UART_STATE_READY ->
  transfer_start op pData Size s = Some (HAL_BUSY, s).
Proof.
  intros Hbusy. apply HAL_UART_StateTypeDef_eqb_neq in Hbusy.
  destruct op; simpl in Hbusy |- *;
    unfold HAL_UART_Transmit, HAL_UART_Receive, HAL_UART_Transmit_IT,
      HAL_UART_Receive_IT, HAL_UART_Transmit_DMA, HAL_UART_Receive_DMA;
    now rewrite Hbusy.
Qed.

(** C8. A transfer-start operation called while the state of its direction
    is Ready, with a null data pointer or a zero length, returns an error
    at once and leaves the system as it was: no state change, no callback. *)
Theorem transfer_start_invalid_argument (op : TransferStart) (pData Size : Z) (s : System) :
  direction_state op s = HAL_UART_STATE_READY ->
  pData = 0 \/ Size = 0 ->
  transfer_start op pData Size s = Some (HAL_ERROR, s).
Proof.
  intros Hready Hargs.
  assert (Hnull : (pData =? 0) || (Size =? 0) = true).
  { destruct Hargs as [-> | ->]; [reflexivity | apply orb_true_r]. }
  destruct op; simpl in Hready |- *;
    unfold HAL_UART_Transmit, HAL_UART_Receive, HAL_UART_Transmit_IT,
      HAL_UART_Receive_IT, HAL_UART_Transmit_DMA, HAL_UART_Receive_DMA;
    now rewrite Hready, Hnull.
Qed.

(** ** Initialization *)

Lemma Init_epilogue_ready (s : System) :
  fst (Init_epilogue s) = HAL_OK /\
  gState (huart (snd (Init_epilogue s))) = HAL_UART_STATE_READY /\
  RxState (huart (snd (Init_epilogue s))) = HAL_UART_STATE_READY /\
  ErrorCode (huart (snd (Init_epilogue s))) = HAL_UART_ERROR_NONE.
Proof. unfold Init_epilogue; simpl; auto. Qed.

(** C7. Every initialization variant, called with the address of the
    handle, returns Ok and leaves gState and RxState Ready and the error
    code None, whatever the configuration; called with a null pointer it
    returns an error and changes nothing. *)
Theorem Init_variants_ready (s : System) (BreakDetectLength Address WakeUpMethod : Z) :
  let ready (r : HAL_StatusTypeDef * System) :=
    fst r = HAL_OK /\
    gState (huart (snd r)) = HAL_UART_STATE_READY /\
    RxState (huart (snd r)) = HAL_UART_STATE_READY /\
    ErrorCode (huart (snd r)) = HAL_UART_ERROR_NONE in
  (ready (HAL_UART_Init PTR_huart s) /\
   ready (HAL_HalfDuplex_Init PTR_huart s) /\
   ready (HAL_LIN_Init PTR_huart BreakDetectLength s) /\
   ready (HAL_MultiProcessor_Init PTR_huart Address WakeUpMethod s)) /\
  (HAL_UART_Init NULL s = (HAL_ERROR, s) /\
   HAL_HalfDuplex_Init NULL s = (HAL_ERROR, s) /\
   HAL_LIN_Init NULL BreakDetectLength s = (HAL_ERROR, s) /\
   HAL_MultiProcessor_Init NULL Address WakeUpMethod s = (HAL_ERROR, s)).
Proof.
  intros ready; split; [|repeat split].
  unfold ready, HAL_UART_Init, HAL_HalfDuplex_Init, HAL_LIN_Init,
    HAL_MultiProcessor_Init.
  repeat split; apply Init_epilogue_ready.
Qed.

(** ** Bits of a register *)

Lemma testbit_bit (p k : Z) : 0 <= p -> Z.testbit (bit p) k = (p =? k).
Proof.
  intros Hp. unfold bit. rewrite Z.shiftl_1_l. now apply Z.pow2_bits_eqb.
Qed.

Lemma testbit_NOT32 (m k : Z) :
  0 <= k < 32 -> Z.testbit (NOT32 m) k = negb (Z.testbit m k).
Proof.
  intros Hk. unfold NOT32. rewrite Z.lxor_spec.
  change 0xFFFFFFFF with (Z.ones 32).
  rewrite Z.ones_spec_low by lia. now destruct (Z.testbit m k).
Qed.

Lemma testbit_CLEAR_BIT (r m k : Z) :
  0 <= k < 32 ->
  Z.testbit (CLEAR_BIT r m) k = Z.testbit r k && negb (Z.testbit m k).
Proof.
  intros Hk. unfold CLEAR_BIT. now rewrite Z.land_spec, testbit_NOT32.
Qed.

Lemma land_bit (r p : Z) :
  0 <= p -> Z.land r (bit p) = if Z.testbit r p then bit p else 0.
Proof.
  intros Hp. apply Z.bits_inj'. intros k Hk.
  rewrite Z.land_spec, testbit_bit by assumption.
  destruct (Z.eqb_spec p k) as [-> | Hne].
  - destruct (Z.testbit r k); rewrite ?testbit_bit, ?Z.eqb_refl, ?Z.bits_0 by assumption;
      reflexivity.
  - rewrite andb_false_r.
    destruct (Z.testbit r p); rewrite ?testbit_bit, ?Z.bits_0 by assumption;
      [symmetry; now apply Z.eqb_neq | reflexivity].
Qed.

Lemma bit_nonzero (p : Z) : 0 <= p -> bit p <> 0.
Proof.
  intros Hp E. assert (H : Z.testbit (bit p) p = true)
    by (rewrite testbit_bit, Z.eqb_refl; auto).
  rewrite E, Z.bits_0 in H. discriminate.
Qed.

Lemma flagged_bit (r p : Z) : 0 <= p -> flagged r (bit p) = Z.testbit r p.
Proof.
  intros Hp. unfold flagged. rewrite land_bit by assumption.
  destruct (Z.testbit r p); [|reflexivity].
  apply negb_true_iff, Z.eqb_neq. now apply bit_nonzero.
Qed.

Lemma HAL_IS_BIT_SET_bit (r p : Z) :
  0 <= p -> HAL_IS_BIT_SET r (bit p) = Z.testbit r p.
Proof.
  intros Hp. unfold HAL_IS_BIT_SET. rewrite land_bit by assumption.
  destruct (Z.testbit r p); [apply Z.eqb_refl|].
  apply Z.eqb_neq. intros E. now apply (bit_nonzero p).
Qed.

Lemma flagged_lor (r a b : Z) :
  flagged r (Z.lor a b) = flagged r a || flagged r b.
Proof.
  unfold flagged. rewrite Z.land_lor_distr_r.
  destruct (Z.eqb_spec (Z.land r a) 0) as [Ea | Ea],
           (Z.eqb_spec (Z.land r b) 0) as [Eb | Eb]; simpl.
  - rewrite Ea, Eb. reflexivity.
  - apply negb_true_iff, Z.eqb_neq. intros E. apply Z.lor_eq_0_iff in E. tauto.
  - apply negb_true_iff, Z.eqb_neq. intros E. apply Z.lor_eq_0_iff in E. tauto.
  - apply negb_true_iff, Z.eqb_neq. intros E. apply Z.lor_eq_0_iff in E. tauto.
Qed.

Lemma flagged_CLEAR_BIT_same (r p : Z) :
  0 <= p < 32 -> flagged (CLEAR_BIT r (bit p)) (bit p) = false.
Proof.
  intros Hp. rewrite flagged_bit, testbit_CLEAR_BIT, testbit_bit, Z.eqb_refl by lia.
  apply andb_false_r.
Qed.

Lemma flagged_CLEAR_BIT_in (r m p : Z) :
  0 <= p < 32 -> Z.testbit m p = true ->
  flagged (CLEAR_BIT r m) (bit p) = false.
Proof.
  intros Hp Hm. rewrite flagged_bit, testbit_CLEAR_BIT, Hm by lia.
  apply andb_false_r.
Qed.

Lemma testbit_lor_bit (a p k : Z) :
  0 <= p -> Z.testbit (Z.lor a (bit p)) k = Z.testbit a k || (p =? k).
Proof. intros Hp. now rewrite Z.lor_spec, testbit_bit. Qed.

(** ** Facts of the header, as the proofs use them *)

Lemma CR3_positions :
  (0 <= USART_CR3_EIE_Pos < 32 /\ 0 <= USART_CR3_DMAR_Pos < 32 /\
   0 <= USART_CR3_DMAT_Pos < 32) /\
  (USART_CR3_EIE_Pos =? USART_CR3_DMAR_Pos) = false /\
  (USART_CR3_EIE_Pos =? USART_CR3_DMAT_Pos) = false /\
  (USART_CR3_DMAR_Pos =? USART_CR3_DMAT_Pos) = false /\
  (USART_CR3_DMAT_Pos =? USART_CR3_DMAR_Pos) = false.
Proof.
  pose proof USART_CR3_range. pose proof USART_CR3_distinct.
  repeat split; try lia; apply Z.eqb_neq; lia.
Qed.

Lemma DMA_request_kept (r : Z) :
  HAL_IS_BIT_SET (CLEAR_BIT r USART_CR3_EIE) USART_CR3_DMAT = HAL_IS_BIT_SET r USART_CR3_DMAT /\
  HAL_IS_BIT_SET (CLEAR_BIT r USART_CR3_EIE) USART_CR3_DMAR = HAL_IS_BIT_SET r USART_CR3_DMAR /\
  HAL_IS_BIT_SET (CLEAR_BIT r USART_CR3_DMAT) USART_CR3_DMAR = HAL_IS_BIT_SET r USART_CR3_DMAR.
Proof.
  destruct CR3_positions as ((He & Hr & Ht) & Her & Het & Hrt & Htr).
  unfold USART_CR3_EIE, USART_CR3_DMAT, USART_CR3_DMAR.
  rewrite !HAL_IS_BIT_SET_bit, !testbit_CLEAR_BIT, !testbit_bit by lia.
  rewrite Het, Her, Htr. simpl. now rewrite !andb_true_r.
Qed.

(** ** Blocking abort *)

(** C6, as the code has it. The blocking abort of a handle whose gState
    and RxState are Ready and whose DMA request bits are disabled returns
    Ok and leaves gState and RxState as they were; it zeroes the two
    transfer counters, resets the error code to None and clears the
    interrupt enables RXNEIE, PEIE, TXEIE, TCIE and EIE; nothing else
    changes, and no callback is invoked. *)
Theorem Abort_of_ready_handle (dma_tx dma_rx : DMA_Answer) (s : System) :
  gState (huart s) = HAL_UART_STATE_READY ->
  RxState (huart s) = HAL_UART_STATE_READY ->
  HAL_IS_BIT_SET (CR3 (Instance (huart s))) USART_CR3_DMAT = false ->
  HAL_IS_BIT_SET (CR3 (Instance (huart s))) USART_CR3_DMAR = false ->
  HAL_UART_Abort dma_tx dma_rx s = (HAL_OK, Abort_without_DMA s) /\
  gState (huart (Abort_without_DMA s)) = gState (huart s) /\
  RxState (huart (Abort_without_DMA s)) = RxState (huart s) /\
  TxXferCount (huart (Abort_without_DMA s)) = 0 /\
  RxXferCount (huart (Abort_without_DMA s)) = 0 /\
  ErrorCode (huart (Abort_without_DMA s)) = HAL_UART_ERROR_NONE /\
  calls (Abort_without_DMA s) = calls s.
Proof.
  intros Hg Hr Ht Hrx.
  split; [|repeat split].
  destruct (DMA_request_kept (CR3 (Instance (huart s)))) as (Kt & Kr & _).
  destruct s as [h m c t]; destruct h as [b u i a p1 n1 k1 p2 n2 k2 dt dr l g rx ec].
  simpl in *. subst g rx.
  unfold HAL_UART_Abort, Abort_without_DMA; simpl.
  rewrite Kt, Ht. simpl. rewrite Kr, Hrx. reflexivity.
Qed.

(** ** The abort join *)

Lemma AbortCplt_idle (dir : DMA_Direction) (s : System) (ptx prx : bool) :
  abort_pending s ptx prx ->
  match dir with DMA_TX => ptx | DMA_RX => prx end = false ->
  DMA_IRQ_AbortCplt dir s = s.
Proof.
  intros (dtx & drx & Htx & Hrx & Ctx & Crx) Hidle.
  unfold DMA_IRQ_AbortCplt, DMA_channel.
  destruct dir; subst; [rewrite Htx, Ctx | rewrite Hrx, Crx]; reflexivity.
Qed.

Lemma AbortCplt_TX (s : System) (prx : bool) :
  abort_pending s true prx ->
  abort_pending (DMA_IRQ_AbortCplt DMA_TX s) false prx /\
  joined (negb prx) s (DMA_IRQ_AbortCplt DMA_TX s).
Proof.
  intros (dtx & drx & Htx & Hrx & Ctx & Crx).
  destruct s as [h m c t]; destruct h as [b u i a p1 n1 k1 p2 n2 k2 dt dr l g rx ec].
  simpl in *. subst dt dr.
  unfold DMA_IRQ_AbortCplt; simpl. rewrite Ctx; simpl.
  unfold UART_DMATxAbortCallback; simpl. rewrite Crx.
  destruct prx; simpl.
  - split; [|reflexivity].
    exists (DMA.set_XferAbortCallback None dtx), drx. simpl. auto.
  - split.
    + exists (DMA.set_XferAbortCallback None dtx), drx. simpl. auto.
    + eexists; split; [reflexivity|]. repeat split.
Qed.

Lemma AbortCplt_RX (s : System) (ptx : bool) :
  abort_pending s ptx true ->
  abort_pending (DMA_IRQ_AbortCplt DMA_RX s) ptx false /\
  joined (negb ptx) s (DMA_IRQ_AbortCplt DMA_RX s).
Proof.
  intros (dtx & drx & Htx & Hrx & Ctx & Crx).
  destruct s as [h m c t]; destruct h as [b u i a p1 n1 k1 p2 n2 k2 dt dr l g rx ec].
  simpl in *. subst dt dr.
  unfold DMA_IRQ_AbortCplt; simpl. rewrite Crx; simpl.
  unfold UART_DMARxAbortCallback; simpl. rewrite Ctx.
  destruct ptx; simpl.
  - split; [|reflexivity].
    exists dtx, (DMA.set_XferAbortCallback None drx). simpl. auto.
  - split.
    + exists dtx, (DMA.set_XferAbortCallback None drx). simpl. auto.
    + eexists; split; [reflexivity|]. repeat split.
Qed.

Ltac join_cases :=
  unfold joined in *; simpl in *;
  repeat match goal with
         | H : exists _, _ /\ _ |- _ => destruct H as (? & ? & ?)
         end;
  first
    [ congruence
    | match goal with
      | H : _ = _ ++ [(_, ?h)] |- _ => exists h; split; [congruence | assumption]
      end ].

(** The abort completions delivered in any order and number: the user
    callback is called once when each pending channel has reported, and
    not before. *)
Lemma AbortCplts_join (dirs : list DMA_Direction) :
  forall (s : System) (ptx prx : bool),
  abort_pending s ptx prx ->
  joined ((ptx || prx) &&
          (negb ptx || existsb (DMA_Direction_eqb DMA_TX) dirs) &&
          (negb prx || existsb (DMA_Direction_eqb DMA_RX) dirs))
         s (DMA_IRQ_AbortCplts dirs s).
Proof.
  induction dirs as [|dir dirs IH]; intros s ptx prx Hp.
  - destruct ptx, prx; reflexivity.
  - cbn [DMA_IRQ_AbortCplts existsb]. destruct dir.
    + destruct ptx.
      * destruct (AbortCplt_TX s prx Hp) as (Hp' & J).
        specialize (IH _ _ _ Hp').
        destruct prx, (existsb (DMA_Direction_eqb DMA_TX) dirs),
          (existsb (DMA_Direction_eqb DMA_RX) dirs); join_cases.
      * rewrite (AbortCplt_idle DMA_TX s false prx Hp eq_refl).
        specialize (IH _ _ _ Hp).
        destruct prx, (existsb (DMA_Direction_eqb DMA_TX) dirs),
          (existsb (DMA_Direction_eqb DMA_RX) dirs); join_cases.
    + destruct prx.
      * destruct (AbortCplt_RX s ptx Hp) as (Hp' & J).
        specialize (IH _ _ _ Hp').
        destruct ptx, (existsb (DMA_Direction_eqb DMA_TX) dirs),
          (existsb (DMA_Direction_eqb DMA_RX) dirs); join_cases.
      * rewrite (AbortCplt_idle DMA_RX s ptx false Hp eq_refl).
        specialize (IH _ _ _ Hp).
        destruct ptx, (existsb (DMA_Direction_eqb DMA_TX) dirs),
          (existsb (DMA_Direction_eqb DMA_RX) dirs); join_cases.
Qed.

Lemma Abort_IT_arms (a_tx a_rx : DMA_Answer) (s : System) (dtx drx : DMA.DMA_HandleTypeDef) :
  hdmatx (huart s) = Some dtx ->
  hdmarx (huart s) = Some drx ->
  HAL_IS_BIT_SET (CR3 (Instance (huart s))) USART_CR3_DMAT = true ->
  HAL_IS_BIT_SET (CR3 (Instance (huart s))) USART_CR3_DMAR = true ->
  dma_status a_tx = HAL_OK ->
  dma_status a_rx = HAL_OK ->
  fst (HAL_UART_Abort_IT a_tx a_rx s) = HAL_OK /\
  abort_pending (snd (HAL_UART_Abort_IT a_tx a_rx s)) true true /\
  calls (snd (HAL_UART_Abort_IT a_tx a_rx s)) = calls s.
Proof.
  intros Htx Hrx Ht Hr Atx Arx.
  unfold HAL_UART_Abort_IT.
  (* interrupts disabled *)
  assert (F1 : exists s1, Abort_IT_disable_interrupts s = s1 /\
             hdmatx (huart s1) = Some dtx /\ hdmarx (huart s1) = Some drx /\
             HAL_IS_BIT_SET (CR3 (Instance (huart s1))) USART_CR3_DMAT = true /\
             HAL_IS_BIT_SET (CR3 (Instance (huart s1))) USART_CR3_DMAR = true /\
             calls s1 = calls s).
  { eexists; split; [reflexivity|].
    destruct (DMA_request_kept (CR3 (Instance (huart s)))) as (Kt & Kr & _).
    unfold Abort_IT_disable_interrupts; cbn. rewrite Kt, Kr. auto. }
  destruct F1 as (s1 & -> & Htx1 & Hrx1 & Ht1 & Hr1 & Hc1).
  clear Htx Hrx Ht Hr. rewrite <- Hc1. clear Hc1 s.
  (* callbacks set *)
  assert (F2 : exists s2, Abort_IT_set_rx_callback (Abort_IT_set_tx_callback s1) = s2 /\
             hdmatx (huart s2) = Some (DMA.set_XferAbortCallback (Some PTR_UART_DMATxAbortCallback) dtx) /\
             hdmarx (huart s2) = Some (DMA.set_XferAbortCallback (Some PTR_UART_DMARxAbortCallback) drx) /\
             HAL_IS_BIT_SET (CR3 (Instance (huart s2))) USART_CR3_DMAT = true /\
             HAL_IS_BIT_SET (CR3 (Instance (huart s2))) USART_CR3_DMAR = true /\
             calls s2 = calls s1).
  { eexists; split; [reflexivity|].
    unfold Abort_IT_set_tx_callback. rewrite Htx1, Ht1.
    unfold Abort_IT_set_rx_callback; cbn. rewrite Hrx1, Hr1; cbn.
    rewrite Htx1, Hrx1. auto. }
  destruct F2 as (s2 & -> & Htx2 & Hrx2 & Ht2 & Hr2 & Hc2).
  rewrite <- Hc2. clear Htx1 Hrx1 Ht1 Hr1 Hc2 s1.
  (* Tx abort requested *)
  assert (F3 : exists s3, Abort_IT_abort_tx a_tx true s2 = (false, s3) /\
             (exists d, hdmatx (huart s3) = Some d /\
                DMA.XferAbortCallback d = Some PTR_UART_DMATxAbortCallback) /\
             hdmarx (huart s3) = Some (DMA.set_XferAbortCallback (Some PTR_UART_DMARxAbortCallback) drx) /\
             HAL_IS_BIT_SET (CR3 (Instance (huart s3))) USART_CR3_DMAR = true /\
             calls s3 = calls s2).
  { destruct (DMA_request_kept (CR3 (Instance (huart s2)))) as (_ & _ & Kr).
    unfold Abort_IT_abort_tx, HAL_DMA_Abort_IT. rewrite Ht2; cbn.
    rewrite Htx2, Atx; cbn. eexists; split; [reflexivity|]; cbn.
    rewrite Kr. repeat split; eauto. }
  destruct F3 as (s3 & -> & (d3 & Htx3 & Cb3) & Hrx3 & Hr3 & Hc3).
  rewrite <- Hc3. clear Htx2 Hrx2 Ht2 Hr2 Hc3 s2.
  (* Rx abort requested *)
  assert (F4 : exists s4, Abort_IT_abort_rx a_rx false s3 = (false, s4) /\
             abort_pending s4 true true /\ calls s4 = calls s3).
  { unfold Abort_IT_abort_rx, HAL_DMA_Abort_IT. rewrite Hr3; cbn.
    rewrite Hrx3, Arx; cbn. eexists; split; [reflexivity|]; cbn.
    split; [|reflexivity]. unfold abort_pending; cbn. rewrite Htx3.
    eexists _, _; repeat split; eauto. }
  destruct F4 as (s4 & -> & Hp & Hc4).
  rewrite <- Hc4. cbn. auto.
Qed.

(** C1. A handle with a Tx and an Rx DMA channel, both serving a transfer
    (bound, their DMA requests enabled, the engine accepting the abort):
    the asynchronous combined abort arms the two abort callbacks and does
    not call the user abort-complete callback.  Whatever abort completions
    the DMA engine then delivers, the user callback is called exactly once
    when both the Tx and the Rx abort callback have fired, and not at all
    while only one of them has; at that single call gState and RxState are
    Ready, the error code is None and both transfer counters are zero. *)
Theorem Abort_IT_join (a_tx a_rx : DMA_Answer) (s : System)
    (dtx drx : DMA.DMA_HandleTypeDef) (dirs : list DMA_Direction) :
  hdmatx (huart s) = Some dtx ->
  hdmarx (huart s) = Some drx ->
  HAL_IS_BIT_SET (CR3 (Instance (huart s))) USART_CR3_DMAT = true ->
  HAL_IS_BIT_SET (CR3 (Instance (huart s))) USART_CR3_DMAR = true ->
  dma_status a_tx = HAL_OK ->
  dma_status a_rx = HAL_OK ->
  let armed := snd (HAL_UART_Abort_IT a_tx a_rx s) in
  let after := DMA_IRQ_AbortCplts dirs armed in
  fst (HAL_UART_Abort_IT a_tx a_rx s) = HAL_OK /\
  option_map DMA.XferAbortCallback (hdmatx (huart armed))
    = Some (Some PTR_UART_DMATxAbortCallback) /\
  option_map DMA.XferAbortCallback (hdmarx (huart armed))
    = Some (Some PTR_UART_DMARxAbortCallback) /\
  calls armed = calls s /\
  if existsb (DMA_Direction_eqb DMA_TX) dirs && existsb (DMA_Direction_eqb DMA_RX) dirs
  then exists h,
         calls after = calls s ++ [(HAL_UART_AbortCpltCallback, h)] /\
         gState h = HAL_UART_STATE_READY /\
         RxState h = HAL_UART_STATE_READY /\
         ErrorCode h = HAL_UART_ERROR_NONE /\
         TxXferCount h = 0 /\
         RxXferCount h = 0
  else calls after = calls s.
Proof.
  intros Htx Hrx Ht Hr Atx Arx armed after.
  destruct (Abort_IT_arms a_tx a_rx s dtx drx Htx Hrx Ht Hr Atx Arx)
    as (Hst & Hp & Hc).
  fold armed in Hp, Hc.
  pose proof (AbortCplts_join dirs armed true true Hp) as J.
  fold after in J. simpl in J.
  destruct Hp as (d1 & d2 & E1 & E2 & C1 & C2).
  repeat split; try assumption.
  - now rewrite E1; simpl; rewrite C1.
  - now rewrite E2; simpl; rewrite C2.
  - unfold joined in J.
    destruct (existsb (DMA_Direction_eqb DMA_TX) dirs &&
              existsb (DMA_Direction_eqb DMA_RX) dirs).
    + destruct J as (h & E & V). exists h. rewrite <- Hc.
      destruct V as (_ & V). simpl in V. tauto.
    + congruence.
Qed.

(** ** Alignment of the buffer in the 9 bits / no parity configuration *)


(** ** Timeout of the blocking transfers *)

Lemma control_kept_refl (s : System) : control_kept s s.
Proof. repeat split. Qed.

Lemma control_kept_trans (s1 s2 s3 : System) :
  control_kept s1 s2 -> control_kept s2 s3 -> control_kept s1 s3.
Proof. unfold control_kept. intuition congruence. Qed.

Lemma timed_out_after (s1 s2 s3 : System) :
  control_kept s1 s2 -> timed_out s2 s3 -> timed_out s1 s3.
Proof.
  unfold control_kept, timed_out.
  intros (E1 & E3 & Ec) (? & ? & ? & ? & ? & ?).
  rewrite <- E1, <- E3, <- Ec. repeat split; assumption.
Qed.

Lemma WaitOnFlag_expires (Tickstart Timeout Flag : Z) (flags : list Z)
    (env : list HwSample) :
  forall s : System,
  PollsExpire Tickstart Timeout (Flag :: flags) env ->
  expires_or_goes_on Tickstart Timeout flags s
    (UART_WaitOnFlagUntilTimeout Flag RESET Tickstart Timeout s env).
Proof.
  induction env as [|e env IH]; intros s H;
    inversion H as [F fs e' env' Hf Hd | F fs e' env' Hf Hd Hrest
                   | F fs e' env' Hf Hrest]; subst;
    cbn [UART_WaitOnFlagUntilTimeout]; unfold __HAL_UART_GET_FLAG at 1;
    replace (SR (Instance (huart (hardware e s)))) with (hw_SR e) by reflexivity;
    unfold flag_is_set in Hf; rewrite Hf; cbn [FlagStatus_eqb].
  - (* the poll past the deadline *)
    left. unfold deadline_passed in Hd. rewrite Hd.
    eexists _, _; split; [reflexivity|]. repeat split.
  - (* a poll in time *)
    unfold deadline_passed in Hd. rewrite Hd.
    destruct (IH (hardware e s) Hrest)
      as [(s' & env' & E & T) | (s' & env' & E & K & P)].
    + left. exists s', env'. split; [exact E|].
      apply (timed_out_after _ (hardware e s)); [repeat split | exact T].
    + right. exists s', env'. split; [exact E|].
      split; [|exact P].
      apply (control_kept_trans _ (hardware e s)); [repeat split | exact K].
  - (* the flag is up *)
    right. eexists _, _; split; [reflexivity|]. repeat split. assumption.
Qed.

Lemma WaitOnFlag_counters (Tickstart Timeout Flag : Z) (Status : FlagStatus)
    (env : list HwSample) :
  forall (s s' : System) (env' : list HwSample),
  UART_WaitOnFlagUntilTimeout Flag Status Tickstart Timeout s env = Some (HAL_OK, s', env') ->
  TxXferCount (huart s') = TxXferCount (huart s) /\
  RxXferCount (huart s') = RxXferCount (huart s).
Proof.
  induction env as [|e env IH]; intros s s' env'; cbn [UART_WaitOnFlagUntilTimeout];
    [discriminate|].
  destruct (FlagStatus_eqb _ Status).
  - destruct (negb (Timeout =? HAL_MAX_DELAY) && _); [discriminate|].
    intros E. apply IH in E. exact E.
  - intros E. injection E as <- _. split; reflexivity.
Qed.

Lemma count_down (n : nat) :
  Z.of_nat n < 65536 -> (Z.of_nat (S n) - 1) mod 2 ^ 16 = Z.of_nat n.
Proof. intros Hn. change (2 ^ 16) with 65536. rewrite Z.mod_small; lia. Qed.

Lemma Transmit_loop_expires (Tickstart Timeout : Z) (rest : list Z) (n : nat) :
  forall (s : System) (pdata8bits pdata16bits : Z) (env : list HwSample),
  TxXferCount (huart s) = Z.of_nat n ->
  Z.of_nat n < 65536 ->
  PollsExpire Tickstart Timeout (repeat UART_FLAG_TXE n ++ rest) env ->
  expires_or_goes_on Tickstart Timeout rest s
    (Transmit_loop n pdata8bits pdata16bits Tickstart Timeout s env).
Proof.
  induction n as [|n IH]; intros s p8 p16 env Hc Hn H.
  - right. cbn [Transmit_loop]. rewrite Hc. cbn [Z.of_nat Z.gtb Z.compare].
    eexists _, _; split; [reflexivity|]. split; [apply control_kept_refl | exact H].
  - cbn [Transmit_loop]. rewrite Hc.
    replace (Z.of_nat (S n) >? 0) with true by (symmetry; apply Z.gtb_lt; lia).
    cbn [repeat app] in H.
    destruct (WaitOnFlag_expires _ _ _ _ _ s H)
      as [(s1 & env1 & E & T) | (s1 & env1 & E & K & P)]; rewrite E.
    + left. eexists _, _; split; [reflexivity | exact T].
    + destruct (WaitOnFlag_counters _ _ _ _ _ _ _ _ E) as (Ct & _).
      set (s2 := on_huart _ _).
      assert (K2 : control_kept s1 s2) by (subst s2; destruct (p8 =? 0); repeat split).
      assert (C2 : TxXferCount (huart s2) = Z.of_nat n).
      { subst s2. destruct (p8 =? 0); cbn [huart on_huart TxXferCount set_TxXferCount write_DR on_Instance set_Instance];
          rewrite Ct, Hc; apply count_down; lia. }
      assert (R : forall a b, expires_or_goes_on Tickstart Timeout rest s
                     (Transmit_loop n a b Tickstart Timeout s2 env1)).
      { intros a b.
        destruct (IH s2 a b env1 C2 ltac:(lia) P)
          as [(s3 & env3 & E3 & T3) | (s3 & env3 & E3 & K3 & P3)].
        - left. exists s3, env3. split; [exact E3|].
          apply (timed_out_after _ s2); [|exact T3].
          apply (control_kept_trans _ s1); assumption.
        - right. exists s3, env3. split; [exact E3|]. split; [|exact P3].
          apply (control_kept_trans _ s2); [|exact K3].
          apply (control_kept_trans _ s1); assumption. }
      destruct (p8 =? 0); apply R.
Qed.

Lemma Receive_loop_expires (Tickstart Timeout : Z) (rest : list Z) (n : nat) :
  forall (s : System) (pdata8bits pdata16bits : Z) (env : list HwSample),
  RxXferCount (huart s) = Z.of_nat n ->
  Z.of_nat n < 65536 ->
  PollsExpire Tickstart Timeout (repeat UART_FLAG_RXNE n ++ rest) env ->
  expires_or_goes_on Tickstart Timeout rest s
    (Receive_loop n pdata8bits pdata16bits Tickstart Timeout s env).
Proof.
  induction n as [|n IH]; intros s p8 p16 env Hc Hn H.
  - right. cbn [Receive_loop]. rewrite Hc. cbn [Z.of_nat Z.gtb Z.compare].
    eexists _, _; split; [reflexivity|]. split; [apply control_kept_refl | exact H].
  - cbn [Receive_loop]. rewrite Hc.
    replace (Z.of_nat (S n) >? 0) with true by (symmetry; apply Z.gtb_lt; lia).
    cbn [repeat app] in H.
    destruct (WaitOnFlag_expires _ _ _ _ _ s H)
      as [(s1 & env1 & E & T) | (s1 & env1 & E & K & P)]; rewrite E.
    + left. eexists _, _; split; [reflexivity | exact T].
    + destruct (WaitOnFlag_counters _ _ _ _ _ _ _ _ E) as (_ & Cr).
      set (s2 := on_huart _ _).
      assert (K2 : control_kept s1 s2) by (subst s2; destruct (p8 =? 0); repeat split).
      assert (C2 : RxXferCount (huart s2) = Z.of_nat n).
      { subst s2. destruct (p8 =? 0); cbn [huart on_huart RxXferCount set_RxXferCount set_ram];
          rewrite Cr, Hc; apply count_down; lia. }
      assert (R : forall a b, expires_or_goes_on Tickstart Timeout rest s
                     (Receive_loop n a b Tickstart Timeout s2 env1)).
      { intros a b.
        destruct (IH s2 a b env1 C2 ltac:(lia) P)
          as [(s3 & env3 & E3 & T3) | (s3 & env3 & E3 & K3 & P3)].
        - left. exists s3, env3. split; [exact E3|].
          apply (timed_out_after _ s2); [|exact T3].
          apply (control_kept_trans _ s1); assumption.
        - right. exists s3, env3. split; [exact E3|]. split; [|exact P3].
          apply (control_kept_trans _ s2); [|exact K3].
          apply (control_kept_trans _ s1); assumption. }
      destruct (p8 =? 0); apply R.
Qed.

Lemma no_poll_left (Tickstart Timeout : Z) (env : list HwSample) :
  ~ PollsExpire Tickstart Timeout [] env.
Proof. intros H; inversion H. Qed.

Lemma Transmit_times_out (pData Size Timeout tickstart : Z) (env : list HwSample)
    (s : System) :
  pData <> 0 -> 0 < Size < 65536 -> aligned_for s pData = true ->
  Lock (huart s) = HAL_UNLOCKED ->
  gState (huart s) = HAL_UART_STATE_READY ->
  PollsExpire tickstart Timeout (Transmit_flags Size) env ->
  exists s', HAL_UART_Transmit pData Size Timeout tickstart env s = Some (HAL_TIMEOUT, s') /\
             timed_out s s'.
Proof.
  intros Hp Hsz Hal Hl Hg H.
  unfold HAL_UART_Transmit, __HAL_LOCK. rewrite Hg, Hl.
  cbn [HAL_UART_StateTypeDef_eqb].
  replace ((pData =? 0) || (Size =? 0)) with false
    by (symmetry; apply orb_false_iff; split; apply Z.eqb_neq; lia).
  unfold aligned_for in Hal. apply negb_true_iff in Hal. rewrite Hal.
  cbv zeta.
  set (s1 := on_huart (set_TxXferCount Size) _).
  assert (K1 : control_kept s s1) by (subst s1; repeat split).
  assert (C1 : TxXferCount (huart s1) = Z.of_nat (Z.to_nat Size))
    by (subst s1; cbn; symmetry; apply Z2Nat.id; lia).
  unfold Transmit_flags in H.
  destruct (Transmit_loop_expires tickstart Timeout [UART_FLAG_TC] (Z.to_nat Size) s1
              (if units_are_u16 s1 then 0 else pData)
              (if units_are_u16 s1 then pData else 0) env C1 ltac:(lia) H)
    as [(s2 & env2 & E & T) | (s2 & env2 & E & K & P)]; rewrite E.
  - exists s2. split; [reflexivity|]. apply (timed_out_after _ s1); assumption.
  - destruct (WaitOnFlag_expires _ _ _ _ _ s2 P)
      as [(s3 & env3 & E3 & T3) | (s3 & env3 & E3 & K3 & P3)]; rewrite E3.
    + exists s3. split; [reflexivity|].
      apply (timed_out_after _ s2); [|exact T3].
      apply (control_kept_trans _ s1); assumption.
    + now apply no_poll_left in P3.
Qed.

Lemma Receive_times_out (pData Size Timeout tickstart : Z) (env : list HwSample)
    (s : System) :
  pData <> 0 -> 0 < Size < 65536 -> aligned_for s pData = true ->
  Lock (huart s) = HAL_UNLOCKED ->
  RxState (huart s) = HAL_UART_STATE_READY ->
  PollsExpire tickstart Timeout (Receive_flags Size) env ->
  exists s', HAL_UART_Receive pData Size Timeout tickstart env s = Some (HAL_TIMEOUT, s') /\
             timed_out s s'.
Proof.
  intros Hp Hsz Hal Hl Hg H.
  unfold HAL_UART_Receive, __HAL_LOCK. rewrite Hg, Hl.
  cbn [HAL_UART_StateTypeDef_eqb].
  replace ((pData =? 0) || (Size =? 0)) with false
    by (symmetry; apply orb_false_iff; split; apply Z.eqb_neq; lia).
  unfold aligned_for in Hal. apply negb_true_iff in Hal. rewrite Hal.
  cbv zeta.
  set (s1 := on_huart (set_RxXferCount Size) _).
  assert (K1 : control_kept s s1) by (subst s1; repeat split).
  assert (C1 : RxXferCount (huart s1) = Z.of_nat (Z.to_nat Size))
    by (subst s1; cbn; symmetry; apply Z2Nat.id; lia).
  unfold Receive_flags in H. rewrite <- (app_nil_r (repeat _ _)) in H.
  destruct (Receive_loop_expires tickstart Timeout [] (Z.to_nat Size) s1
              (if units_are_u16 s1 then 0 else pData)
              (if units_are_u16 s1 then pData else 0) env C1 ltac:(lia) H)
    as [(s2 & env2 & E & T) | (s2 & env2 & E & K & P)]; rewrite E.
  - exists s2. split; [reflexivity|]. apply (timed_out_after _ s1); assumption.
  - now apply no_poll_left in P.
Qed.

Lemma CR1_positions :
  0 <= USART_CR1_IDLEIE_Pos < 32 /\ 0 <= USART_CR1_RXNEIE_Pos < 32 /\
  0 <= USART_CR1_TCIE_Pos < 32 /\ 0 <= USART_CR1_TXEIE_Pos < 32 /\
  0 <= USART_CR1_PEIE_Pos < 32.
Proof. exact USART_CR1_range. Qed.

(** What is left of the interrupt enables after a timeout. *)
Lemma timed_out_interrupts (s s' : System) :
  timed_out s s' ->
  __HAL_UART_GET_IT_SOURCE UART_IT_TXE s' = false /\
  __HAL_UART_GET_IT_SOURCE UART_IT_RXNE s' = false /\
  __HAL_UART_GET_IT_SOURCE UART_IT_PE s' = false /\
  __HAL_UART_GET_IT_SOURCE UART_IT_ERR s' = false /\
  (forall k, 0 <= k < 32 ->
     k <> USART_CR1_RXNEIE_Pos -> k <> USART_CR1_PEIE_Pos -> k <> USART_CR1_TXEIE_Pos ->
     Z.testbit (CR1 (Instance (huart s'))) k = Z.testbit (CR1 (Instance (huart s))) k) /\
  (forall k, 0 <= k < 32 -> k <> USART_CR3_EIE_Pos ->
     Z.testbit (CR3 (Instance (huart s'))) k = Z.testbit (CR3 (Instance (huart s))) k).
Proof.
  intros (_ & _ & _ & E1 & E3 & _).
  destruct CR1_positions as (_ & Hrx & _ & Htx & Hpe).
  destruct CR3_positions as ((He & _ & _) & _).
  unfold __HAL_UART_GET_IT_SOURCE. rewrite E1, E3.
  unfold USART_CR1_RXNEIE, USART_CR1_PEIE, USART_CR1_TXEIE, USART_CR3_EIE.
  repeat split.
  - apply flagged_CLEAR_BIT_in; [lia|].
    rewrite ?testbit_lor_bit, ?testbit_bit, ?Z.eqb_refl by lia.
    now rewrite ?orb_true_r.
  - apply flagged_CLEAR_BIT_in; [lia|].
    rewrite ?testbit_lor_bit, ?testbit_bit, ?Z.eqb_refl by lia.
    now rewrite ?orb_true_r.
  - apply flagged_CLEAR_BIT_in; [lia|].
    rewrite ?testbit_lor_bit, ?testbit_bit, ?Z.eqb_refl by lia.
    now rewrite ?orb_true_r.
  - apply flagged_CLEAR_BIT_same; lia.
  - intros k Hk N1 N2 N3.
    rewrite testbit_CLEAR_BIT, !testbit_lor_bit, testbit_bit by lia.
    replace (USART_CR1_RXNEIE_Pos =? k) with false by (symmetry; apply Z.eqb_neq; lia).
    replace (USART_CR1_PEIE_Pos =? k) with false by (symmetry; apply Z.eqb_neq; lia).
    replace (USART_CR1_TXEIE_Pos =? k) with false by (symmetry; apply Z.eqb_neq; lia).
    apply andb_true_r.
  - intros k Hk N.
    rewrite testbit_CLEAR_BIT, testbit_bit by lia.
    replace (USART_CR3_EIE_Pos =? k) with false by (symmetry; apply Z.eqb_neq; lia).
    apply andb_true_r.
Qed.

(** C5, as the code has it. A blocking transmit or receive, validly
    started, whose polls of the hardware flag meet one that exceeds the
    deadline of a finite timeout, returns Timeout; the interrupt enables
    TXEIE, RXNEIE, PEIE and EIE are then clear, every other bit of CR1 and
    CR3 (TCIE and IDLEIE among them) is as it was before the call, gState
    and RxState are Ready and the lock is released: the transfer is
    abandoned, no callback is invoked. *)
Theorem blocking_timeout_abandons (pData Size Timeout tickstart : Z)
    (env : list HwSample) (s : System) :
  pData <> 0 -> 0 < Size < 65536 -> aligned_for s pData = true ->
  Lock (huart s) = HAL_UNLOCKED ->
  let abandoned (s' : System) :=
    gState (huart s') = HAL_UART_STATE_READY /\
    RxState (huart s') = HAL_UART_STATE_READY /\
    Lock (huart s') = HAL_UNLOCKED /\
    calls s' = calls s /\
    __HAL_UART_GET_IT_SOURCE UART_IT_TXE s' = false /\
    __HAL_UART_GET_IT_SOURCE UART_IT_RXNE s' = false /\
    __HAL_UART_GET_IT_SOURCE UART_IT_PE s' = false /\
    __HAL_UART_GET_IT_SOURCE UART_IT_ERR s' = false /\
    (forall k, 0 <= k < 32 ->
       k <> USART_CR1_RXNEIE_Pos -> k <> USART_CR1_PEIE_Pos ->
       k <> USART_CR1_TXEIE_Pos ->
       Z.testbit (CR1 (Instance (huart s'))) k = Z.testbit (CR1 (Instance (huart s))) k) /\
    (forall k, 0 <= k < 32 -> k <> USART_CR3_EIE_Pos ->
       Z.testbit (CR3 (Instance (huart s'))) k = Z.testbit (CR3 (Instance (huart s))) k) in
  (gState (huart s) = HAL_UART_STATE_READY ->
   PollsExpire tickstart Timeout (Transmit_flags Size) env ->
   exists s', HAL_UART_Transmit pData Size Timeout tickstart env s = Some (HAL_TIMEOUT, s') /\
              abandoned s') /\
  (RxState (huart s) = HAL_UART_STATE_READY ->
   PollsExpire tickstart Timeout (Receive_flags Size) env ->
   exists s', HAL_UART_Receive pData Size Timeout tickstart env s = Some (HAL_TIMEOUT, s') /\
              abandoned s').
Proof.
  intros Hp Hsz Hal Hl abandoned.
  assert (A : forall s', timed_out s s' -> abandoned s').
  { intros s' T. pose proof (timed_out_interrupts s s' T) as I.
    destruct T as (? & ? & ? & _ & _ & ?). unfold abandoned. tauto. }
  split; intros Hg H.
  - destruct (Transmit_times_out pData Size Timeout tickstart env s Hp Hsz Hal Hl Hg H)
      as (s' & E & T). exists s'. auto.
  - destruct (Receive_times_out pData Size Timeout tickstart env s Hp Hsz Hal Hl Hg H)
      as (s' & E & T). exists s'. auto.
Qed.

(** C10, as the code has it. The timeout helper is shared by the two
    directions: where a poll exceeds the deadline it returns Timeout with
    gState and RxState both Ready and the enables of the TXE, RXNE, PE and
    error interrupts all clear.  So a blocking transmit that times out
    also leaves RxState Ready and every interrupt source of a reception in
    progress (RXNE, PE, error) disabled.  A blocking receive that times
    out also leaves gState Ready, but of the two interrupt sources of a
    transmission in progress it disables only TXE: every bit of CR1 other
    than RXNEIE, PEIE and TXEIE keeps its value, so the
    transmission-complete enable TCIE, which is a bit of its own, stays
    as it was. *)
Theorem timeout_resets_both_directions (pData Size Timeout tickstart : Z)
    (env : list HwSample) (s : System) :
  pData <> 0 -> 0 < Size < 65536 -> aligned_for s pData = true ->
  Lock (huart s) = HAL_UNLOCKED ->
  (forall Flag,
     PollsExpire tickstart Timeout [Flag] env ->
     exists s' env',
       UART_WaitOnFlagUntilTimeout Flag RESET tickstart Timeout s env
         = Some (HAL_TIMEOUT, s', env') /\
       gState (huart s') = HAL_UART_STATE_READY /\
       RxState (huart s') = HAL_UART_STATE_READY /\
       __HAL_UART_GET_IT_SOURCE UART_IT_TXE s' = false /\
       __HAL_UART_GET_IT_SOURCE UART_IT_RXNE s' = false /\
       __HAL_UART_GET_IT_SOURCE UART_IT_PE s' = false /\
       __HAL_UART_GET_IT_SOURCE UART_IT_ERR s' = false) /\
  (gState (huart s) = HAL_UART_STATE_READY ->
   PollsExpire tickstart Timeout (Transmit_flags Size) env ->
   exists s', HAL_UART_Transmit pData Size Timeout tickstart env s = Some (HAL_TIMEOUT, s') /\
              RxState (huart s') = HAL_UART_STATE_READY /\
              __HAL_UART_GET_IT_SOURCE UART_IT_RXNE s' = false /\
              __HAL_UART_GET_IT_SOURCE UART_IT_PE s' = false /\
              __HAL_UART_GET_IT_SOURCE UART_IT_ERR s' = false) /\
  (RxState (huart s) = HAL_UART_STATE_READY ->
   PollsExpire tickstart Timeout (Receive_flags Size) env ->
   exists s', HAL_UART_Receive pData Size Timeout tickstart env s = Some (HAL_TIMEOUT, s') /\
              gState (huart s') = HAL_UART_STATE_READY /\
              __HAL_UART_GET_IT_SOURCE UART_IT_TXE s' = false /\
              (forall k, 0 <= k < 32 ->
                 k <> USART_CR1_RXNEIE_Pos -> k <> USART_CR1_PEIE_Pos ->
                 k <> USART_CR1_TXEIE_Pos ->
                 Z.testbit (CR1 (Instance (huart s'))) k
                   = Z.testbit (CR1 (Instance (huart s))) k) /\
              (USART_CR1_TCIE_Pos <> USART_CR1_RXNEIE_Pos ->
               USART_CR1_TCIE_Pos <> USART_CR1_PEIE_Pos ->
               USART_CR1_TCIE_Pos <> USART_CR1_TXEIE_Pos ->
               __HAL_UART_GET_IT_SOURCE UART_IT_TC s'
                 = __HAL_UART_GET_IT_SOURCE UART_IT_TC s)).
Proof.
  intros Hp Hsz Hal Hl. split; [|split].
  - intros Flag H.
    destruct (WaitOnFlag_expires _ _ _ _ _ s H)
      as [(s' & env' & E & T) | (s' & env' & E & K & P)].
    + exists s', env'. split; [exact E|].
      pose proof (timed_out_interrupts s s' T) as I.
      destruct T as (? & ? & _). tauto.
    + now apply no_poll_left in P.
  - intros Hg H.
    destruct (Transmit_times_out pData Size Timeout tickstart env s Hp Hsz Hal Hl Hg H)
      as (s' & E & T). exists s'. split; [exact E|].
    pose proof (timed_out_interrupts s s' T) as I.
    destruct T as (? & ? & _). tauto.
  - intros Hg H.
    destruct (Receive_times_out pData Size Timeout tickstart env s Hp Hsz Hal Hl Hg H)
      as (s' & E & T). exists s'. split; [exact E|].
    pose proof (timed_out_interrupts s s' T) as (Itxe & _ & _ & _ & K1 & _).
    destruct T as (G & _).
    split; [exact G|]. split; [exact Itxe|]. split; [exact K1|].
    intros N1 N2 N3. destruct CR1_positions as (_ & _ & Htc & _).
    unfold __HAL_UART_GET_IT_SOURCE, USART_CR1_TCIE.
    rewrite !flagged_bit by lia. apply K1; [lia | assumption..].
Qed.

(** ** Line errors in the interrupt handler *)

Lemma error_positions :
  0 <= HAL_UART_ERROR_PE_Pos /\ 0 <= HAL_UART_ERROR_NE_Pos /\
  0 <= HAL_UART_ERROR_FE_Pos /\ 0 <= HAL_UART_ERROR_ORE_Pos /\
  (HAL_UART_ERROR_PE_Pos =? HAL_UART_ERROR_ORE_Pos) = false /\
  (HAL_UART_ERROR_NE_Pos =? HAL_UART_ERROR_ORE_Pos) = false /\
  (HAL_UART_ERROR_FE_Pos =? HAL_UART_ERROR_ORE_Pos) = false.
Proof.
  pose proof HAL_UART_ERROR_range. pose proof HAL_UART_ERROR_distinct.
  repeat split; try lia; apply Z.eqb_neq; lia.
Qed.

Lemma lor_bit_nonzero (c p : Z) : 0 <= p -> Z.lor c (bit p) <> 0.
Proof.
  intros Hp E. apply Z.lor_eq_0_iff in E. destruct E as (_ & E).
  now apply (bit_nonzero p).
Qed.

Lemma lor_nonzero_l (c m : Z) : c <> 0 -> Z.lor c m <> 0.
Proof. intros Hc E. apply Z.lor_eq_0_iff in E. tauto. Qed.

Lemma accumulated_nonzero (s : System) :
  error_detected s = true -> accumulated_ErrorCode s <> HAL_UART_ERROR_NONE.
Proof.
  destruct error_positions as (Hpe & Hne & Hfe & Hore & _).
  unfold error_detected, accumulated_ErrorCode, HAL_UART_ERROR_NONE,
    HAL_UART_ERROR_PE, HAL_UART_ERROR_NE, HAL_UART_ERROR_FE, HAL_UART_ERROR_ORE.
  destruct (PE_detected s), (NE_detected s), (FE_detected s), (ORE_detected s);
    cbn [orb]; intros D; try discriminate;
    repeat first [ apply lor_bit_nonzero; assumption | apply lor_nonzero_l ].
Qed.

(** Without an overrun, old or new, the accumulated code has no overrun. *)
Lemma accumulated_ORE (s : System) :
  flagged (accumulated_ErrorCode s) HAL_UART_ERROR_ORE =
  flagged (ErrorCode (huart s)) HAL_UART_ERROR_ORE || ORE_detected s.
Proof.
  destruct error_positions as (Hpe & Hne & Hfe & Hore & Npe & Nne & Nfe).
  unfold accumulated_ErrorCode, HAL_UART_ERROR_PE, HAL_UART_ERROR_NE,
    HAL_UART_ERROR_FE, HAL_UART_ERROR_ORE.
  destruct (PE_detected s), (NE_detected s), (FE_detected s), (ORE_detected s);
    rewrite !flagged_bit by assumption;
    rewrite ?testbit_lor_bit by assumption;
    rewrite ?Npe, ?Nne, ?Nfe, ?Z.eqb_refl, ?orb_false_r; reflexivity.
Qed.

Lemma IRQ_accumulate_errors_eq (s : System) :
  IRQ_accumulate_errors (SR (Instance (huart s))) (CR1 (Instance (huart s)))
    (CR3 (Instance (huart s))) s
  = on_huart (set_ErrorCode (accumulated_ErrorCode s)) s.
Proof.
  unfold IRQ_accumulate_errors, accumulated_ErrorCode.
  change (flagged (SR (Instance (huart s))) USART_SR_PE &&
          flagged (CR1 (Instance (huart s))) USART_CR1_PEIE) with (PE_detected s).
  change (flagged (SR (Instance (huart s))) USART_SR_NE &&
          flagged (CR3 (Instance (huart s))) USART_CR3_EIE) with (NE_detected s).
  change (flagged (SR (Instance (huart s))) USART_SR_FE &&
          flagged (CR3 (Instance (huart s))) USART_CR3_EIE) with (FE_detected s).
  change (flagged (SR (Instance (huart s))) USART_SR_ORE &&
          flagged (CR3 (Instance (huart s))) USART_CR3_EIE) with (ORE_detected s).
  destruct (PE_detected s), (NE_detected s), (FE_detected s), (ORE_detected s);
    try reflexivity.
  destruct s as [h m c t]; destruct h; reflexivity.
Qed.

(** Under a detected error the handler is its error branch on the drained
    state. *)
Lemma IRQHandler_error_branch (dma_rx : DMA_Answer) (s : System) :
  error_detected s = true ->
  HAL_UART_IRQHandler dma_rx s =
    if flagged (ErrorCode (huart (drained s))) HAL_UART_ERROR_ORE ||
       HAL_IS_BIT_SET (CR3 (Instance (huart (drained s)))) USART_CR3_DMAR
    then IRQ_blocking_error dma_rx (drained s)
    else IRQ_non_blocking_error (drained s).
Proof.
  intros D. pose proof (accumulated_nonzero s D) as NZ.
  unfold HAL_UART_IRQHandler. cbv zeta.
  rewrite IRQ_accumulate_errors_eq.
  change (ErrorCode (huart (on_huart (set_ErrorCode (accumulated_ErrorCode s)) s)))
    with (accumulated_ErrorCode s).
  replace (accumulated_ErrorCode s =? HAL_UART_ERROR_NONE) with false
    by (symmetry; now apply Z.eqb_neq).
  cbn [negb].
  change (IRQ_drain (SR (Instance (huart s))) (CR1 (Instance (huart s)))
            (on_huart (set_ErrorCode (accumulated_ErrorCode s)) s))
    with (drained s).
  set (errorflags := Z.land _ _).
  assert (F : flagged (SR (Instance (huart s)))
                (Z.lor (Z.lor (Z.lor USART_SR_PE USART_SR_FE) USART_SR_ORE) USART_SR_NE)
              = true /\
              (flagged (CR3 (Instance (huart s))) USART_CR3_EIE ||
               flagged (CR1 (Instance (huart s))) (Z.lor USART_CR1_RXNEIE USART_CR1_PEIE))
              = true).
  { rewrite !flagged_lor. unfold error_detected, PE_detected, NE_detected,
      FE_detected, ORE_detected in D.
    destruct (flagged (SR (Instance (huart s))) USART_SR_PE),
      (flagged (SR (Instance (huart s))) USART_SR_FE),
      (flagged (SR (Instance (huart s))) USART_SR_ORE),
      (flagged (SR (Instance (huart s))) USART_SR_NE),
      (flagged (CR3 (Instance (huart s))) USART_CR3_EIE),
      (flagged (CR1 (Instance (huart s))) USART_CR1_PEIE),
      (flagged (CR1 (Instance (huart s))) USART_CR1_RXNEIE);
      cbn in D |- *; try discriminate; auto. }
  destruct F as (F1 & F2). unfold flagged in F1 at 1. fold errorflags in F1.
  apply negb_true_iff in F1. rewrite F1, F2. reflexivity.
Qed.

(** What the reception of one unit leaves alone. *)
Lemma UART_Receive_IT_frame (s : System) :
  ErrorCode (huart (snd (UART_Receive_IT s))) = ErrorCode (huart s) /\
  hdmarx (huart (snd (UART_Receive_IT s))) = hdmarx (huart s) /\
  HAL_IS_BIT_SET (CR3 (Instance (huart (snd (UART_Receive_IT s))))) USART_CR3_DMAR
    = HAL_IS_BIT_SET (CR3 (Instance (huart s))) USART_CR3_DMAR.
Proof.
  destruct (DMA_request_kept (CR3 (Instance (huart s)))) as (_ & Kr & _).
  unfold UART_Receive_IT.
  destruct (HAL_UART_StateTypeDef_eqb _ _); [|repeat split].
  destruct (units_are_u16 s);
    match goal with |- context [if ?c then _ else _] => destruct c end;
    cbn; rewrite ?Kr; repeat split.
Qed.

(** A unit that is not the last one: the reception goes on. *)
Lemma UART_Receive_IT_goes_on (s : System) :
  (RxXferCount (huart s) - 1) mod 2 ^ 16 <> 0 ->
  RxState (huart (snd (UART_Receive_IT s))) = RxState (huart s) /\
  CR1 (Instance (huart (snd (UART_Receive_IT s)))) = CR1 (Instance (huart s)) /\
  CR3 (Instance (huart (snd (UART_Receive_IT s)))) = CR3 (Instance (huart s)) /\
  calls (snd (UART_Receive_IT s)) = calls s.
Proof.
  intros Hc. apply Z.eqb_neq in Hc.
  unfold UART_Receive_IT.
  destruct (HAL_UART_StateTypeDef_eqb _ _); [|repeat split].
  destruct (units_are_u16 s);
    cbn [huart on_huart RxXferCount set_RxXferCount set_pRxBuffPtr set_ram];
    rewrite Hc; repeat split.
Qed.

(** The last unit: the reception completes. *)
Lemma UART_Receive_IT_completes (s : System) :
  RxState (huart s) = HAL_UART_STATE_BUSY_RX ->
  (RxXferCount (huart s) - 1) mod 2 ^ 16 = 0 ->
  RxState (huart (snd (UART_Receive_IT s))) = HAL_UART_STATE_READY /\
  exists h, calls (snd (UART_Receive_IT s)) = calls s ++ [(HAL_UART_RxCpltCallback, h)].
Proof.
  intros Hs Hc. apply Z.eqb_eq in Hc.
  unfold UART_Receive_IT. rewrite Hs. cbn [HAL_UART_StateTypeDef_eqb].
  destruct (units_are_u16 s);
    cbn [huart on_huart RxXferCount set_RxXferCount set_pRxBuffPtr set_ram];
    rewrite Hc; cbn; eauto.
Qed.

Lemma drained_frame (s : System) :
  ErrorCode (huart (drained s)) = accumulated_ErrorCode s /\
  hdmarx (huart (drained s)) = hdmarx (huart s) /\
  HAL_IS_BIT_SET (CR3 (Instance (huart (drained s)))) USART_CR3_DMAR
    = HAL_IS_BIT_SET (CR3 (Instance (huart s))) USART_CR3_DMAR.
Proof.
  unfold drained. cbv zeta.
  destruct (RXNE_pending _); [|repeat split].
  destruct (UART_Receive_IT_frame (on_huart (set_ErrorCode (accumulated_ErrorCode s)) s))
    as (E & H & K).
  rewrite E, H, K. repeat split.
Qed.

(** The blocking branch, from any state. *)
Lemma IRQ_blocking_error_ends (dma_rx : DMA_Answer) (s : System) :
  let s' := IRQ_blocking_error dma_rx s in
  RxState (huart s') = HAL_UART_STATE_READY /\
  __HAL_UART_GET_IT_SOURCE UART_IT_RXNE s' = false /\
  __HAL_UART_GET_IT_SOURCE UART_IT_PE s' = false /\
  __HAL_UART_GET_IT_SOURCE UART_IT_ERR s' = false /\
  ram s' = ram s /\
  pRxBuffPtr (huart s') = pRxBuffPtr (huart s) /\
  match HAL_IS_BIT_SET (CR3 (Instance (huart s))) USART_CR3_DMAR, hdmarx (huart s) with
  | true, Some _ =>
    HAL_IS_BIT_SET (CR3 (Instance (huart s'))) USART_CR3_DMAR = false /\
    option_map DMA.XferAbortCallback (hdmarx (huart s'))
      = Some (Some PTR_UART_DMAAbortOnError) /\
    match dma_status dma_rx with
    | HAL_OK =>
      calls s' = calls s /\
      exists h, calls (DMA_IRQ_AbortCplt DMA_RX s') = calls s ++ [(HAL_UART_ErrorCallback, h)]
    | _ => exists h, calls s' = calls s ++ [(HAL_UART_ErrorCallback, h)]
    end
  | _, _ =>
    (exists h, calls s' = calls s ++ [(HAL_UART_ErrorCallback, h)]) /\
    hdmarx (huart s') = hdmarx (huart s)
  end.
Proof.
  destruct CR1_positions as (_ & Hrx & _ & _ & Hpe).
  destruct CR3_positions as ((He & Hr & _) & Her & _).
  destruct (DMA_request_kept (CR3 (Instance (huart s)))) as (_ & Kr & _).
  assert (B1 : forall r, flagged (CLEAR_BIT r (Z.lor USART_CR1_RXNEIE USART_CR1_PEIE))
                           USART_CR1_RXNEIE = false /\
                         flagged (CLEAR_BIT r (Z.lor USART_CR1_RXNEIE USART_CR1_PEIE))
                           USART_CR1_PEIE = false).
  { intros r. unfold USART_CR1_RXNEIE, USART_CR1_PEIE.
    split; apply flagged_CLEAR_BIT_in; try lia;
      rewrite ?testbit_lor_bit, ?testbit_bit, ?Z.eqb_refl by lia;
      now rewrite ?orb_true_r. }
  assert (B3 : forall r, flagged (CLEAR_BIT r USART_CR3_EIE) USART_CR3_EIE = false /\
                         flagged (CLEAR_BIT (CLEAR_BIT r USART_CR3_EIE) USART_CR3_DMAR)
                           USART_CR3_EIE = false /\
                         HAL_IS_BIT_SET (CLEAR_BIT (CLEAR_BIT r USART_CR3_EIE) USART_CR3_DMAR)
                           USART_CR3_DMAR = false).
  { intros r. unfold USART_CR3_EIE, USART_CR3_DMAR.
    rewrite HAL_IS_BIT_SET_bit, !flagged_bit, !testbit_CLEAR_BIT, !testbit_bit by lia.
    rewrite !Z.eqb_refl. cbn [negb]. now rewrite !andb_false_r. }
  intros s'. subst s'. unfold IRQ_blocking_error. cbv zeta.
  replace (HAL_IS_BIT_SET (CR3 (Instance (huart (UART_EndRxTransfer s)))) USART_CR3_DMAR)
    with (HAL_IS_BIT_SET (CR3 (Instance (huart s))) USART_CR3_DMAR)
    by (symmetry; exact Kr).
  destruct (HAL_IS_BIT_SET (CR3 (Instance (huart s))) USART_CR3_DMAR).
  - change (hdmarx (huart (on_CR3 (fun r : Z => CLEAR_BIT r USART_CR3_DMAR)
                             (UART_EndRxTransfer s))))
      with (hdmarx (huart s)).
    destruct (hdmarx (huart s)) as [d|] eqn:Hd.
    + unfold HAL_DMA_Abort_IT.
      destruct (dma_status dma_rx); cbn;
        unfold __HAL_UART_GET_IT_SOURCE; cbn;
        repeat split; try apply B1; try apply B3; eauto.
    + unfold __HAL_UART_GET_IT_SOURCE; cbn.
      repeat split; try apply B1; try apply B3; eauto.
  - unfold __HAL_UART_GET_IT_SOURCE; cbn.
    destruct (hdmarx (huart s));
      repeat split; try apply B1; try apply B3; eauto.
Qed.

(** C2, as the code has it. In the interrupt handler, when a line error is
    detected (a flag set with its interrupt source enabled) and the
    accumulated error code includes Overrun or the DMA receive request is
    enabled, the error is blocking.  A received unit that is waiting with
    its interrupt enabled is drained first; then the receive transfer is
    ended: RxState Ready, the RXNE, PE and error interrupts disabled.
    When the DMA receive request is enabled and an Rx DMA channel is bound,
    the request is disabled and the asynchronous abort of the channel is
    requested with [UART_DMAAbortOnError] as callback: the user error
    callback is not called by the handler but by that callback when the
    engine reports the abort, or at once when the engine refuses the
    request.  In every other case (request not enabled, or no channel
    bound) the user error callback is called directly. *)
Theorem blocking_line_error (dma_rx : DMA_Answer) (s : System) :
  error_detected s = true ->
  flagged (accumulated_ErrorCode s) HAL_UART_ERROR_ORE ||
  HAL_IS_BIT_SET (CR3 (Instance (huart s))) USART_CR3_DMAR = true ->
  let s1 := drained s in
  let s' := HAL_UART_IRQHandler dma_rx s in
  RxState (huart s') = HAL_UART_STATE_READY /\
  __HAL_UART_GET_IT_SOURCE UART_IT_RXNE s' = false /\
  __HAL_UART_GET_IT_SOURCE UART_IT_PE s' = false /\
  __HAL_UART_GET_IT_SOURCE UART_IT_ERR s' = false /\
  ram s' = ram s1 /\
  pRxBuffPtr (huart s') = pRxBuffPtr (huart s1) /\
  match HAL_IS_BIT_SET (CR3 (Instance (huart s))) USART_CR3_DMAR, hdmarx (huart s) with
  | true, Some _ =>
    HAL_IS_BIT_SET (CR3 (Instance (huart s'))) USART_CR3_DMAR = false /\
    option_map DMA.XferAbortCallback (hdmarx (huart s'))
      = Some (Some PTR_UART_DMAAbortOnError) /\
    match dma_status dma_rx with
    | HAL_OK =>
      calls s' = calls s1 /\
      exists h, calls (DMA_IRQ_AbortCplt DMA_RX s') = calls s1 ++ [(HAL_UART_ErrorCallback, h)]
    | _ => exists h, calls s' = calls s1 ++ [(HAL_UART_ErrorCallback, h)]
    end
  | _, _ =>
    (exists h, calls s' = calls s1 ++ [(HAL_UART_ErrorCallback, h)]) /\
    hdmarx (huart s') = hdmarx (huart s)
  end.
Proof.
  intros D B s1 s'. subst s'.
  rewrite (IRQHandler_error_branch dma_rx s D). fold s1.
  destruct (drained_frame s) as (E & H & K). fold s1 in E, H, K.
  rewrite E, K, B. rewrite <- K, <- H.
  exact (IRQ_blocking_error_ends dma_rx s1).
Qed.

(** C3, as the code has it. In the interrupt handler, when a Parity,
    Noise or Frame error is detected, the accumulated error code has no
    Overrun and the DMA receive request is not enabled, the error is not
    blocking: after the drain of a waiting unit, the user error callback
    is called with the accumulated error code and the error code is then
    cleared to None; the error branch itself changes neither RxState nor
    an interrupt enable.  So the reception goes on (RxState and the
    enables as they were at entry) when no unit is waiting or the waiting
    unit is not the last one; when the drained unit is the last one of an
    interrupt-mode reception, the reception has completed: the
    receive-complete callback precedes the error callback and RxState is
    Ready. *)
Theorem non_blocking_line_error (dma_rx : DMA_Answer) (s : System) :
  PE_detected s || NE_detected s || FE_detected s = true ->
  flagged (accumulated_ErrorCode s) HAL_UART_ERROR_ORE = false ->
  HAL_IS_BIT_SET (CR3 (Instance (huart s))) USART_CR3_DMAR = false ->
  let s1 := drained s in
  let s' := HAL_UART_IRQHandler dma_rx s in
  (exists h, calls s' = calls s1 ++ [(HAL_UART_ErrorCallback, h)] /\
             ErrorCode h = accumulated_ErrorCode s /\
             ErrorCode h <> HAL_UART_ERROR_NONE) /\
  ErrorCode (huart s') = HAL_UART_ERROR_NONE /\
  RxState (huart s') = RxState (huart s1) /\
  CR1 (Instance (huart s')) = CR1 (Instance (huart s1)) /\
  CR3 (Instance (huart s')) = CR3 (Instance (huart s1)) /\
  (RXNE_pending s = false \/ (RxXferCount (huart s) - 1) mod 2 ^ 16 <> 0 ->
   RxState (huart s') = RxState (huart s) /\
   CR1 (Instance (huart s')) = CR1 (Instance (huart s)) /\
   CR3 (Instance (huart s')) = CR3 (Instance (huart s)) /\
   exists h, calls s' = calls s ++ [(HAL_UART_ErrorCallback, h)]) /\
  (RXNE_pending s = true -> RxState (huart s) = HAL_UART_STATE_BUSY_RX ->
   (RxXferCount (huart s) - 1) mod 2 ^ 16 = 0 ->
   RxState (huart s') = HAL_UART_STATE_READY /\
   exists h1 h2, calls s' = calls s ++ [(HAL_UART_RxCpltCallback, h1);
                                        (HAL_UART_ErrorCallback, h2)]).
Proof.
  intros D O R s1 s'.
  assert (D' : error_detected s = true)
    by (unfold error_detected; rewrite D; reflexivity).
  pose proof (accumulated_nonzero s D') as NZ.
  subst s'. rewrite (IRQHandler_error_branch dma_rx s D'). fold s1.
  destruct (drained_frame s) as (E & H & K). fold s1 in E, H, K.
  rewrite E, K, O, R. cbn [orb].
  unfold IRQ_non_blocking_error. cbv zeta.
  cbn [huart on_huart invoke calls ErrorCode set_ErrorCode RxState Instance CR1 CR3].
  split; [|split; [|split; [|split; [|split; [|split]]]]]; try reflexivity.
  - exists (huart s1). rewrite E. auto.
  - intros C. subst s1. unfold drained. cbv zeta.
    change (RXNE_pending (on_huart (set_ErrorCode (accumulated_ErrorCode s)) s))
      with (RXNE_pending s).
    destruct (RXNE_pending s).
    + destruct C as [C | C]; [discriminate|].
      destruct (UART_Receive_IT_goes_on
                  (on_huart (set_ErrorCode (accumulated_ErrorCode s)) s) C)
        as (G1 & G2 & G3 & G4).
      rewrite G1, G2, G3, G4. repeat split. eexists; reflexivity.
    + repeat split. eexists; reflexivity.
  - intros P B C. subst s1. unfold drained. cbv zeta.
    change (RXNE_pending (on_huart (set_ErrorCode (accumulated_ErrorCode s)) s))
      with (RXNE_pending s).
    rewrite P.
    destruct (UART_Receive_IT_completes
                (on_huart (set_ErrorCode (accumulated_ErrorCode s)) s) B C)
      as (G1 & h1 & G2).
    rewrite G1, G2. split; [reflexivity|].
    eexists _, _. rewrite <- app_assoc. reflexivity.
Qed.

(** ** More on the bits of a register *)

Lemma testbit_SET_BIT (r m k : Z) :
  Z.testbit (SET_BIT r m) k = Z.testbit r k || Z.testbit m k.
Proof. apply Z.lor_spec. Qed.

Lemma flagged_SET_BIT_same (r p : Z) : 0 <= p -> flagged (SET_BIT r (bit p)) (bit p) = true.
Proof.
  intros Hp. rewrite flagged_bit, testbit_SET_BIT, testbit_bit, Z.eqb_refl by lia.
  apply orb_true_r.
Qed.

Lemma HAL_IS_BIT_SET_SET_same (r p : Z) :
  0 <= p -> HAL_IS_BIT_SET (SET_BIT r (bit p)) (bit p) = true.
Proof.
  intros Hp. rewrite HAL_IS_BIT_SET_bit, testbit_SET_BIT, testbit_bit, Z.eqb_refl by lia.
  apply orb_true_r.
Qed.

Lemma HAL_IS_BIT_SET_CLEAR_same (r p : Z) :
  0 <= p < 32 -> HAL_IS_BIT_SET (CLEAR_BIT r (bit p)) (bit p) = false.
Proof.
  intros Hp. rewrite HAL_IS_BIT_SET_bit, testbit_CLEAR_BIT, testbit_bit, Z.eqb_refl by lia.
  apply andb_false_r.
Qed.

Lemma testbit_high (m k : Z) : 0 <= m < 2 ^ 32 -> 32 <= k -> Z.testbit m k = false.
Proof.
  intros Hm Hk. rewrite <- (Z.mod_small m (2 ^ 32)) by lia.
  apply Z.mod_pow2_bits_high. lia.
Qed.

Lemma testbit_CLEAR_BIT_high (r m k : Z) :
  0 <= r < 2 ^ 32 -> 32 <= k -> Z.testbit (CLEAR_BIT r m) k = false.
Proof.
  intros Hr Hk. unfold CLEAR_BIT. rewrite Z.land_spec, (testbit_high r k) by lia. reflexivity.
Qed.

(** Setting again a bit that was set before it was cleared restores a 32-bit
    register. *)
Lemma SET_BIT_CLEAR_BIT (r p : Z) :
  0 <= r < 2 ^ 32 -> 0 <= p < 32 -> Z.testbit r p = true ->
  SET_BIT (CLEAR_BIT r (bit p)) (bit p) = r.
Proof.
  intros Hr Hp Hb. apply Z.bits_inj'. intros k Hk.
  rewrite testbit_SET_BIT, testbit_bit by lia.
  destruct (Z.ltb_spec k 32).
  - rewrite testbit_CLEAR_BIT, testbit_bit by lia.
    destruct (Z.eqb_spec p k); [subst; rewrite Hb; reflexivity|].
    simpl. now rewrite andb_true_r, orb_false_r.
  - rewrite testbit_CLEAR_BIT_high, (testbit_high r k) by lia.
    destruct (Z.eqb_spec p k); [lia | reflexivity].
Qed.

(** ** An interrupt entry with every source disabled *)

(** X1. With the six interrupt sources of the UART (PE, TXE, TC, RXNE,
    IDLE, error) all disabled, an entry of the interrupt handler changes
    nothing, whatever flags the status register shows: no unit is moved,
    no error is recorded, no callback is called. *)
Theorem IRQHandler_sources_disabled (dma_rx : DMA_Answer) (s : System) :
  no_interrupt_source_enabled s = true ->
  HAL_UART_IRQHandler dma_rx s = s.
Proof.
  unfold no_interrupt_source_enabled, __HAL_UART_GET_IT_SOURCE.
  rewrite !andb_true_iff, !negb_true_iff.
  intros (((((Hpe & Htxe) & Htc) & Hrxne) & Hidle) & Herr).
  unfold HAL_UART_IRQHandler, IRQ_idle_and_transmit.
  rewrite flagged_lor, Hpe, Htxe, Htc, Hrxne, Hidle, Herr.
  rewrite !andb_false_r. reflexivity.
Qed.

(** ** Stopping DMA transfers *)

Lemma DMA_requests_after_clear (r : Z) :
  HAL_IS_BIT_SET (CLEAR_BIT r USART_CR3_DMAT) USART_CR3_DMAT = false /\
  HAL_IS_BIT_SET (CLEAR_BIT r USART_CR3_DMAR) USART_CR3_DMAR = false /\
  HAL_IS_BIT_SET (CLEAR_BIT r USART_CR3_DMAR) USART_CR3_DMAT = HAL_IS_BIT_SET r USART_CR3_DMAT /\
  HAL_IS_BIT_SET (CLEAR_BIT r USART_CR3_DMAT) USART_CR3_DMAR = HAL_IS_BIT_SET r USART_CR3_DMAR /\
  HAL_IS_BIT_SET (CLEAR_BIT r USART_CR3_EIE) USART_CR3_DMAT = HAL_IS_BIT_SET r USART_CR3_DMAT /\
  HAL_IS_BIT_SET (CLEAR_BIT r USART_CR3_EIE) USART_CR3_DMAR = HAL_IS_BIT_SET r USART_CR3_DMAR.
Proof.
  destruct CR3_positions as ((He & Hr & Ht) & Her & Het & Hrt & Htr).
  unfold USART_CR3_EIE, USART_CR3_DMAT, USART_CR3_DMAR.
  rewrite !HAL_IS_BIT_SET_bit, !testbit_CLEAR_BIT, !testbit_bit by lia.
  rewrite Het, Her, Htr, Hrt, !Z.eqb_refl. simpl. now rewrite !andb_true_r, !andb_false_r.
Qed.

Lemma DMAT_after_clear_DMAT (r : Z) :
  HAL_IS_BIT_SET (CLEAR_BIT r USART_CR3_DMAT) USART_CR3_DMAT = false.
Proof. apply DMA_requests_after_clear. Qed.

Lemma DMAR_after_clear_DMAR (r : Z) :
  HAL_IS_BIT_SET (CLEAR_BIT r USART_CR3_DMAR) USART_CR3_DMAR = false.
Proof. apply DMA_requests_after_clear. Qed.

Lemma DMAT_after_clear_DMAR (r : Z) :
  HAL_IS_BIT_SET (CLEAR_BIT r USART_CR3_DMAR) USART_CR3_DMAT = HAL_IS_BIT_SET r USART_CR3_DMAT.
Proof. apply DMA_requests_after_clear. Qed.

Lemma DMAR_after_clear_DMAT (r : Z) :
  HAL_IS_BIT_SET (CLEAR_BIT r USART_CR3_DMAT) USART_CR3_DMAR = HAL_IS_BIT_SET r USART_CR3_DMAR.
Proof. apply DMA_requests_after_clear. Qed.

Lemma DMAT_after_clear_EIE (r : Z) :
  HAL_IS_BIT_SET (CLEAR_BIT r USART_CR3_EIE) USART_CR3_DMAT = HAL_IS_BIT_SET r USART_CR3_DMAT.
Proof. apply DMA_requests_after_clear. Qed.

Lemma DMAR_after_clear_EIE (r : Z) :
  HAL_IS_BIT_SET (CLEAR_BIT r USART_CR3_EIE) USART_CR3_DMAR = HAL_IS_BIT_SET r USART_CR3_DMAR.
Proof. apply DMA_requests_after_clear. Qed.

#[local] Create Rewrite HintDb DMA_requests.
#[local] Hint Rewrite DMAT_after_clear_DMAT DMAR_after_clear_DMAR DMAT_after_clear_DMAR
  DMAR_after_clear_DMAT DMAT_after_clear_EIE DMAR_after_clear_EIE : DMA_requests.

(** X2. [HAL_UART_DMAStop] always returns Ok and calls no callback.  It
    ends exactly the directions that are busy with their DMA request
    enabled: such a direction becomes Ready and its request bit is
    cleared, even when the DMA engine fails the abort; a direction that is
    busy in interrupt mode, or idle, keeps its state and its request bit.
    The transfer counters and the error code are left as they were, and
    with no direction in DMA mode the system is unchanged. *)
Theorem DMAStop_ends_DMA_transfers (dma_tx dma_rx : DMA_Answer) (s : System) :
  let tx := HAL_UART_StateTypeDef_eqb (gState (huart s)) HAL_UART_STATE_BUSY_TX &&
            HAL_IS_BIT_SET (CR3 (Instance (huart s))) USART_CR3_DMAT in
  let rx := HAL_UART_StateTypeDef_eqb (RxState (huart s)) HAL_UART_STATE_BUSY_RX &&
            HAL_IS_BIT_SET (CR3 (Instance (huart s))) USART_CR3_DMAR in
  let r := HAL_UART_DMAStop dma_tx dma_rx s in
  fst r = HAL_OK /\
  calls (snd r) = calls s /\
  gState (huart (snd r)) = (if tx then HAL_UART_STATE_READY else gState (huart s)) /\
  RxState (huart (snd r)) = (if rx then HAL_UART_STATE_READY else RxState (huart s)) /\
  HAL_IS_BIT_SET (CR3 (Instance (huart (snd r)))) USART_CR3_DMAT =
    negb tx && HAL_IS_BIT_SET (CR3 (Instance (huart s))) USART_CR3_DMAT /\
  HAL_IS_BIT_SET (CR3 (Instance (huart (snd r)))) USART_CR3_DMAR =
    negb rx && HAL_IS_BIT_SET (CR3 (Instance (huart s))) USART_CR3_DMAR /\
  TxXferCount (huart (snd r)) = TxXferCount (huart s) /\
  RxXferCount (huart (snd r)) = RxXferCount (huart s) /\
  ErrorCode (huart (snd r)) = ErrorCode (huart s) /\
  (if tx || rx then True else snd r = s).
Proof.
  intros tx rx r. subst r.
  assert (Ht : tx = true -> HAL_IS_BIT_SET (CR3 (Instance (huart s))) USART_CR3_DMAT = true)
    by (intros E; apply andb_true_iff in E; tauto).
  assert (Hr : rx = true -> HAL_IS_BIT_SET (CR3 (Instance (huart s))) USART_CR3_DMAR = true)
    by (intros E; apply andb_true_iff in E; tauto).
  unfold HAL_UART_DMAStop, DMAStop_tx.
  fold tx. destruct tx eqn:Etx.
  - unfold DMAStop_rx, UART_EndTxTransfer; cbn.
    rewrite DMAR_after_clear_DMAT. fold rx. destruct rx eqn:Erx; cbn;
      autorewrite with DMA_requests; repeat split; reflexivity.
  - unfold DMAStop_rx. fold rx. destruct rx eqn:Erx; unfold UART_EndRxTransfer; cbn;
      autorewrite with DMA_requests; repeat split; reflexivity.
Qed.

(** ** The error report of the DMA engine *)

(** X3. The error callback of the DMA engine, [UART_DMAError], adds the
    DMA error to the error code and calls the user error callback once,
    on the handle as it leaves it.  It ends the directions that are busy
    with their DMA request enabled (state Ready, counter zero) and no
    other; unlike [HAL_UART_DMAStop] it leaves the two DMA request bits as
    they were. *)
Theorem DMAError_ends_DMA_transfers (hdma : DMA.DMA_HandleTypeDef) (s : System) :
  let tx := HAL_UART_StateTypeDef_eqb (gState (huart s)) HAL_UART_STATE_BUSY_TX &&
            HAL_IS_BIT_SET (CR3 (Instance (huart s))) USART_CR3_DMAT in
  let rx := HAL_UART_StateTypeDef_eqb (RxState (huart s)) HAL_UART_STATE_BUSY_RX &&
            HAL_IS_BIT_SET (CR3 (Instance (huart s))) USART_CR3_DMAR in
  let s' := UART_DMAError hdma s in
  calls s' = calls s ++ [(HAL_UART_ErrorCallback, huart s')] /\
  ErrorCode (huart s') = Z.lor (ErrorCode (huart s)) HAL_UART_ERROR_DMA /\
  flagged (ErrorCode (huart s')) HAL_UART_ERROR_DMA = true /\
  gState (huart s') = (if tx then HAL_UART_STATE_READY else gState (huart s)) /\
  RxState (huart s') = (if rx then HAL_UART_STATE_READY else RxState (huart s)) /\
  TxXferCount (huart s') = (if tx then 0 else TxXferCount (huart s)) /\
  RxXferCount (huart s') = (if rx then 0 else RxXferCount (huart s)) /\
  HAL_IS_BIT_SET (CR3 (Instance (huart s'))) USART_CR3_DMAT =
    HAL_IS_BIT_SET (CR3 (Instance (huart s))) USART_CR3_DMAT /\
  HAL_IS_BIT_SET (CR3 (Instance (huart s'))) USART_CR3_DMAR =
    HAL_IS_BIT_SET (CR3 (Instance (huart s))) USART_CR3_DMAR.
Proof.
  intros tx rx s'. subst s'.
  assert (F : flagged (Z.lor (ErrorCode (huart s)) HAL_UART_ERROR_DMA) HAL_UART_ERROR_DMA = true).
  { pose proof HAL_UART_ERROR_range. apply (flagged_SET_BIT_same _ HAL_UART_ERROR_DMA_Pos). lia. }
  unfold UART_DMAError. fold tx. cbv zeta.
  destruct tx; unfold UART_EndTxTransfer; cbn [huart on_huart on_CR1 on_Instance RxState
    set_Instance set_gState set_TxXferCount Instance CR3 set_CR1];
    fold rx; destruct rx; unfold UART_EndRxTransfer; cbn;
    autorewrite with DMA_requests; rewrite F; repeat split; reflexivity.
Qed.

(** ** The asynchronous abort when the DMA engine refuses a channel *)

(** The abort up to the request on the Tx channel, which the engine
    accepts. *)
Lemma Abort_IT_Tx_requested (a_tx : DMA_Answer) (s : System)
    (dtx drx : DMA.DMA_HandleTypeDef) :
  hdmatx (huart s) = Some dtx ->
  hdmarx (huart s) = Some drx ->
  HAL_IS_BIT_SET (CR3 (Instance (huart s))) USART_CR3_DMAT = true ->
  HAL_IS_BIT_SET (CR3 (Instance (huart s))) USART_CR3_DMAR = true ->
  dma_status a_tx = HAL_OK ->
  exists s3,
    Abort_IT_abort_tx a_tx true
      (Abort_IT_set_rx_callback (Abort_IT_set_tx_callback (Abort_IT_disable_interrupts s)))
      = (false, s3) /\
    (exists d, hdmatx (huart s3) = Some d /\
       DMA.XferAbortCallback d = Some PTR_UART_DMATxAbortCallback) /\
    hdmarx (huart s3) = Some (DMA.set_XferAbortCallback (Some PTR_UART_DMARxAbortCallback) drx) /\
    HAL_IS_BIT_SET (CR3 (Instance (huart s3))) USART_CR3_DMAR = true /\
    calls s3 = calls s.
Proof.
  intros Htx Hrx Ht Hr Atx.
  assert (F1 : exists s1, Abort_IT_disable_interrupts s = s1 /\
             hdmatx (huart s1) = Some dtx /\ hdmarx (huart s1) = Some drx /\
             HAL_IS_BIT_SET (CR3 (Instance (huart s1))) USART_CR3_DMAT = true /\
             HAL_IS_BIT_SET (CR3 (Instance (huart s1))) USART_CR3_DMAR = true /\
             calls s1 = calls s).
  { eexists; split; [reflexivity|].
    destruct (DMA_request_kept (CR3 (Instance (huart s)))) as (Kt & Kr & _).
    unfold Abort_IT_disable_interrupts; cbn. rewrite Kt, Kr. auto. }
  destruct F1 as (s1 & -> & Htx1 & Hrx1 & Ht1 & Hr1 & Hc1).
  clear Htx Hrx Ht Hr. rewrite <- Hc1. clear Hc1 s.
  assert (F2 : exists s2, Abort_IT_set_rx_callback (Abort_IT_set_tx_callback s1) = s2 /\
             hdmatx (huart s2) = Some (DMA.set_XferAbortCallback (Some PTR_UART_DMATxAbortCallback) dtx) /\
             hdmarx (huart s2) = Some (DMA.set_XferAbortCallback (Some PTR_UART_DMARxAbortCallback) drx) /\
             HAL_IS_BIT_SET (CR3 (Instance (huart s2))) USART_CR3_DMAT = true /\
             HAL_IS_BIT_SET (CR3 (Instance (huart s2))) USART_CR3_DMAR = true /\
             calls s2 = calls s1).
  { eexists; split; [reflexivity|].
    unfold Abort_IT_set_tx_callback. rewrite Htx1, Ht1.
    unfold Abort_IT_set_rx_callback; cbn. rewrite Hrx1, Hr1; cbn.
    rewrite Htx1, Hrx1. auto. }
  destruct F2 as (s2 & -> & Htx2 & Hrx2 & Ht2 & Hr2 & Hc2).
  rewrite <- Hc2. clear Htx1 Hrx1 Ht1 Hr1 Hc2 s1.
  destruct (DMA_request_kept (CR3 (Instance (huart s2)))) as (_ & _ & Kr).
  unfold Abort_IT_abort_tx, HAL_DMA_Abort_IT. rewrite Ht2; cbn.
  rewrite Htx2, Atx; cbn. eexists; split; [reflexivity|]; cbn.
  rewrite Kr. repeat split; eauto.
Qed.

(** X4. The asynchronous abort of a handle whose two channels serve a
    transfer, when the DMA engine accepts the abort of the Tx channel and
    refuses the abort of the Rx channel: the user abort-complete callback
    is called at once, on a handle already reset to Ready, while the
    abort callback of the Tx channel stays armed; the abort completion of
    the Tx channel then calls the user callback a second time. *)
Theorem Abort_IT_Rx_refused (a_tx a_rx : DMA_Answer) (s : System)
    (dtx drx : DMA.DMA_HandleTypeDef) :
  hdmatx (huart s) = Some dtx ->
  hdmarx (huart s) = Some drx ->
  HAL_IS_BIT_SET (CR3 (Instance (huart s))) USART_CR3_DMAT = true ->
  HAL_IS_BIT_SET (CR3 (Instance (huart s))) USART_CR3_DMAR = true ->
  dma_status a_tx = HAL_OK ->
  HAL_StatusTypeDef_eqb (dma_status a_rx) HAL_OK = false ->
  let armed := snd (HAL_UART_Abort_IT a_tx a_rx s) in
  let after := DMA_IRQ_AbortCplt DMA_TX armed in
  exists h1 h2,
    calls armed = calls s ++ [(HAL_UART_AbortCpltCallback, h1)] /\
    aborted_view (HAL_UART_AbortCpltCallback, h1) /\
    option_map DMA.XferAbortCallback (hdmatx (huart armed))
      = Some (Some PTR_UART_DMATxAbortCallback) /\
    calls after
      = calls s ++ [(HAL_UART_AbortCpltCallback, h1); (HAL_UART_AbortCpltCallback, h2)] /\
    aborted_view (HAL_UART_AbortCpltCallback, h2).
Proof.
  intros Htx Hrx Ht Hr Atx Arx armed after. subst after armed.
  unfold HAL_UART_Abort_IT.
  destruct (Abort_IT_Tx_requested a_tx s dtx drx Htx Hrx Ht Hr Atx)
    as (s3 & -> & (d3 & Htx3 & Cb3) & Hrx3 & Hr3 & Hc3).
  rewrite <- Hc3. clear Htx Hrx Ht Hr Hc3 s.
  assert (F4 : exists s4, Abort_IT_abort_rx a_rx false s3 = (true, s4) /\
             hdmatx (huart s4) = Some d3 /\
             abort_callback_bound (hdmarx (huart s4)) = false /\
             calls s4 = calls s3).
  { unfold Abort_IT_abort_rx, HAL_DMA_Abort_IT. rewrite Hr3; cbn.
    rewrite Hrx3. destruct (dma_status a_rx); [discriminate Arx| | |]; cbn;
      (eexists; split; [reflexivity|]); cbn; rewrite Htx3; auto. }
  destruct F4 as (s4 & -> & Htx4 & Hb4 & Hc4).
  rewrite <- Hc4. clear Htx3 Hrx3 Hr3 Hc4 s3.
  unfold Abort_IT_complete, DMA_IRQ_AbortCplt, DMA_channel; cbn.
  rewrite Htx4, Cb3; cbn.
  unfold UART_DMATxAbortCallback; cbn. rewrite Hb4; cbn.
  eexists _, _. split; [reflexivity|]. split; [repeat split|].
  split; [cbn; now rewrite Cb3|].
  split; [now rewrite <- app_assoc|]. repeat split.
Qed.

(** ** The aborts of one direction *)

Lemma Tx_sources_cleared (r : Z) :
  flagged (CLEAR_BIT r (Z.lor USART_CR1_TXEIE USART_CR1_TCIE)) USART_CR1_TXEIE = false /\
  flagged (CLEAR_BIT r (Z.lor USART_CR1_TXEIE USART_CR1_TCIE)) USART_CR1_TCIE = false.
Proof.
  destruct CR1_positions as (_ & _ & Htc & Htxe & _).
  unfold USART_CR1_TXEIE, USART_CR1_TCIE.
  split; apply flagged_CLEAR_BIT_in; try lia;
    rewrite Z.lor_spec, !testbit_bit, Z.eqb_refl by lia;
    [reflexivity | apply orb_true_r].
Qed.

Lemma Rx_sources_cleared (r : Z) :
  flagged (CLEAR_BIT r (Z.lor USART_CR1_RXNEIE USART_CR1_PEIE)) USART_CR1_RXNEIE = false /\
  flagged (CLEAR_BIT r (Z.lor USART_CR1_RXNEIE USART_CR1_PEIE)) USART_CR1_PEIE = false.
Proof.
  destruct CR1_positions as (_ & Hrx & _ & _ & Hpe).
  unfold USART_CR1_RXNEIE, USART_CR1_PEIE.
  split; apply flagged_CLEAR_BIT_in; try lia;
    rewrite Z.lor_spec, !testbit_bit, Z.eqb_refl by lia;
    [reflexivity | apply orb_true_r].
Qed.

Lemma EIE_cleared (r : Z) :
  flagged (CLEAR_BIT r USART_CR3_EIE) USART_CR3_EIE = false /\
  flagged (CLEAR_BIT (CLEAR_BIT r USART_CR3_EIE) USART_CR3_DMAR) USART_CR3_EIE = false.
Proof.
  destruct CR3_positions as ((He & Hr & Ht) & _).
  unfold USART_CR3_EIE, USART_CR3_DMAR.
  rewrite !flagged_bit, !testbit_CLEAR_BIT, !testbit_bit, Z.eqb_refl by lia.
  cbn. now rewrite !andb_false_r.
Qed.

Lemma EIE_after_clear_DMAT (r : Z) :
  flagged (CLEAR_BIT r USART_CR3_DMAT) USART_CR3_EIE = flagged r USART_CR3_EIE /\
  HAL_IS_BIT_SET (CLEAR_BIT r USART_CR3_DMAT) USART_CR3_EIE = HAL_IS_BIT_SET r USART_CR3_EIE.
Proof.
  destruct CR3_positions as ((He & Hr & Ht) & _).
  pose proof USART_CR3_distinct as (_ & N & _).
  unfold USART_CR3_EIE, USART_CR3_DMAT.
  rewrite !flagged_bit, !HAL_IS_BIT_SET_bit, !testbit_CLEAR_BIT, !testbit_bit by lia.
  replace (USART_CR3_DMAT_Pos =? USART_CR3_EIE_Pos) with false
    by (symmetry; apply Z.eqb_neq; lia).
  cbn. now rewrite andb_true_r.
Qed.

(** X5. [HAL_UART_AbortTransmit_IT] returns Ok and the Tx abort completes
    with one call of the user abort-transmit-complete callback: on a
    handle with gState Ready, Tx counter zero, the TXE and TC interrupts
    and the Tx DMA request disabled.  The call is made by the function
    itself, except when the Tx DMA request is enabled on a bound channel
    and the engine accepts the abort: then the function calls nothing and
    leaves gState as it was, and the call is made at the abort completion
    of the channel.  RxState, the Rx counter, the error code, the Rx DMA
    request and the error interrupt are never touched. *)
Theorem AbortTransmit_IT_completes_once (dma_tx : DMA_Answer) (s : System) :
  let r := HAL_UART_AbortTransmit_IT dma_tx s in
  let deferred :=
    HAL_IS_BIT_SET (CR3 (Instance (huart s))) USART_CR3_DMAT &&
    match hdmatx (huart s) with Some _ => true | None => false end &&
    HAL_StatusTypeDef_eqb (dma_status dma_tx) HAL_OK in
  let completed (s' : System) :=
    calls s' = calls s ++ [(HAL_UART_AbortTransmitCpltCallback, huart s')] /\
    gState (huart s') = HAL_UART_STATE_READY /\
    TxXferCount (huart s') = 0 /\
    __HAL_UART_GET_IT_SOURCE UART_IT_TXE s' = false /\
    __HAL_UART_GET_IT_SOURCE UART_IT_TC s' = false /\
    HAL_IS_BIT_SET (CR3 (Instance (huart s'))) USART_CR3_DMAT = false /\
    RxState (huart s') = RxState (huart s) /\
    RxXferCount (huart s') = RxXferCount (huart s) /\
    ErrorCode (huart s') = ErrorCode (huart s) /\
    HAL_IS_BIT_SET (CR3 (Instance (huart s'))) USART_CR3_DMAR
      = HAL_IS_BIT_SET (CR3 (Instance (huart s))) USART_CR3_DMAR /\
    __HAL_UART_GET_IT_SOURCE UART_IT_ERR s' = __HAL_UART_GET_IT_SOURCE UART_IT_ERR s in
  fst r = HAL_OK /\
  if deferred
  then calls (snd r) = calls s /\ gState (huart (snd r)) = gState (huart s) /\
       completed (DMA_IRQ_AbortCplt DMA_TX (snd r))
  else completed (snd r).
Proof.
  intros r deferred completed. subst completed deferred r.
  destruct (Tx_sources_cleared (CR1 (Instance (huart s)))) as (C1 & C2).
  destruct (EIE_after_clear_DMAT (CR3 (Instance (huart s)))) as (E1 & _).
  unfold HAL_UART_AbortTransmit_IT, __HAL_UART_GET_IT_SOURCE. cbn.
  destruct (HAL_IS_BIT_SET (CR3 (Instance (huart s))) USART_CR3_DMAT) eqn:Ht; cbn.
  - destruct (hdmatx (huart s)) as [d|] eqn:Hd; cbn.
    + unfold HAL_DMA_Abort_IT, DMA_IRQ_AbortCplt.
      destruct (dma_status dma_tx); cbn; rewrite ?Hd; cbn;
        autorewrite with DMA_requests; rewrite C1, C2, E1; repeat split; reflexivity.
    + cbn. autorewrite with DMA_requests. rewrite C1, C2, E1.
      repeat split; reflexivity.
  - rewrite C1, C2, Ht. repeat split; reflexivity.
Qed.

(** X6. [HAL_UART_AbortReceive_IT] returns Ok and the Rx abort completes
    with one call of the user abort-receive-complete callback: on a
    handle with RxState Ready, Rx counter zero, the RXNE, PE and error
    interrupts and the Rx DMA request disabled.  The call is made by the
    function itself, except when the Rx DMA request is enabled on a bound
    channel and the engine accepts the abort: then it is made at the
    abort completion of the channel.  gState, the Tx counter, the error
    code and the Tx DMA request are never touched. *)
Theorem AbortReceive_IT_completes_once (dma_rx : DMA_Answer) (s : System) :
  let r := HAL_UART_AbortReceive_IT dma_rx s in
  let deferred :=
    HAL_IS_BIT_SET (CR3 (Instance (huart s))) USART_CR3_DMAR &&
    match hdmarx (huart s) with Some _ => true | None => false end &&
    HAL_StatusTypeDef_eqb (dma_status dma_rx) HAL_OK in
  let completed (s' : System) :=
    calls s' = calls s ++ [(HAL_UART_AbortReceiveCpltCallback, huart s')] /\
    RxState (huart s') = HAL_UART_STATE_READY /\
    RxXferCount (huart s') = 0 /\
    __HAL_UART_GET_IT_SOURCE UART_IT_RXNE s' = false /\
    __HAL_UART_GET_IT_SOURCE UART_IT_PE s' = false /\
    __HAL_UART_GET_IT_SOURCE UART_IT_ERR s' = false /\
    HAL_IS_BIT_SET (CR3 (Instance (huart s'))) USART_CR3_DMAR = false /\
    gState (huart s') = gState (huart s) /\
    TxXferCount (huart s') = TxXferCount (huart s) /\
    ErrorCode (huart s') = ErrorCode (huart s) /\
    HAL_IS_BIT_SET (CR3 (Instance (huart s'))) USART_CR3_DMAT
      = HAL_IS_BIT_SET (CR3 (Instance (huart s))) USART_CR3_DMAT in
  fst r = HAL_OK /\
  if deferred
  then calls (snd r) = calls s /\ RxState (huart (snd r)) = RxState (huart s) /\
       completed (DMA_IRQ_AbortCplt DMA_RX (snd r))
  else completed (snd r).
Proof.
  intros r deferred completed. subst completed deferred r.
  destruct (Rx_sources_cleared (CR1 (Instance (huart s)))) as (C1 & C2).
  destruct (EIE_cleared (CR3 (Instance (huart s)))) as (E1 & E2).
  unfold HAL_UART_AbortReceive_IT, __HAL_UART_GET_IT_SOURCE. cbn.
  autorewrite with DMA_requests.
  destruct (HAL_IS_BIT_SET (CR3 (Instance (huart s))) USART_CR3_DMAR) eqn:Hr; cbn.
  - destruct (hdmarx (huart s)) as [d|] eqn:Hd; cbn.
    + unfold HAL_DMA_Abort_IT, DMA_IRQ_AbortCplt.
      destruct (dma_status dma_rx); cbn; rewrite ?Hd; cbn;
        autorewrite with DMA_requests; rewrite C1, C2, E2; repeat split; reflexivity.
    + cbn. autorewrite with DMA_requests. rewrite C1, C2, E2.
      repeat split; reflexivity.
  - autorewrite with DMA_requests. rewrite C1, C2, E1, Hr. repeat split; reflexivity.
Qed.

(** X7. [HAL_UART_AbortTransmit] calls no callback, disables the TXE and
    TC interrupts and the Tx DMA request and leaves the receiver alone
    (RxState, Rx counter, Rx DMA request, error interrupt).  It returns
    Timeout exactly when the Tx DMA request was enabled on a bound channel
    and the engine failed the abort with its timeout error: the error code
    is then the DMA error, and gState and the Tx counter are left as they
    were.  In every other case, a failure of the engine with another error
    included, it returns Ok with gState Ready and the Tx counter zero, and
    the error code is not reset. *)
Theorem AbortTransmit_outcome (dma_tx : DMA_Answer) (s : System) :
  let r := HAL_UART_AbortTransmit dma_tx s in
  let timeout :=
    HAL_IS_BIT_SET (CR3 (Instance (huart s))) USART_CR3_DMAT &&
    match hdmatx (huart s) with Some _ => true | None => false end &&
    negb (HAL_StatusTypeDef_eqb (dma_status dma_tx) HAL_OK) &&
    (dma_error dma_tx =? HAL_DMA_ERROR_TIMEOUT) in
  calls (snd r) = calls s /\
  __HAL_UART_GET_IT_SOURCE UART_IT_TXE (snd r) = false /\
  __HAL_UART_GET_IT_SOURCE UART_IT_TC (snd r) = false /\
  HAL_IS_BIT_SET (CR3 (Instance (huart (snd r)))) USART_CR3_DMAT = false /\
  RxState (huart (snd r)) = RxState (huart s) /\
  RxXferCount (huart (snd r)) = RxXferCount (huart s) /\
  HAL_IS_BIT_SET (CR3 (Instance (huart (snd r)))) USART_CR3_DMAR
    = HAL_IS_BIT_SET (CR3 (Instance (huart s))) USART_CR3_DMAR /\
  __HAL_UART_GET_IT_SOURCE UART_IT_ERR (snd r) = __HAL_UART_GET_IT_SOURCE UART_IT_ERR s /\
  if timeout
  then fst r = HAL_TIMEOUT /\
       ErrorCode (huart (snd r)) = HAL_UART_ERROR_DMA /\
       gState (huart (snd r)) = gState (huart s) /\
       TxXferCount (huart (snd r)) = TxXferCount (huart s)
  else fst r = HAL_OK /\
       ErrorCode (huart (snd r)) = ErrorCode (huart s) /\
       gState (huart (snd r)) = HAL_UART_STATE_READY /\
       TxXferCount (huart (snd r)) = 0.
Proof.
  intros r timeout. subst timeout r.
  destruct (Tx_sources_cleared (CR1 (Instance (huart s)))) as (C1 & C2).
  destruct (EIE_after_clear_DMAT (CR3 (Instance (huart s)))) as (E1 & _).
  unfold HAL_UART_AbortTransmit, __HAL_UART_GET_IT_SOURCE. cbn.
  destruct (HAL_IS_BIT_SET (CR3 (Instance (huart s))) USART_CR3_DMAT) eqn:Ht; cbn.
  - destruct (hdmatx (huart s)) as [d|] eqn:Hd; cbn.
    + unfold HAL_DMA_Abort, HAL_DMA_GetError.
      destruct (dma_status dma_tx); cbn;
        try destruct (dma_error dma_tx =? HAL_DMA_ERROR_TIMEOUT); cbn;
        autorewrite with DMA_requests; rewrite C1, C2, E1; repeat split; reflexivity.
    + autorewrite with DMA_requests. rewrite C1, C2, E1. repeat split; reflexivity.
  - rewrite C1, C2, Ht. repeat split; reflexivity.
Qed.

(** X8. [HAL_UART_AbortReceive] calls no callback, disables the RXNE, PE
    and error interrupts and the Rx DMA request and leaves the transmitter
    alone (gState, Tx counter, Tx DMA request).  It returns Timeout
    exactly when the Rx DMA request was enabled on a bound channel and the
    engine failed the abort with its timeout error: the error code is then
    the DMA error, and RxState and the Rx counter are left as they were.
    In every other case it returns Ok with RxState Ready and the Rx
    counter zero, and the error code is not reset. *)
Theorem AbortReceive_outcome (dma_rx : DMA_Answer) (s : System) :
  let r := HAL_UART_AbortReceive dma_rx s in
  let timeout :=
    HAL_IS_BIT_SET (CR3 (Instance (huart s))) USART_CR3_DMAR &&
    match hdmarx (huart s) with Some _ => true | None => false end &&
    negb (HAL_StatusTypeDef_eqb (dma_status dma_rx) HAL_OK) &&
    (dma_error dma_rx =? HAL_DMA_ERROR_TIMEOUT) in
  calls (snd r) = calls s /\
  __HAL_UART_GET_IT_SOURCE UART_IT_RXNE (snd r) = false /\
  __HAL_UART_GET_IT_SOURCE UART_IT_PE (snd r) = false /\
  __HAL_UART_GET_IT_SOURCE UART_IT_ERR (snd r) = false /\
  HAL_IS_BIT_SET (CR3 (Instance (huart (snd r)))) USART_CR3_DMAR = false /\
  gState (huart (snd r)) = gState (huart s) /\
  TxXferCount (huart (snd r)) = TxXferCount (huart s) /\
  HAL_IS_BIT_SET (CR3 (Instance (huart (snd r)))) USART_CR3_DMAT
    = HAL_IS_BIT_SET (CR3 (Instance (huart s))) USART_CR3_DMAT /\
  if timeout
  then fst r = HAL_TIMEOUT /\
       ErrorCode (huart (snd r)) = HAL_UART_ERROR_DMA /\
       RxState (huart (snd r)) = RxState (huart s) /\
       RxXferCount (huart (snd r)) = RxXferCount (huart s)
  else fst r = HAL_OK /\
       ErrorCode (huart (snd r)) = ErrorCode (huart s) /\
       RxState (huart (snd r)) = HAL_UART_STATE_READY /\
       RxXferCount (huart (snd r)) = 0.
Proof.
  intros r timeout. subst timeout r.
  destruct (Rx_sources_cleared (CR1 (Instance (huart s)))) as (C1 & C2).
  destruct (EIE_cleared (CR3 (Instance (huart s)))) as (E1 & E2).
  unfold HAL_UART_AbortReceive, __HAL_UART_GET_IT_SOURCE. cbn.
  autorewrite with DMA_requests.
  destruct (HAL_IS_BIT_SET (CR3 (Instance (huart s))) USART_CR3_DMAR) eqn:Hr; cbn.
  - destruct (hdmarx (huart s)) as [d|] eqn:Hd; cbn.
    + unfold HAL_DMA_Abort, HAL_DMA_GetError.
      destruct (dma_status dma_rx); cbn;
        try destruct (dma_error dma_rx =? HAL_DMA_ERROR_TIMEOUT); cbn;
        autorewrite with DMA_requests; rewrite C1, C2, E2; repeat split; reflexivity.
    + autorewrite with DMA_requests. rewrite C1, C2, E2. repeat split; reflexivity.
  - autorewrite with DMA_requests. rewrite C1, C2, E1, Hr. repeat split; reflexivity.
Qed.

(** ** The blocking abort, whatever the handle does *)

Lemma All_sources_cleared (r : Z) :
  let r' := CLEAR_BIT r (Z.lor (Z.lor (Z.lor USART_CR1_RXNEIE USART_CR1_PEIE) USART_CR1_TXEIE)
                               USART_CR1_TCIE) in
  flagged r' USART_CR1_RXNEIE = false /\ flagged r' USART_CR1_PEIE = false /\
  flagged r' USART_CR1_TXEIE = false /\ flagged r' USART_CR1_TCIE = false.
Proof.
  destruct CR1_positions as (_ & Hrx & Htc & Htxe & Hpe).
  unfold USART_CR1_RXNEIE, USART_CR1_PEIE, USART_CR1_TXEIE, USART_CR1_TCIE. cbv zeta.
  repeat split; apply flagged_CLEAR_BIT_in; try lia;
    rewrite !Z.lor_spec, !testbit_bit, Z.eqb_refl by lia;
    rewrite ?orb_true_r; reflexivity.
Qed.

Lemma HAL_UART_Abort_blocks (dma_tx dma_rx : DMA_Answer) (s : System) :
  HAL_UART_Abort dma_tx dma_rx s =
  returned (and_then (Abort_tx_block dma_tx (Abort_IT_disable_interrupts s))
             (fun s => and_then (Abort_rx_block dma_rx s) Abort_reset)).
Proof. reflexivity. Qed.

Lemma Abort_tx_block_outcome (dma_tx : DMA_Answer) (s : System) :
  let t := DMA_abort_times_out
             (HAL_IS_BIT_SET (CR3 (Instance (huart s))) USART_CR3_DMAT) (hdmatx (huart s)) dma_tx in
  exists s',
    Abort_tx_block dma_tx s = (if t then Return HAL_TIMEOUT s' else Next s') /\
    Abort_block_frame s s' /\
    hdmarx (huart s') = hdmarx (huart s) /\
    ErrorCode (huart s') = (if t then HAL_UART_ERROR_DMA else ErrorCode (huart s)) /\
    HAL_IS_BIT_SET (CR3 (Instance (huart s'))) USART_CR3_DMAT = false /\
    HAL_IS_BIT_SET (CR3 (Instance (huart s'))) USART_CR3_DMAR
      = HAL_IS_BIT_SET (CR3 (Instance (huart s))) USART_CR3_DMAR /\
    flagged (CR3 (Instance (huart s'))) USART_CR3_EIE
      = flagged (CR3 (Instance (huart s))) USART_CR3_EIE.
Proof.
  destruct (EIE_after_clear_DMAT (CR3 (Instance (huart s)))) as (E1 & _).
  unfold Abort_tx_block, DMA_abort_times_out, Abort_block_frame. cbv zeta.
  destruct (HAL_IS_BIT_SET (CR3 (Instance (huart s))) USART_CR3_DMAT) eqn:Ht; cbn.
  - destruct (hdmatx (huart s)) as [d|] eqn:Hd; cbn.
    + unfold HAL_DMA_Abort, HAL_DMA_GetError.
      destruct (dma_status dma_tx); cbn;
        try destruct (dma_error dma_tx =? HAL_DMA_ERROR_TIMEOUT); cbn;
        (eexists; split; [reflexivity|]); cbn;
        autorewrite with DMA_requests; rewrite E1; repeat split; reflexivity.
    + eexists; split; [reflexivity|]; cbn.
      autorewrite with DMA_requests; rewrite E1; repeat split; reflexivity.
  - eexists; split; [reflexivity|]. rewrite Ht. repeat split; reflexivity.
Qed.

Lemma Abort_rx_block_outcome (dma_rx : DMA_Answer) (s : System) :
  let t := DMA_abort_times_out
             (HAL_IS_BIT_SET (CR3 (Instance (huart s))) USART_CR3_DMAR) (hdmarx (huart s)) dma_rx in
  exists s',
    Abort_rx_block dma_rx s = (if t then Return HAL_TIMEOUT s' else Next s') /\
    Abort_block_frame s s' /\
    ErrorCode (huart s') = (if t then HAL_UART_ERROR_DMA else ErrorCode (huart s)) /\
    HAL_IS_BIT_SET (CR3 (Instance (huart s'))) USART_CR3_DMAR = false /\
    HAL_IS_BIT_SET (CR3 (Instance (huart s'))) USART_CR3_DMAT
      = HAL_IS_BIT_SET (CR3 (Instance (huart s))) USART_CR3_DMAT /\
    (flagged (CR3 (Instance (huart s))) USART_CR3_EIE = false ->
     flagged (CR3 (Instance (huart s'))) USART_CR3_EIE = false).
Proof.
  assert (E1 : flagged (CR3 (Instance (huart s))) USART_CR3_EIE = false ->
               flagged (CLEAR_BIT (CR3 (Instance (huart s))) USART_CR3_DMAR) USART_CR3_EIE = false).
  { destruct CR3_positions as ((He & Hr & Ht) & _).
    unfold USART_CR3_EIE, USART_CR3_DMAR.
    rewrite !flagged_bit, !testbit_CLEAR_BIT by lia. now intros ->. }
  unfold Abort_rx_block, DMA_abort_times_out, Abort_block_frame. cbv zeta.
  destruct (HAL_IS_BIT_SET (CR3 (Instance (huart s))) USART_CR3_DMAR) eqn:Hr; cbn.
  - destruct (hdmarx (huart s)) as [d|] eqn:Hd; cbn.
    + unfold HAL_DMA_Abort, HAL_DMA_GetError.
      destruct (dma_status dma_rx); cbn;
        try destruct (dma_error dma_rx =? HAL_DMA_ERROR_TIMEOUT); cbn;
        (eexists; split; [reflexivity|]); cbn;
        autorewrite with DMA_requests; repeat split; try reflexivity; exact E1.
    + eexists; split; [reflexivity|]; cbn.
      autorewrite with DMA_requests; repeat split; try reflexivity; exact E1.
  - eexists; split; [reflexivity|]. rewrite Hr. repeat split; auto.
Qed.

(** X9. [HAL_UART_Abort] on any handle: it calls no callback, leaves the
    memory alone, and disables the RXNE, PE, TXE, TC and error interrupts
    and the Tx DMA request.  It returns Timeout exactly when the blocking
    abort of a channel whose request was enabled fails with the timeout
    error of the engine; the error code is then the DMA error and the two
    states and the two counters are left as they were.  Otherwise it
    returns Ok with both states Ready, both counters zero, the error code
    None and the Rx DMA request disabled too. *)
Theorem Abort_outcome (dma_tx dma_rx : DMA_Answer) (s : System) :
  let r := HAL_UART_Abort dma_tx dma_rx s in
  let timeout_tx :=
    DMA_abort_times_out (HAL_IS_BIT_SET (CR3 (Instance (huart s))) USART_CR3_DMAT)
      (hdmatx (huart s)) dma_tx in
  let timeout_rx :=
    DMA_abort_times_out (HAL_IS_BIT_SET (CR3 (Instance (huart s))) USART_CR3_DMAR)
      (hdmarx (huart s)) dma_rx in
  calls (snd r) = calls s /\
  ram (snd r) = ram s /\
  __HAL_UART_GET_IT_SOURCE UART_IT_RXNE (snd r) = false /\
  __HAL_UART_GET_IT_SOURCE UART_IT_PE (snd r) = false /\
  __HAL_UART_GET_IT_SOURCE UART_IT_TXE (snd r) = false /\
  __HAL_UART_GET_IT_SOURCE UART_IT_TC (snd r) = false /\
  __HAL_UART_GET_IT_SOURCE UART_IT_ERR (snd r) = false /\
  HAL_IS_BIT_SET (CR3 (Instance (huart (snd r)))) USART_CR3_DMAT = false /\
  if timeout_tx || timeout_rx
  then fst r = HAL_TIMEOUT /\
       ErrorCode (huart (snd r)) = HAL_UART_ERROR_DMA /\
       gState (huart (snd r)) = gState (huart s) /\
       RxState (huart (snd r)) = RxState (huart s) /\
       TxXferCount (huart (snd r)) = TxXferCount (huart s) /\
       RxXferCount (huart (snd r)) = RxXferCount (huart s)
  else fst r = HAL_OK /\
       ErrorCode (huart (snd r)) = HAL_UART_ERROR_NONE /\
       gState (huart (snd r)) = HAL_UART_STATE_READY /\
       RxState (huart (snd r)) = HAL_UART_STATE_READY /\
       TxXferCount (huart (snd r)) = 0 /\
       RxXferCount (huart (snd r)) = 0 /\
       HAL_IS_BIT_SET (CR3 (Instance (huart (snd r)))) USART_CR3_DMAR = false.
Proof.
  intros r timeout_tx timeout_rx. subst r. rewrite HAL_UART_Abort_blocks.
  assert (F0 : exists s0, Abort_IT_disable_interrupts s = s0 /\
             calls s0 = calls s /\ ram s0 = ram s /\
             gState (huart s0) = gState (huart s) /\ RxState (huart s0) = RxState (huart s) /\
             TxXferCount (huart s0) = TxXferCount (huart s) /\
             RxXferCount (huart s0) = RxXferCount (huart s) /\
             hdmatx (huart s0) = hdmatx (huart s) /\ hdmarx (huart s0) = hdmarx (huart s) /\
             HAL_IS_BIT_SET (CR3 (Instance (huart s0))) USART_CR3_DMAT
               = HAL_IS_BIT_SET (CR3 (Instance (huart s))) USART_CR3_DMAT /\
             HAL_IS_BIT_SET (CR3 (Instance (huart s0))) USART_CR3_DMAR
               = HAL_IS_BIT_SET (CR3 (Instance (huart s))) USART_CR3_DMAR /\
             flagged (CR1 (Instance (huart s0))) USART_CR1_RXNEIE = false /\
             flagged (CR1 (Instance (huart s0))) USART_CR1_PEIE = false /\
             flagged (CR1 (Instance (huart s0))) USART_CR1_TXEIE = false /\
             flagged (CR1 (Instance (huart s0))) USART_CR1_TCIE = false /\
             flagged (CR3 (Instance (huart s0))) USART_CR3_EIE = false).
  { eexists; split; [reflexivity|].
    destruct (All_sources_cleared (CR1 (Instance (huart s)))) as (C1 & C2 & C3 & C4).
    destruct (EIE_cleared (CR3 (Instance (huart s)))) as (E1 & _).
    unfold Abort_IT_disable_interrupts; cbn.
    autorewrite with DMA_requests. repeat split; assumption. }
  destruct F0 as (s0 & -> & Hc & Hm & Hg & Hx & Hn & Hk & Hdt & Hdr & Ht & Hr &
                  C1 & C2 & C3 & C4 & E0).
  subst timeout_tx timeout_rx.
  rewrite <- Hc, <- Hm, <- Hg, <- Hx, <- Hn, <- Hk, <- Hdt, <- Hdr, <- Ht, <- Hr.
  clear Hc Hm Hg Hx Hn Hk Hdt Hdr Ht Hr s.
  destruct (Abort_tx_block_outcome dma_tx s0)
    as (s1 & -> & (Hc & Hm & H1 & Hg & Hx & Hn & Hk) & Hdr & He & Kt & Kr & Ke).
  unfold __HAL_UART_GET_IT_SOURCE.
  destruct (DMA_abort_times_out _ (hdmatx (huart s0)) dma_tx); cbn [orb and_then returned fst snd].
  - rewrite H1, Ke. repeat split; assumption.
  - rewrite <- Hc, <- Hm, <- Hg, <- Hx, <- Hn, <- Hk, <- Hdr, <- Kr.
    rewrite <- H1 in C1, C2, C3, C4. rewrite <- Ke in E0.
    clear Hc Hm H1 Hg Hx Hn Hk Hdr He Kr Ke s0.
    destruct (Abort_rx_block_outcome dma_rx s1)
      as (s2 & -> & (Hc & Hm & H1 & Hg & Hx & Hn & Hk) & He & Kr2 & Kt2 & Ke).
    destruct (DMA_abort_times_out _ (hdmarx (huart s1)) dma_rx); cbn [and_then returned fst snd].
    + rewrite H1, Kt2, (Ke E0). repeat split; assumption.
    + unfold Abort_reset; cbn. rewrite H1, Kt2, (Ke E0). repeat split; assumption.
Qed.

(** ** Pause and resume of the DMA transfers *)

(** Bits set again after they were cleared: a 32-bit register is as it
    was. *)
Ltac restore_bits r :=
  apply Z.bits_inj'; intros k Hk;
  destruct (Z.ltb_spec k 32);
  [ rewrite ?testbit_SET_BIT, ?testbit_CLEAR_BIT, ?testbit_bit by lia;
    repeat match goal with
           | |- context [?p =? k] => destruct (Z.eqb_spec p k); [subst k|]
           end;
    repeat match goal with
           | H : Z.testbit r _ = true |- _ => rewrite H
           end;
    cbn [andb orb negb]; rewrite ?andb_true_r, ?orb_false_r, ?orb_true_r; reflexivity
  | unfold SET_BIT, CLEAR_BIT;
    rewrite ?Z.lor_spec, ?Z.land_spec, ?testbit_bit, (testbit_high r k) by lia;
    repeat match goal with
           | |- context [?p =? k] => destruct (Z.eqb_spec p k); [lia|]
           end;
    reflexivity ].

Lemma CR3_restored (r : Z) (tx rx : bool) :
  0 <= r < 2 ^ 32 ->
  (tx = true -> HAL_IS_BIT_SET r USART_CR3_DMAT = true) ->
  (rx = true -> HAL_IS_BIT_SET r USART_CR3_DMAR = true /\ HAL_IS_BIT_SET r USART_CR3_EIE = true) ->
  let paused_tx := if tx then CLEAR_BIT r USART_CR3_DMAT else r in
  let paused := if rx then CLEAR_BIT (CLEAR_BIT paused_tx USART_CR3_EIE) USART_CR3_DMAR
                else paused_tx in
  let resumed_tx := if tx then SET_BIT paused USART_CR3_DMAT else paused in
  (if rx then SET_BIT (SET_BIT resumed_tx USART_CR3_EIE) USART_CR3_DMAR else resumed_tx) = r.
Proof.
  intros Hr Ht Hrx. destruct CR3_positions as ((He & Hdr & Hdt) & _).
  unfold USART_CR3_EIE, USART_CR3_DMAR, USART_CR3_DMAT in *.
  rewrite !HAL_IS_BIT_SET_bit in * by lia.
  destruct tx, rx; cbv zeta;
    try (destruct Hrx as (Hrx1 & Hrx2); [reflexivity|]);
    try (pose proof (Ht eq_refl) as Ht1); clear Ht; try clear Hrx.
  - restore_bits r.
  - restore_bits r.
  - restore_bits r.
  - reflexivity.
Qed.

Lemma CR1_restored (r : Z) (rx : bool) :
  0 <= r < 2 ^ 32 ->
  (rx = true -> HAL_IS_BIT_SET r USART_CR1_PEIE = true) ->
  (if rx then SET_BIT (CLEAR_BIT r USART_CR1_PEIE) USART_CR1_PEIE else r) = r.
Proof.
  intros Hr Hrx. destruct CR1_positions as (_ & _ & _ & _ & Hpe).
  unfold USART_CR1_PEIE in *. rewrite HAL_IS_BIT_SET_bit in Hrx by lia.
  destruct rx; [|reflexivity]. apply SET_BIT_CLEAR_BIT; auto.
Qed.

(** X10. On an unlocked handle whose transfers in progress are in DMA
    mode, [HAL_UART_DMAPause] returns Ok, disables the DMA request of
    every busy direction and keeps the two states; [HAL_UART_DMAResume]
    then returns Ok and gives back the system as it was before the pause,
    but for the overrun flag, which it clears when a reception is in
    progress. *)
Theorem DMAPause_DMAResume_round_trip (s : System) :
  Lock (huart s) = HAL_UNLOCKED ->
  0 <= CR1 (Instance (huart s)) < 2 ^ 32 ->
  0 <= CR3 (Instance (huart s)) < 2 ^ 32 ->
  DMA_mode_transfers s = true ->
  let tx := HAL_UART_StateTypeDef_eqb (gState (huart s)) HAL_UART_STATE_BUSY_TX in
  let rx := HAL_UART_StateTypeDef_eqb (RxState (huart s)) HAL_UART_STATE_BUSY_RX in
  let p := HAL_UART_DMAPause s in
  let r := HAL_UART_DMAResume (snd p) in
  fst p = HAL_OK /\
  tx && HAL_IS_BIT_SET (CR3 (Instance (huart (snd p)))) USART_CR3_DMAT = false /\
  rx && HAL_IS_BIT_SET (CR3 (Instance (huart (snd p)))) USART_CR3_DMAR = false /\
  gState (huart (snd p)) = gState (huart s) /\
  RxState (huart (snd p)) = RxState (huart s) /\
  fst r = HAL_OK /\
  snd r = (if rx then __HAL_UART_CLEAR_OREFLAG s else s).
Proof.
  intros Hl H1 H3 Hm tx rx p r. subst p r.
  unfold DMA_mode_transfers in Hm. fold tx rx in Hm.
  assert (Ht : tx = true -> HAL_IS_BIT_SET (CR3 (Instance (huart s))) USART_CR3_DMAT = true).
  { intros E. rewrite E in Hm. apply andb_true_iff in Hm. apply Hm. }
  assert (Hr : rx = true ->
            HAL_IS_BIT_SET (CR3 (Instance (huart s))) USART_CR3_DMAR = true /\
            HAL_IS_BIT_SET (CR3 (Instance (huart s))) USART_CR3_EIE = true /\
            HAL_IS_BIT_SET (CR1 (Instance (huart s))) USART_CR1_PEIE = true).
  { intros E. rewrite E in Hm. apply andb_true_iff in Hm as (_ & Hm). cbn in Hm.
    apply andb_true_iff in Hm as (Hm & ?). apply andb_true_iff in Hm as (? & ?). auto. }
  clear Hm.
  pose proof (CR3_restored (CR3 (Instance (huart s))) tx rx H3 Ht
                (fun E => conj (proj1 (Hr E)) (proj1 (proj2 (Hr E))))) as R3.
  pose proof (CR1_restored (CR1 (Instance (huart s))) rx H1
                (fun E => proj2 (proj2 (Hr E)))) as R1.
  cbv zeta in R3.
  destruct s as [h m c t]; destruct h as [b u i a p1 n1 k1 p2 n2 k2 dt dr l g rxs ec].
  destruct u as [sr dr' brr cr1 cr2 cr3].
  cbn in *. subst l tx rx. cbn in *.
  unfold HAL_UART_DMAPause, HAL_UART_DMAResume, __HAL_LOCK, DMAPause_tx, DMAPause_rx,
    DMAResume_tx, DMAResume_rx, __HAL_UART_CLEAR_OREFLAG; cbn.
  revert Ht Hr R1 R3.
  destruct (HAL_UART_StateTypeDef_eqb g HAL_UART_STATE_BUSY_TX) eqn:Etx;
    destruct (HAL_UART_StateTypeDef_eqb rxs HAL_UART_STATE_BUSY_RX) eqn:Erx;
    intros Ht Hr R1 R3; cbn;
    try (pose proof (Ht eq_refl) as Ht1); try (destruct (Hr eq_refl) as (Hr1 & _ & _));
    repeat (progress (rewrite ?Etx, ?Erx, ?Ht1, ?Hr1; cbn; autorewrite with DMA_requests));
    rewrite ?andb_false_r;
    (split; [reflexivity|]); (split; [reflexivity|]); (split; [reflexivity|]);
    (split; [reflexivity|]); (split; [reflexivity|]); (split; [reflexivity|]);
    cbv beta iota delta [__HAL_UNLOCK on_SR on_CR1 on_CR3 on_Instance on_huart set_Lock
      set_Instance set_SR set_CR1 set_CR3 huart ram calls txd Instance_base Instance Init
      AdvancedInit pTxBuffPtr TxXferSize TxXferCount pRxBuffPtr RxXferSize RxXferCount
      hdmatx hdmarx Lock gState RxState ErrorCode SR DR BRR CR1 CR2 CR3];
    rewrite ?R1, ?R3; reflexivity.
Qed.

(** ** The direction of a half-duplex line *)

Lemma testbit_NOT32_high (m k : Z) : 32 <= k -> Z.testbit (NOT32 m) k = Z.testbit m k.
Proof.
  intros Hk. unfold NOT32. rewrite Z.lxor_spec, (testbit_high 0xFFFFFFFF k) by lia.
  apply xorb_false_r.
Qed.

(** One of two masks written into a register field that holds both. *)
Lemma field_selected (c a b : Z) :
  0 <= a < 2 ^ 32 -> 0 <= b < 2 ^ 32 ->
  let c' := Z.lor (Z.land c (NOT32 (Z.lor a b))) a in
  let c'' := Z.lor (Z.land c (NOT32 (Z.lor a b))) b in
  Z.land c' (Z.lor a b) = a /\ Z.land c'' (Z.lor a b) = b /\
  CLEAR_BIT c' (Z.lor a b) = CLEAR_BIT c (Z.lor a b) /\
  CLEAR_BIT c'' (Z.lor a b) = CLEAR_BIT c (Z.lor a b).
Proof.
  intros Ha Hb. cbv zeta. unfold CLEAR_BIT.
  repeat split; apply Z.bits_inj'; intros k Hk;
    rewrite ?Z.land_spec, ?Z.lor_spec, ?Z.land_spec;
    (destruct (Z.ltb_spec k 32);
     [ rewrite !testbit_NOT32, ?Z.lor_spec by lia
     | rewrite !testbit_NOT32_high, ?Z.lor_spec, (testbit_high a k), (testbit_high b k) by lia ]);
    destruct (Z.testbit c k), (Z.testbit a k), (Z.testbit b k); reflexivity.
Qed.

(** X11. On an unlocked handle [HAL_HalfDuplex_EnableTransmitter] and
    [HAL_HalfDuplex_EnableReceiver] return Ok and select one direction:
    of the TE and RE bits of CR1 exactly TE, respectively exactly RE, is
    set afterwards, and every other bit of CR1 keeps its value.  Both
    force gState to Ready, whatever it was, release the lock and call no
    callback. *)
Theorem HalfDuplex_direction (s : System) :
  Lock (huart s) = HAL_UNLOCKED ->
  0 <= USART_CR1_TE < 2 ^ 32 -> 0 <= USART_CR1_RE < 2 ^ 32 ->
  let t := HAL_HalfDuplex_EnableTransmitter s in
  let r := HAL_HalfDuplex_EnableReceiver s in
  let field := Z.lor USART_CR1_TE USART_CR1_RE in
  (fst t = HAL_OK /\
   Z.land (CR1 (Instance (huart (snd t)))) field = USART_CR1_TE /\
   CLEAR_BIT (CR1 (Instance (huart (snd t)))) field = CLEAR_BIT (CR1 (Instance (huart s))) field /\
   gState (huart (snd t)) = HAL_UART_STATE_READY /\
   Lock (huart (snd t)) = HAL_UNLOCKED /\
   RxState (huart (snd t)) = RxState (huart s) /\
   calls (snd t) = calls s) /\
  (fst r = HAL_OK /\
   Z.land (CR1 (Instance (huart (snd r)))) field = USART_CR1_RE /\
   CLEAR_BIT (CR1 (Instance (huart (snd r)))) field = CLEAR_BIT (CR1 (Instance (huart s))) field /\
   gState (huart (snd r)) = HAL_UART_STATE_READY /\
   Lock (huart (snd r)) = HAL_UNLOCKED /\
   RxState (huart (snd r)) = RxState (huart s) /\
   calls (snd r) = calls s).
Proof.
  intros Hl Hte Hre t r field. subst t r field.
  destruct (field_selected (CR1 (Instance (huart s))) USART_CR1_TE USART_CR1_RE Hte Hre)
    as (F1 & F2 & F3 & F4).
  cbv zeta in F1, F2, F3, F4.
  unfold HAL_HalfDuplex_EnableTransmitter, HAL_HalfDuplex_EnableReceiver, __HAL_LOCK.
  rewrite Hl. cbn.
  repeat split; assumption.
Qed.

(** ** Low-level initialization *)






(** ** A reception in DMA mode, from the start to the completion *)

Lemma Receive_DMA_starts (dma : DMA_Answer) (pData Size : Z) (s : System)
    (d : DMA.DMA_HandleTypeDef) :
  RxState (huart s) = HAL_UART_STATE_READY ->
  Lock (huart s) = HAL_UNLOCKED ->
  pData <> 0 -> Size <> 0 -> aligned_for s pData = true ->
  hdmarx (huart s) = Some d ->
  exists s1 d1,
    HAL_UART_Receive_DMA dma pData Size s = Some (HAL_OK, s1) /\
    hdmarx (huart s1) = Some d1 /\
    DMA.XferCpltCallback d1 = Some PTR_UART_DMAReceiveCplt /\
    DMA.CCR d1 = DMA.CCR d /\
    RxState (huart s1) = HAL_UART_STATE_BUSY_RX /\
    Lock (huart s1) = HAL_UNLOCKED /\
    Init (huart s1) = Init (huart s) /\
    calls s1 = calls s.
Proof.
  intros Hr Hl Hp Hsz Hal Hd.
  assert (Hnull : (pData =? 0) || (Size =? 0) = false)
    by (apply orb_false_iff; split; apply Z.eqb_neq; assumption).
  unfold aligned_for in Hal. apply negb_true_iff in Hal.
  destruct s as [h m c t]; destruct h as [b u i a p1 n1 k1 p2 n2 k2 dt dr l g rx ec].
  cbn in Hr, Hl, Hd, Hal. subst rx l dr.
  unfold units_are_u16 in Hal; cbn in Hal.
  unfold HAL_UART_Receive_DMA, __HAL_LOCK, units_are_u16; cbn.
  rewrite Hnull, Hal; cbn.
  unfold HAL_DMA_Start_IT.
  destruct (dma_status dma); cbn.
  all: eexists _, _; split; [reflexivity|]; cbn.
  all: repeat split; reflexivity.
Qed.

(** X13. A reception in DMA mode on a channel in normal mode: the start
    is accepted whatever the DMA engine answers, registers
    [UART_DMAReceiveCplt] on the channel and calls no callback; when the
    engine calls the registered completion, the Rx complete callback is
    called once, on a handle with RxState Ready, the Rx counter zero and
    the Rx DMA request, the parity error and the error interrupts
    disabled; and the next [HAL_UART_Receive_DMA] is accepted again. *)
Theorem Receive_DMA_completion (dma dma' : DMA_Answer) (pData Size : Z) (s : System)
    (d : DMA.DMA_HandleTypeDef) :
  RxState (huart s) = HAL_UART_STATE_READY ->
  Lock (huart s) = HAL_UNLOCKED ->
  pData <> 0 -> Size <> 0 -> aligned_for s pData = true ->
  hdmarx (huart s) = Some d ->
  Z.land (DMA.CCR d) DMA_CCR_CIRC = 0 ->
  exists s1 d1,
    HAL_UART_Receive_DMA dma pData Size s = Some (HAL_OK, s1) /\
    hdmarx (huart s1) = Some d1 /\
    DMA.XferCpltCallback d1 = Some PTR_UART_DMAReceiveCplt /\
    RxState (huart s1) = HAL_UART_STATE_BUSY_RX /\
    calls s1 = calls s /\
    let s2 := call_DMA_callback PTR_UART_DMAReceiveCplt d1 s1 in
    calls s2 = calls s ++ [(HAL_UART_RxCpltCallback, huart s2)] /\
    RxState (huart s2) = HAL_UART_STATE_READY /\
    RxXferCount (huart s2) = 0 /\
    HAL_IS_BIT_SET (CR3 (Instance (huart s2))) USART_CR3_DMAR = false /\
    __HAL_UART_GET_IT_SOURCE UART_IT_PE s2 = false /\
    __HAL_UART_GET_IT_SOURCE UART_IT_ERR s2 = false /\
    option_map fst (HAL_UART_Receive_DMA dma' pData Size s2) = Some HAL_OK.
Proof.
  intros Hr Hl Hp Hsz Hal Hd Hc.
  destruct (Receive_DMA_starts dma pData Size s d Hr Hl Hp Hsz Hal Hd)
    as (s1 & d1 & E & Hd1 & Cb & Hc1 & Hr1 & Hl1 & Hi1 & Hk1).
  exists s1, d1. split; [exact E|]. split; [exact Hd1|]. split; [exact Cb|].
  split; [exact Hr1|]. split; [exact Hk1|].
  rewrite <- Hk1. rewrite <- Hc1 in Hc.
  assert (Hal1 : aligned_for s1 pData = true)
    by (unfold aligned_for, units_are_u16 in *; now rewrite Hi1).
  clear E Hr Hl Hal Hd Hi1 Hk1 Hc1 Hr1 s.
  cbv zeta. unfold call_DMA_callback, UART_DMAReceiveCplt. rewrite Hc.
  match goal with |- context [invoke _ ?x] => set (s2 := x) end.
  assert (F : RxState (huart s2) = HAL_UART_STATE_READY /\
              RxXferCount (huart s2) = 0 /\
              Lock (huart s2) = HAL_UNLOCKED /\
              Init (huart s2) = Init (huart s1) /\
              hdmarx (huart s2) = Some d1 /\
              HAL_IS_BIT_SET (CR3 (Instance (huart s2))) USART_CR3_DMAR = false /\
              flagged (CR1 (Instance (huart s2))) USART_CR1_PEIE = false /\
              flagged (CR3 (Instance (huart s2))) USART_CR3_EIE = false /\
              calls s2 = calls s1).
  { subst s2. cbn [huart calls on_huart on_CR1 on_CR3 on_Instance set_RxState set_RxXferCount
      set_Instance set_CR1 set_CR3 RxState RxXferCount Lock Init hdmarx Instance CR1 CR3].
    repeat split; try assumption; try reflexivity.
    - apply DMAR_after_clear_DMAR.
    - apply flagged_CLEAR_BIT_same. apply CR1_positions.
    - apply EIE_cleared. }
  destruct F as (F1 & F2 & F3 & F4 & F5 & F6 & F7 & F8 & F9).
  assert (Hal2 : aligned_for (invoke HAL_UART_RxCpltCallback s2) pData = true)
    by (unfold aligned_for, units_are_u16 in *; cbn [huart invoke]; now rewrite F4).
  destruct (Receive_DMA_starts dma' pData Size (invoke HAL_UART_RxCpltCallback s2) d1
              F1 F3 Hp Hsz Hal2 F5) as (s3 & d3 & E3 & _).
  rewrite E3. clearbody s2.
  unfold __HAL_UART_GET_IT_SOURCE. cbn [huart invoke calls option_map fst].
  rewrite F9. repeat split; try assumption; reflexivity.
Qed.

(** ** A reception in interrupt mode, from the start to the completion *)

Lemma flagged_CLEAR_BIT_stays (r m p : Z) :
  0 <= p < 32 -> flagged r (bit p) = false -> flagged (CLEAR_BIT r m) (bit p) = false.
Proof.
  intros Hp. rewrite !flagged_bit, testbit_CLEAR_BIT by lia. now intros ->.
Qed.

(** An entry of the handler on a received unit without line error serves
    the receiver, whatever else the status register shows. *)
Lemma IRQ_entry_receives (dma_rx : DMA_Answer) (e : HwSample) (s : System) :
  flagged (CR1 (Instance (huart s))) USART_CR1_RXNEIE = true ->
  unit_received e = true ->
  IRQ_entry dma_rx e s = snd (UART_Receive_IT (hardware e s)).
Proof.
  intros Hie He. unfold unit_received, no_line_error in He.
  apply andb_true_iff in He as (He1 & He2).
  unfold IRQ_entry, HAL_UART_IRQHandler.
  replace (SR (Instance (huart (hardware e s)))) with (hw_SR e) by reflexivity.
  replace (CR1 (Instance (huart (hardware e s)))) with (CR1 (Instance (huart s)))
    by reflexivity.
  cbv zeta. rewrite He1, He2, Hie. reflexivity.
Qed.

(** The unit an entry stores. *)
Lemma UART_Receive_IT_stores (e : HwSample) (s : System) :
  RxState (huart s) = HAL_UART_STATE_BUSY_RX ->
  let s' := snd (UART_Receive_IT (hardware e s)) in
  ram s' = store_units (units_are_u16 s) (ram s) (pRxBuffPtr (huart s)) [e] /\
  pRxBuffPtr (huart s') =
    (if units_are_u16 s then (pRxBuffPtr (huart s) + 2) mod 2 ^ 32
     else (pRxBuffPtr (huart s) + 1) mod 2 ^ 32) /\
  RxXferCount (huart s') = (RxXferCount (huart s) - 1) mod 2 ^ 16 /\
  Init (huart s') = Init (huart s) /\
  gState (huart s') = gState (huart s).
Proof.
  intros Hr. cbv zeta. unfold UART_Receive_IT.
  replace (RxState (huart (hardware e s))) with (RxState (huart s)) by reflexivity.
  rewrite Hr. cbn [HAL_UART_StateTypeDef_eqb].
  replace (units_are_u16 (hardware e s)) with (units_are_u16 s) by reflexivity.
  destruct (units_are_u16 s);
    cbn [huart on_huart RxXferCount set_RxXferCount set_pRxBuffPtr set_ram];
    match goal with |- context [if ?c then _ else _] => destruct c end;
    repeat split; reflexivity.
Qed.

(** Up to the last unit the entries keep the reception going. *)
Lemma receiving_goes_on (dma_rx : DMA_Answer) (e : HwSample) (n : nat) (s0 s : System) :
  Z.of_nat (S n) < 65536 -> (0 < n)%nat ->
  receiving (Z.of_nat (S n)) s0 s ->
  unit_received e = true ->
  receiving (Z.of_nat n) s0 (IRQ_entry dma_rx e s).
Proof.
  intros Hn Hpos (Hr & Hc & Hie & Hk & Hi & Hg & He) Hu.
  rewrite (IRQ_entry_receives dma_rx e s Hie Hu).
  destruct (UART_Receive_IT_stores e s Hr) as (_ & _ & S3 & S4 & S5).
  assert (Hc' : (RxXferCount (huart (hardware e s)) - 1) mod 2 ^ 16 <> 0).
  { replace (RxXferCount (huart (hardware e s))) with (RxXferCount (huart s)) by reflexivity.
    rewrite Hc, count_down by lia. lia. }
  destruct (UART_Receive_IT_goes_on (hardware e s) Hc') as (G1 & G2 & G3 & G4).
  destruct (UART_Receive_IT_frame (hardware e s)) as (F1 & _).
  unfold receiving. rewrite G1, G2, G4, S3, S4, S5, F1, Hc, count_down by lia.
  repeat split; assumption.
Qed.

(** The last unit: the reception completes, its interrupt sources are
    disabled and the user callback is called. *)
Lemma UART_Receive_IT_last (s : System) :
  RxState (huart s) = HAL_UART_STATE_BUSY_RX ->
  (RxXferCount (huart s) - 1) mod 2 ^ 16 = 0 ->
  let s' := snd (UART_Receive_IT s) in
  calls s' = calls s ++ [(HAL_UART_RxCpltCallback, huart s')] /\
  RxState (huart s') = HAL_UART_STATE_READY /\
  __HAL_UART_GET_IT_SOURCE UART_IT_RXNE s' = false /\
  __HAL_UART_GET_IT_SOURCE UART_IT_PE s' = false /\
  __HAL_UART_GET_IT_SOURCE UART_IT_ERR s' = false.
Proof.
  intros Hs Hc. apply Z.eqb_eq in Hc.
  destruct CR1_positions as (_ & Hrx & _ & _ & Hpe).
  assert (C1 : flagged (CLEAR_BIT (CLEAR_BIT (CR1 (Instance (huart s))) USART_CR1_RXNEIE)
                          USART_CR1_PEIE) USART_CR1_RXNEIE = false).
  { apply flagged_CLEAR_BIT_stays; [lia|]. now apply flagged_CLEAR_BIT_same. }
  assert (C2 : flagged (CLEAR_BIT (CLEAR_BIT (CR1 (Instance (huart s))) USART_CR1_RXNEIE)
                          USART_CR1_PEIE) USART_CR1_PEIE = false)
    by now apply flagged_CLEAR_BIT_same.
  destruct (EIE_cleared (CR3 (Instance (huart s)))) as (C3 & _).
  cbv zeta. unfold UART_Receive_IT, __HAL_UART_GET_IT_SOURCE.
  rewrite Hs. cbn [HAL_UART_StateTypeDef_eqb].
  destruct (units_are_u16 s);
    cbn [huart on_huart RxXferCount set_RxXferCount set_pRxBuffPtr set_ram];
    rewrite Hc; cbn; rewrite C1, C2, C3; repeat split; reflexivity.
Qed.

Lemma receiving_completes (dma_rx : DMA_Answer) (e : HwSample) (s0 s : System) :
  receiving 1 s0 s ->
  unit_received e = true ->
  let s' := IRQ_entry dma_rx e s in
  calls s' = calls s0 ++ [(HAL_UART_RxCpltCallback, huart s')] /\
  RxState (huart s') = HAL_UART_STATE_READY /\
  RxXferCount (huart s') = 0 /\
  __HAL_UART_GET_IT_SOURCE UART_IT_RXNE s' = false /\
  __HAL_UART_GET_IT_SOURCE UART_IT_PE s' = false /\
  __HAL_UART_GET_IT_SOURCE UART_IT_ERR s' = false /\
  gState (huart s') = gState (huart s0) /\
  ErrorCode (huart s') = HAL_UART_ERROR_NONE.
Proof.
  intros (Hr & Hc & Hie & Hk & Hi & Hg & He) Hu. cbv zeta.
  rewrite (IRQ_entry_receives dma_rx e s Hie Hu).
  destruct (UART_Receive_IT_stores e s Hr) as (_ & _ & S3 & S4 & S5).
  destruct (UART_Receive_IT_frame (hardware e s)) as (F1 & _).
  assert (Hc' : (RxXferCount (huart (hardware e s)) - 1) mod 2 ^ 16 = 0).
  { replace (RxXferCount (huart (hardware e s))) with (RxXferCount (huart s)) by reflexivity.
    rewrite Hc. reflexivity. }
  destruct (UART_Receive_IT_last (hardware e s) Hr Hc') as (L1 & L2 & L3 & L4 & L5).
  rewrite S3, S5, F1, Hc. change (calls (hardware e s)) with (calls s) in L1.
  rewrite <- Hk. repeat split; assumption.
Qed.

(** The memory the entries of a reception write. *)
Lemma receiving_stores (dma_rx : DMA_Answer) (es : list HwSample) :
  forall (s0 s : System),
  Z.of_nat (length es) < 65536 ->
  receiving (Z.of_nat (length es)) s0 s ->
  forallb unit_received es = true ->
  ram (IRQ_entries dma_rx es s)
    = store_units (units_are_u16 s0) (ram s) (pRxBuffPtr (huart s)) es.
Proof.
  induction es as [|e es IH]; intros s0 s Hn R Hu; [reflexivity|].
  cbn [forallb] in Hu. apply andb_true_iff in Hu as (Hu & Hus).
  pose proof R as (Hr & Hc & Hie & Hk & Hi & Hg & He).
  assert (U : units_are_u16 s = units_are_u16 s0) by (unfold units_are_u16; now rewrite Hi).
  destruct (UART_Receive_IT_stores e s Hr) as (S1 & S2 & S3 & S4 & S5).
  rewrite U in S1, S2.
  cbn [IRQ_entries length] in *.
  destruct es as [|e' es'].
  - cbn [IRQ_entries]. rewrite (IRQ_entry_receives dma_rx e s Hie Hu). exact S1.
  - assert (R' : receiving (Z.of_nat (length (e' :: es'))) s0 (IRQ_entry dma_rx e s)).
    { apply receiving_goes_on; auto. cbn [length]; lia. }
    rewrite (IH s0 _ ltac:(lia) R' Hus).
    rewrite (IRQ_entry_receives dma_rx e s Hie Hu).
    cbn [store_units] in S1. rewrite S2.
    cbn [store_units]. destruct (units_are_u16 s0); rewrite S1; reflexivity.
Qed.

(** The entries before the last one. *)
Lemma receiving_entries (dma_rx : DMA_Answer) (es : list HwSample) :
  forall (n : nat) (s0 s : System),
  Z.of_nat (length es + S n) < 65536 ->
  receiving (Z.of_nat (length es + S n)) s0 s ->
  forallb unit_received es = true ->
  receiving (Z.of_nat (S n)) s0 (IRQ_entries dma_rx es s).
Proof.
  induction es as [|e es IH]; intros n s0 s Hn R Hu; [exact R|].
  cbn [forallb] in Hu. apply andb_true_iff in Hu as (Hu & Hus).
  cbn [IRQ_entries length plus] in *.
  apply (IH n); [lia | | exact Hus].
  apply receiving_goes_on; auto; lia.
Qed.

Lemma IRQ_entries_app (dma_rx : DMA_Answer) (a b : list HwSample) :
  forall s, IRQ_entries dma_rx (a ++ b) s = IRQ_entries dma_rx b (IRQ_entries dma_rx a s).
Proof. induction a as [|e a IH]; intros s; [reflexivity|]. cbn. apply IH. Qed.

Lemma Receive_IT_starts (pData Size : Z) (s : System) :
  RxState (huart s) = HAL_UART_STATE_READY ->
  Lock (huart s) = HAL_UNLOCKED ->
  pData <> 0 -> Size <> 0 ->
  let r := HAL_UART_Receive_IT pData Size s in
  fst r = HAL_OK /\ receiving Size s (snd r) /\
  ram (snd r) = ram s /\ pRxBuffPtr (huart (snd r)) = pData.
Proof.
  intros Hr Hl Hp Hsz.
  assert (Hnull : (pData =? 0) || (Size =? 0) = false)
    by (apply orb_false_iff; split; apply Z.eqb_neq; assumption).
  pose proof (flagged_SET_BIT_same
                (SET_BIT (CR1 (Instance (huart s))) USART_CR1_PEIE) USART_CR1_RXNEIE_Pos
                ltac:(apply CR1_positions)) as F.
  cbv zeta. unfold HAL_UART_Receive_IT, __HAL_LOCK, receiving.
  rewrite Hr, Hl, Hnull. cbn [HAL_UART_StateTypeDef_eqb fst snd].
  repeat split; try reflexivity. exact F.
Qed.

(** X14. A reception in interrupt mode, from [HAL_UART_Receive_IT] to
    its completion.  The hardware raises one interrupt per received unit,
    each on a status register that shows the unit and no line error.
    While units are still to come no callback is called, RxState is
    BusyRx and the counter counts the units to come.  With the last unit
    the Rx complete callback is called once, on the handle as the
    reception leaves it: RxState Ready, counter zero, the RXNE, PE and
    error interrupts disabled, the error code None, gState untouched.  The
    buffer holds the data registers of the samples, in order, 8 or 16
    bits wide as the configuration says. *)
Theorem Receive_IT_completion (dma_rx : DMA_Answer) (pData Size : Z) (s : System)
    (pre post : list HwSample) (e : HwSample) :
  RxState (huart s) = HAL_UART_STATE_READY ->
  Lock (huart s) = HAL_UNLOCKED ->
  pData <> 0 ->
  Z.of_nat (length (pre ++ e :: post)) = Size -> Size < 65536 ->
  forallb unit_received (pre ++ e :: post) = true ->
  let r := HAL_UART_Receive_IT pData Size s in
  let s1 := IRQ_entries dma_rx pre (snd r) in
  let s2 := IRQ_entries dma_rx (pre ++ e :: post) (snd r) in
  fst r = HAL_OK /\
  (calls s1 = calls s /\
   RxState (huart s1) = HAL_UART_STATE_BUSY_RX /\
   RxXferCount (huart s1) = Z.of_nat (length (e :: post))) /\
  calls s2 = calls s ++ [(HAL_UART_RxCpltCallback, huart s2)] /\
  RxState (huart s2) = HAL_UART_STATE_READY /\
  RxXferCount (huart s2) = 0 /\
  ram s2 = store_units (units_are_u16 s) (ram s) pData (pre ++ e :: post) /\
  __HAL_UART_GET_IT_SOURCE UART_IT_RXNE s2 = false /\
  __HAL_UART_GET_IT_SOURCE UART_IT_PE s2 = false /\
  __HAL_UART_GET_IT_SOURCE UART_IT_ERR s2 = false /\
  gState (huart s2) = gState (huart s) /\
  ErrorCode (huart s2) = HAL_UART_ERROR_NONE.
Proof.
  intros Hr Hl Hp Hlen Hsz Hu r s1 s2.
  assert (Hnz : Size <> 0) by (rewrite <- Hlen, length_app; cbn [length]; lia).
  destruct (Receive_IT_starts pData Size s Hr Hl Hp Hnz) as (R1 & R2 & R3 & R4).
  fold r in R1, R2, R3, R4. subst s1 s2. clearbody r. rewrite <- Hlen in R2, Hsz.
  split; [exact R1|]. split.
  - rewrite length_app in R2, Hsz. rewrite forallb_app in Hu.
    apply andb_true_iff in Hu as (Hu & _).
    destruct (receiving_entries dma_rx pre (length post) s (snd r)) as (A & B & _ & C & _);
      auto.
  - rewrite <- R3, <- R4.
    rewrite <- (receiving_stores dma_rx (pre ++ e :: post) s (snd r) Hsz R2 Hu).
    assert (Hne : pre ++ e :: post <> []) by (destruct pre; discriminate).
    destruct (exists_last Hne) as (init & l & E). rewrite E in *. clear E Hne.
    rewrite length_app in R2, Hsz. cbn [length] in R2, Hsz.
    rewrite forallb_app in Hu. apply andb_true_iff in Hu as (Hu & Hl').
    cbn [forallb] in Hl'. rewrite andb_true_r in Hl'.
    rewrite IRQ_entries_app. cbn [IRQ_entries].
    pose proof (receiving_entries dma_rx init 0 s (snd r) Hsz R2 Hu) as R'.
    destruct (receiving_completes dma_rx l s _ R' Hl') as (C1 & C2 & C3 & C4 & C5 & C6 & C7 & C8).
    repeat split; assumption.
Qed.

(** ** A transmission in interrupt mode, from the start to the completion *)

(** An entry of the handler on a quiet line with the transmit data
    register empty serves the transmitter. *)
Lemma IRQ_entry_transmits (dma_rx : DMA_Answer) (e : HwSample) (s : System) :
  flagged (CR1 (Instance (huart s))) USART_CR1_TXEIE = true ->
  transmitter_event USART_SR_TXE e = true ->
  IRQ_entry dma_rx e s = snd (UART_Transmit_IT (hardware e s)).
Proof.
  intros Hie He. unfold transmitter_event, no_line_error in He.
  apply andb_true_iff in He as (He & He4). apply andb_true_iff in He as (He & He3).
  apply andb_true_iff in He as (He1 & He2). apply negb_true_iff in He2, He3.
  unfold IRQ_entry, HAL_UART_IRQHandler, IRQ_idle_and_transmit.
  replace (SR (Instance (huart (hardware e s)))) with (hw_SR e) by reflexivity.
  replace (CR1 (Instance (huart (hardware e s)))) with (CR1 (Instance (huart s)))
    by reflexivity.
  cbv zeta. rewrite He1, He2, He3, He4, Hie. reflexivity.
Qed.

(** An entry on the end of the frame, the TXE source disabled, ends the
    transmission. *)
Lemma IRQ_entry_ends_transmit (dma_rx : DMA_Answer) (e : HwSample) (s : System) :
  flagged (CR1 (Instance (huart s))) USART_CR1_TXEIE = false ->
  flagged (CR1 (Instance (huart s))) USART_CR1_TCIE = true ->
  transmitter_event USART_SR_TC e = true ->
  IRQ_entry dma_rx e s = snd (UART_EndTransmit_IT (hardware e s)).
Proof.
  intros Hie Hic He. unfold transmitter_event, no_line_error in He.
  apply andb_true_iff in He as (He & He4). apply andb_true_iff in He as (He & He3).
  apply andb_true_iff in He as (He1 & He2). apply negb_true_iff in He2, He3.
  unfold IRQ_entry, HAL_UART_IRQHandler, IRQ_idle_and_transmit.
  replace (SR (Instance (huart (hardware e s)))) with (hw_SR e) by reflexivity.
  replace (CR1 (Instance (huart (hardware e s)))) with (CR1 (Instance (huart s)))
    by reflexivity.
  cbv zeta. rewrite He1, He2, He3, He4, Hie, Hic. cbn [andb negb orb].
  rewrite andb_false_r. reflexivity.
Qed.

(** The unit an entry writes to the data register. *)
Lemma UART_Transmit_IT_sends (e : HwSample) (s : System) :
  gState (huart s) = HAL_UART_STATE_BUSY_TX ->
  let s' := snd (UART_Transmit_IT (hardware e s)) in
  txd s' = txd s ++ load_units (units_are_u16 s) (ram s) (pTxBuffPtr (huart s)) 1 /\
  pTxBuffPtr (huart s') =
    (if units_are_u16 s then (pTxBuffPtr (huart s) + 2) mod 2 ^ 32
     else (pTxBuffPtr (huart s) + 1) mod 2 ^ 32) /\
  TxXferCount (huart s') = (TxXferCount (huart s) - 1) mod 2 ^ 16 /\
  gState (huart s') = HAL_UART_STATE_BUSY_TX /\
  calls s' = calls s /\
  Init (huart s') = Init (huart s) /\
  RxState (huart s') = RxState (huart s) /\
  ram s' = ram s /\
  CR1 (Instance (huart s')) =
    (if (TxXferCount (huart s) - 1) mod 2 ^ 16 =? 0
     then SET_BIT (CLEAR_BIT (CR1 (Instance (huart s))) USART_CR1_TXEIE) USART_CR1_TCIE
     else CR1 (Instance (huart s))).
Proof.
  intros Hg. cbv zeta. unfold UART_Transmit_IT.
  replace (gState (huart (hardware e s))) with (gState (huart s)) by reflexivity.
  rewrite Hg. cbn [HAL_UART_StateTypeDef_eqb].
  replace (units_are_u16 (hardware e s)) with (units_are_u16 s) by reflexivity.
  destruct (units_are_u16 s);
    cbn [huart on_huart TxXferCount set_TxXferCount set_pTxBuffPtr write_DR on_Instance
         set_Instance];
    match goal with
    | |- context [if ?c then (HAL_OK, _) else _] =>
      replace c with ((TxXferCount (huart s) - 1) mod 2 ^ 16 =? 0) by reflexivity
    end;
    destruct ((TxXferCount (huart s) - 1) mod 2 ^ 16 =? 0);
    repeat split; try reflexivity; exact Hg.
Qed.

Lemma transmitting_goes_on (dma_rx : DMA_Answer) (e : HwSample) (n : nat) (s0 s : System) :
  Z.of_nat (S n) < 65536 -> (0 < n)%nat ->
  transmitting (Z.of_nat (S n)) s0 s ->
  transmitter_event USART_SR_TXE e = true ->
  transmitting (Z.of_nat n) s0 (IRQ_entry dma_rx e s).
Proof.
  intros Hn Hpos (Hg & Hc & Hie & Hk & Hi & Hr & Hm) Hu.
  rewrite (IRQ_entry_transmits dma_rx e s Hie Hu).
  destruct (UART_Transmit_IT_sends e s Hg) as (_ & _ & S3 & S4 & S5 & S6 & S7 & S8 & S9).
  rewrite Hc, count_down in S3, S9 by lia.
  replace (Z.of_nat n =? 0) with false in S9 by (symmetry; apply Z.eqb_neq; lia).
  unfold transmitting. rewrite S3, S4, S5, S6, S7, S8, S9.
  repeat split; assumption.
Qed.

Lemma transmitting_last (dma_rx : DMA_Answer) (e : HwSample) (s0 s : System) :
  USART_CR1_TXEIE_Pos <> USART_CR1_TCIE_Pos ->
  transmitting 1 s0 s ->
  transmitter_event USART_SR_TXE e = true ->
  transmission_ending s0 (IRQ_entry dma_rx e s).
Proof.
  intros Hd (Hg & Hc & Hie & Hk & Hi & Hr & Hm) Hu.
  rewrite (IRQ_entry_transmits dma_rx e s Hie Hu).
  destruct (UART_Transmit_IT_sends e s Hg) as (_ & _ & S3 & S4 & S5 & S6 & S7 & S8 & S9).
  rewrite Hc in S3, S9. change ((1 - 1) mod 2 ^ 16) with 0 in S3, S9.
  cbn [Z.eqb] in S9.
  unfold transmission_ending. rewrite S3, S4, S5, S7, S9.
  destruct CR1_positions as (_ & _ & Htc & Htxe & _).
  unfold USART_CR1_TXEIE, USART_CR1_TCIE.
  rewrite !flagged_bit, !testbit_SET_BIT, !testbit_CLEAR_BIT, !testbit_bit, !Z.eqb_refl by lia.
  replace (USART_CR1_TCIE_Pos =? USART_CR1_TXEIE_Pos) with false
    by (symmetry; apply Z.eqb_neq; lia).
  rewrite andb_false_r, orb_true_r. repeat split; assumption.
Qed.

(** The entries of a transmission up to its last unit. *)
Lemma transmitting_sends (dma_rx : DMA_Answer) (es : list HwSample) :
  forall (e : HwSample) (s0 s : System),
  USART_CR1_TXEIE_Pos <> USART_CR1_TCIE_Pos ->
  Z.of_nat (length (e :: es)) < 65536 ->
  transmitting (Z.of_nat (length (e :: es))) s0 s ->
  forallb (transmitter_event USART_SR_TXE) (e :: es) = true ->
  transmission_ending s0 (IRQ_entries dma_rx (e :: es) s) /\
  txd (IRQ_entries dma_rx (e :: es) s)
    = txd s ++ load_units (units_are_u16 s0) (ram s0) (pTxBuffPtr (huart s))
                 (length (e :: es)).
Proof.
  induction es as [|e' es IH]; intros e s0 s Hd Hn T Hu;
    cbn [forallb] in Hu; apply andb_true_iff in Hu as (Hu & Hus);
    pose proof T as (Hg & Hc & Hie & Hk & Hi & Hr & Hm);
    assert (U : units_are_u16 s = units_are_u16 s0) by (unfold units_are_u16; now rewrite Hi);
    destruct (UART_Transmit_IT_sends e s Hg) as (S1 & S2 & _);
    rewrite U, Hm in S1; rewrite U in S2;
    rewrite <- (IRQ_entry_transmits dma_rx e s Hie Hu) in S1, S2.
  - cbn [IRQ_entries length]. split; [|exact S1].
    apply transmitting_last; assumption.
  - assert (T' : transmitting (Z.of_nat (length (e' :: es))) s0 (IRQ_entry dma_rx e s)).
    { apply transmitting_goes_on; auto. cbn [length]; lia. }
    cbn [length] in Hn.
    destruct (IH e' s0 (IRQ_entry dma_rx e s) Hd ltac:(cbn [length]; lia) T' Hus) as (E & X).
    change (IRQ_entries dma_rx (e :: e' :: es) s)
      with (IRQ_entries dma_rx (e' :: es) (IRQ_entry dma_rx e s)).
    split; [exact E|]. rewrite X, S1, S2, <- app_assoc.
    change (length (e :: e' :: es)) with (S (length (e' :: es))).
    cbn [load_units app]. destruct (units_are_u16 s0); reflexivity.
Qed.

Lemma Transmit_IT_starts (pData Size : Z) (s : System) :
  gState (huart s) = HAL_UART_STATE_READY ->
  Lock (huart s) = HAL_UNLOCKED ->
  pData <> 0 -> Size <> 0 ->
  let r := HAL_UART_Transmit_IT pData Size s in
  fst r = HAL_OK /\ transmitting Size s (snd r) /\
  txd (snd r) = txd s /\ pTxBuffPtr (huart (snd r)) = pData.
Proof.
  intros Hg Hl Hp Hsz.
  assert (Hnull : (pData =? 0) || (Size =? 0) = false)
    by (apply orb_false_iff; split; apply Z.eqb_neq; assumption).
  pose proof (flagged_SET_BIT_same (CR1 (Instance (huart s))) USART_CR1_TXEIE_Pos
                ltac:(apply CR1_positions)) as F.
  cbv zeta. unfold HAL_UART_Transmit_IT, __HAL_LOCK, transmitting.
  rewrite Hg, Hl, Hnull. cbn [HAL_UART_StateTypeDef_eqb fst snd].
  repeat split; try reflexivity. exact F.
Qed.

(** X15. A transmission in interrupt mode, from [HAL_UART_Transmit_IT] to
    its completion, in a register layout where TXEIE and TCIE are two
    bits.  The hardware raises one interrupt per unit on an empty transmit
    data register, on a quiet line.  After the last unit the units of the
    buffer have been written to the data register in order, no callback
    has been called, gState is still BusyTx, the TXE interrupt is disabled
    and the TC interrupt enabled.  The interrupt on the end of the frame
    then calls the Tx complete callback once, with gState Ready and both
    interrupts disabled; nothing more is sent and RxState is untouched. *)
Theorem Transmit_IT_completion (dma_rx : DMA_Answer) (pData Size : Z) (s : System)
    (e : HwSample) (es : list HwSample) (e_tc : HwSample) :
  USART_CR1_TXEIE_Pos <> USART_CR1_TCIE_Pos ->
  gState (huart s) = HAL_UART_STATE_READY ->
  Lock (huart s) = HAL_UNLOCKED ->
  pData <> 0 ->
  Z.of_nat (length (e :: es)) = Size -> Size < 65536 ->
  forallb (transmitter_event USART_SR_TXE) (e :: es) = true ->
  transmitter_event USART_SR_TC e_tc = true ->
  let r := HAL_UART_Transmit_IT pData Size s in
  let s1 := IRQ_entries dma_rx (e :: es) (snd r) in
  let s2 := IRQ_entry dma_rx e_tc s1 in
  fst r = HAL_OK /\
  (txd s1 = txd s ++ load_units (units_are_u16 s) (ram s) pData (length (e :: es)) /\
   calls s1 = calls s /\
   gState (huart s1) = HAL_UART_STATE_BUSY_TX /\
   TxXferCount (huart s1) = 0 /\
   __HAL_UART_GET_IT_SOURCE UART_IT_TXE s1 = false /\
   __HAL_UART_GET_IT_SOURCE UART_IT_TC s1 = true) /\
  calls s2 = calls s ++ [(HAL_UART_TxCpltCallback, huart s2)] /\
  gState (huart s2) = HAL_UART_STATE_READY /\
  txd s2 = txd s1 /\
  __HAL_UART_GET_IT_SOURCE UART_IT_TXE s2 = false /\
  __HAL_UART_GET_IT_SOURCE UART_IT_TC s2 = false /\
  RxState (huart s2) = RxState (huart s).
Proof.
  intros Hd Hg Hl Hp Hlen Hsz Hu Htc r s1 s2.
  assert (Hnz : Size <> 0) by (rewrite <- Hlen; cbn [length]; lia).
  destruct (Transmit_IT_starts pData Size s Hg Hl Hp Hnz) as (R1 & R2 & R3 & R4).
  fold r in R1, R2, R3, R4. subst s2 s1. clearbody r. rewrite <- Hlen in R2, Hsz.
  destruct (transmitting_sends dma_rx es e s (snd r) Hd Hsz R2 Hu)
    as ((E1 & E2 & E3 & E4 & E5 & E6) & X).
  rewrite R3, R4 in X.
  set (s1 := IRQ_entries dma_rx (e :: es) (snd r)) in *. clearbody s1.
  split; [exact R1|]. split; [unfold __HAL_UART_GET_IT_SOURCE; repeat split; assumption|].
  rewrite (IRQ_entry_ends_transmit dma_rx e_tc s1 E3 E4 Htc).
  destruct CR1_positions as (_ & _ & Hptc & Hptxe & _).
  unfold UART_EndTransmit_IT, __HAL_UART_GET_IT_SOURCE, __HAL_UART_DISABLE_IT.
  cbn [snd huart calls txd invoke on_huart on_CR1 on_Instance hardware set_gState set_Instance
       set_CR1 set_SR set_DR gState RxState Instance CR1].
  rewrite E5, E6. repeat split.
  - apply flagged_CLEAR_BIT_stays; [lia | exact E3].
  - apply flagged_CLEAR_BIT_same; lia.
Qed.

(** ** Blocking transfers that complete *)

Lemma polling_frame_refl (s : System) : polling_frame s s.
Proof. repeat split. Qed.

Lemma polling_frame_trans (s1 s2 s3 : System) :
  polling_frame s1 s2 -> polling_frame s2 s3 -> polling_frame s1 s3.
Proof.
  intros (K1 & A1 & B1 & C1 & D1 & E1) (K2 & A2 & B2 & C2 & D2 & E2).
  split; [apply (control_kept_trans _ s2); assumption|].
  repeat split; congruence.
Qed.

Lemma hardware_hardware (e e' : HwSample) (s : System) :
  hardware e (hardware e' s) = hardware e s.
Proof. reflexivity. Qed.

(** A poll that finds its flag: the helper returns Ok on the registers of
    the sample that showed the flag. *)
Lemma WaitOnFlag_succeeds (Tickstart Timeout Flag : Z) (flags : list Z)
    (env hits : list HwSample) :
  PollsSucceed Tickstart Timeout (Flag :: flags) env hits ->
  forall s : System,
  exists h hits' env',
    hits = h :: hits' /\
    UART_WaitOnFlagUntilTimeout Flag RESET Tickstart Timeout s env
      = Some (HAL_OK, hardware h s, env') /\
    PollsSucceed Tickstart Timeout flags env' hits'.
Proof.
  intros H. remember (Flag :: flags) as fs eqn:Efs.
  induction H as [env | F fs' e env hits Hf Hrest _ | F fs' e env hits Hf Hd Hrest IH];
    [discriminate | |]; injection Efs as -> ->; intros s.
  - exists e, hits, env. split; [reflexivity|]. split; [|exact Hrest].
    cbn [UART_WaitOnFlagUntilTimeout].
    replace (__HAL_UART_GET_FLAG (hardware e s) Flag) with (flag_is_set e Flag)
      by reflexivity.
    rewrite Hf. reflexivity.
  - destruct (IH eq_refl (hardware e s)) as (h & hits' & env' & Eh & Ew & P).
    exists h, hits', env'. split; [exact Eh|]. split; [|exact P].
    cbn [UART_WaitOnFlagUntilTimeout].
    replace (__HAL_UART_GET_FLAG (hardware e s) Flag) with (flag_is_set e Flag)
      by reflexivity.
    rewrite Hf. cbn [FlagStatus_eqb].
    unfold deadline_passed in Hd. rewrite Hd. rewrite Ew, hardware_hardware. reflexivity.
Qed.

Lemma hardware_frame (e : HwSample) (s : System) : polling_frame s (hardware e s).
Proof. repeat split. Qed.

Lemma Transmit_loop_succeeds (Tickstart Timeout : Z) (rest : list Z) (n : nat) :
  forall (s : System) (p8 p16 : Z) (env hits : list HwSample),
  TxXferCount (huart s) = Z.of_nat n -> Z.of_nat n < 65536 ->
  p8 = 0 \/ n = 0%nat \/ (0 < p8 /\ p8 + Z.of_nat n <= 2 ^ 32) ->
  PollsSucceed Tickstart Timeout (repeat UART_FLAG_TXE n ++ rest) env hits ->
  exists s' env' hits',
    Transmit_loop n p8 p16 Tickstart Timeout s env = Some (HAL_OK, s', env') /\
    PollsSucceed Tickstart Timeout rest env' hits' /\
    polling_frame s s' /\ ram s' = ram s /\ TxXferCount (huart s') = 0 /\
    txd s' = txd s ++ load_units (p8 =? 0) (ram s) (if p8 =? 0 then p16 else p8) n.
Proof.
  induction n as [|n IH]; intros s p8 p16 env hits Hc Hn Hp H.
  - exists s, env, hits. cbn [Transmit_loop load_units]. rewrite Hc, app_nil_r.
    split; [reflexivity|]. split; [exact H|]. split; [apply polling_frame_refl|].
    repeat split; try exact Hc.
  - cbn [Transmit_loop repeat app] in *. rewrite Hc.
    replace (Z.of_nat (S n) >? 0) with true by (symmetry; apply Z.gtb_lt; lia).
    destruct (WaitOnFlag_succeeds _ _ _ _ _ _ H s) as (h & hits' & env' & -> & Ew & P).
    rewrite Ew.
    match goal with
    | |- context [on_huart ?f ?x] => set (s2 := on_huart f x)
    end.
    assert (C2 : TxXferCount (huart s2) = Z.of_nat n).
    { subst s2. destruct (p8 =? 0);
        cbn [huart on_huart write_DR on_Instance TxXferCount set_TxXferCount set_Instance
             hardware];
        rewrite Hc; apply count_down; lia. }
    assert (F2 : polling_frame s s2 /\ ram s2 = ram s) 
      by (subst s2; destruct (p8 =? 0); repeat split).
    assert (X2 : txd s2 = txd s ++ [if p8 =? 0 then Z.land (load16 (ram s) p16) 0x01FF
                                    else Z.land (load8 (ram s) p8) 0x00FF])
      by (subst s2; destruct (p8 =? 0); reflexivity).
    destruct F2 as (F2 & M2). clearbody s2.
    destruct (Z.eqb_spec p8 0) as [E0|N0].
    + destruct (IH s2 p8 ((p16 + 2) mod 2 ^ 32) env' hits' C2 ltac:(lia) (or_introl E0) P)
        as (s' & env'' & hits'' & E & P' & F & M & C & X).
      exists s', env'', hits''. split; [exact E|]. split; [exact P'|].
      split; [apply (polling_frame_trans _ s2); assumption|].
      split; [congruence|]. split; [exact C|].
      rewrite X, X2, M2, <- app_assoc. subst p8. reflexivity.
    + assert (Hp' : 0 < p8 /\ p8 + Z.of_nat (S n) <= 2 ^ 32)
        by (destruct Hp as [?|[?|?]]; [contradiction | discriminate | assumption]).
      destruct (IH s2 ((p8 + 1) mod 2 ^ 32) p16 env' hits' C2 ltac:(lia))
        as (s' & env'' & hits'' & E & P' & F & M & C & X); [|exact P|].
      { destruct n; [right; left; reflexivity|]. right; right.
        rewrite Z.mod_small by lia. lia. }
      exists s', env'', hits''. split; [exact E|]. split; [exact P'|].
      split; [apply (polling_frame_trans _ s2); assumption|].
      split; [congruence|]. split; [exact C|].
      rewrite X, X2, M2, <- app_assoc. cbn [load_units app].
      destruct n; [reflexivity|].
      replace ((p8 + 1) mod 2 ^ 32 =? 0) with false; [reflexivity|].
      symmetry; apply Z.eqb_neq. rewrite Z.mod_small by lia. lia.
Qed.

Lemma Receive_loop_succeeds (Tickstart Timeout : Z) (rest : list Z) (n : nat) :
  forall (s : System) (p8 p16 : Z) (env hits : list HwSample),
  RxXferCount (huart s) = Z.of_nat n -> Z.of_nat n < 65536 ->
  p8 = 0 \/ n = 0%nat \/ (0 < p8 /\ p8 + Z.of_nat n <= 2 ^ 32) ->
  PollsSucceed Tickstart Timeout (repeat UART_FLAG_RXNE n ++ rest) env hits ->
  exists s' env' hs hits',
    hits = hs ++ hits' /\ length hs = n /\
    Receive_loop n p8 p16 Tickstart Timeout s env = Some (HAL_OK, s', env') /\
    PollsSucceed Tickstart Timeout rest env' hits' /\
    polling_frame s s' /\ txd s' = txd s /\ RxXferCount (huart s') = 0 /\
    ram s' = store_units (p8 =? 0) (ram s) (if p8 =? 0 then p16 else p8) hs.
Proof.
  induction n as [|n IH]; intros s p8 p16 env hits Hc Hn Hp H.
  - exists s, env, [], hits. cbn [Receive_loop store_units]. rewrite Hc.
    split; [reflexivity|]. split; [reflexivity|]. split; [reflexivity|].
    split; [exact H|]. split; [apply polling_frame_refl|].
    repeat split; try exact Hc.
  - cbn [Receive_loop repeat app] in *. rewrite Hc.
    replace (Z.of_nat (S n) >? 0) with true by (symmetry; apply Z.gtb_lt; lia).
    destruct (WaitOnFlag_succeeds _ _ _ _ _ _ H s) as (h & hits' & env' & -> & Ew & P).
    rewrite Ew.
    match goal with
    | |- context [on_huart ?f ?x] => set (s2 := on_huart f x)
    end.
    assert (C2 : RxXferCount (huart s2) = Z.of_nat n).
    { subst s2. destruct (p8 =? 0);
        cbn [huart on_huart set_ram on_Instance RxXferCount set_RxXferCount set_Instance
             hardware];
        rewrite Hc; apply count_down; lia. }
    assert (F2 : polling_frame s s2 /\ txd s2 = txd s) 
      by (subst s2; destruct (p8 =? 0); repeat split).
    assert (X2 : ram s2 = if p8 =? 0 then store16 (ram s) p16 (Z.land (hw_DR h) 0x01FF)
                          else store8 (ram s) p8 (Z.land (hw_DR h) 0x00FF))
      by (subst s2; destruct (p8 =? 0); reflexivity).
    destruct F2 as (F2 & M2). clearbody s2.
    destruct (Z.eqb_spec p8 0) as [E0|N0].
    + destruct (IH s2 p8 ((p16 + 2) mod 2 ^ 32) env' hits' C2 ltac:(lia) (or_introl E0) P)
        as (s' & env'' & hs & hits'' & Eh & Hl & E & P' & F & M & C & X).
      exists s', env'', (h :: hs), hits''. split; [now rewrite Eh|].
      split; [cbn [length]; now rewrite Hl|]. split; [exact E|]. split; [exact P'|].
      split; [apply (polling_frame_trans _ s2); assumption|].
      split; [congruence|]. split; [exact C|].
      rewrite X, X2. subst p8. reflexivity.
    + assert (Hp' : 0 < p8 /\ p8 + Z.of_nat (S n) <= 2 ^ 32)
        by (destruct Hp as [?|[?|?]]; [contradiction | discriminate | assumption]).
      destruct (IH s2 ((p8 + 1) mod 2 ^ 32) p16 env' hits' C2 ltac:(lia))
        as (s' & env'' & hs & hits'' & Eh & Hl & E & P' & F & M & C & X); [|exact P|].
      { destruct n; [right; left; reflexivity|]. right; right.
        rewrite Z.mod_small by lia. lia. }
      exists s', env'', (h :: hs), hits''. split; [now rewrite Eh|].
      split; [cbn [length]; now rewrite Hl|]. split; [exact E|]. split; [exact P'|].
      split; [apply (polling_frame_trans _ s2); assumption|].
      split; [congruence|]. split; [exact C|].
      rewrite X, X2. cbn [store_units].
      destruct n.
      * destruct hs; [reflexivity | discriminate Hl].
      * replace ((p8 + 1) mod 2 ^ 32 =? 0) with false; [reflexivity|].
        symmetry; apply Z.eqb_neq. rewrite Z.mod_small by lia. lia.
Qed.

(** X16. A blocking transmission whose polls all find their flag before
    the deadline: the call returns Ok, the units of the buffer have been
    written to the data register in order (8 or 16 bits wide as the
    configuration says), gState is Ready again, the lock is released, the
    counter is zero and the error code None; RxState, the control
    registers CR1 and CR3, the memory and the trace of callbacks are as
    they were. *)
Theorem Transmit_succeeds (pData Size Timeout tickstart : Z) (env hits : list HwSample)
    (s : System) :
  0 < pData -> 0 < Size < 65536 -> pData + Size <= 2 ^ 32 ->
  aligned_for s pData = true ->
  Lock (huart s) = HAL_UNLOCKED ->
  gState (huart s) = HAL_UART_STATE_READY ->
  PollsSucceed tickstart Timeout (Transmit_flags Size) env hits ->
  exists s',
    HAL_UART_Transmit pData Size Timeout tickstart env s = Some (HAL_OK, s') /\
    txd s' = txd s ++ load_units (units_are_u16 s) (ram s) pData (Z.to_nat Size) /\
    gState (huart s') = HAL_UART_STATE_READY /\
    Lock (huart s') = HAL_UNLOCKED /\
    TxXferCount (huart s') = 0 /\
    ErrorCode (huart s') = HAL_UART_ERROR_NONE /\
    RxState (huart s') = RxState (huart s) /\
    control_kept s s' /\
    ram s' = ram s.
Proof.
  intros Hp Hsz Hfit Hal Hl Hg H.
  unfold HAL_UART_Transmit, __HAL_LOCK. rewrite Hg, Hl.
  cbn [HAL_UART_StateTypeDef_eqb].
  replace ((pData =? 0) || (Size =? 0)) with false
    by (symmetry; apply orb_false_iff; split; apply Z.eqb_neq; lia).
  unfold aligned_for in Hal. apply negb_true_iff in Hal. rewrite Hal.
  cbv zeta.
  set (s1 := on_huart (set_TxXferCount Size) _).
  assert (F1 : polling_frame
                 (on_huart (set_gState HAL_UART_STATE_BUSY_TX)
                    (on_huart (set_ErrorCode HAL_UART_ERROR_NONE)
                       (on_huart (set_Lock HAL_LOCKED) s))) s1 /\
               ram s1 = ram s /\ txd s1 = txd s /\
               units_are_u16 s1 = units_are_u16 s) by (subst s1; repeat split).
  assert (C1 : TxXferCount (huart s1) = Z.of_nat (Z.to_nat Size))
    by (subst s1; cbn; symmetry; apply Z2Nat.id; lia).
  destruct F1 as (F1 & M1 & X1 & U1). rewrite U1. clearbody s1.
  unfold Transmit_flags in H.
  destruct (Transmit_loop_succeeds tickstart Timeout [UART_FLAG_TC] (Z.to_nat Size) s1
              (if units_are_u16 s then 0 else pData)
              (if units_are_u16 s then pData else 0) env hits C1 ltac:(lia))
    as (s2 & env2 & hits2 & E & P & F2 & M2 & C2 & X2); [|exact H|].
  { destruct (units_are_u16 s); [left; reflexivity|]. right; right. lia. }
  rewrite E.
  destruct (WaitOnFlag_succeeds _ _ _ _ _ _ P s2) as (h & hits3 & env3 & _ & Ew & _).
  rewrite Ew. eexists. split; [reflexivity|].
  pose proof (polling_frame_trans _ _ _ (polling_frame_trans _ _ _ F1 F2) (hardware_frame h s2))
    as ((K1 & K2 & K3) & G & R & L & Ec & I).
  cbn [huart on_huart __HAL_UNLOCK set_gState set_Lock gState Lock TxXferCount ErrorCode
       RxState txd ram hardware on_Instance set_Instance].
  split.
  - rewrite X2, X1, M1. destruct (units_are_u16 s); [reflexivity|].
    replace (pData =? 0) with false by (symmetry; apply Z.eqb_neq; lia). reflexivity.
  - repeat split; try assumption; try reflexivity. congruence.
Qed.

(** X17. A blocking reception whose polls all find a received unit
    before the deadline: the call returns Ok, as many samples showed a
    unit as units were asked for, and the buffer holds their data
    registers in order (8 or 16 bits wide as the configuration says);
    RxState is Ready again, the lock is released, the counter is zero and
    the error code None; gState, the control registers CR1 and CR3, the
    units sent and the trace of callbacks are as they were. *)
Theorem Receive_succeeds (pData Size Timeout tickstart : Z) (env hits : list HwSample)
    (s : System) :
  0 < pData -> 0 < Size < 65536 -> pData + Size <= 2 ^ 32 ->
  aligned_for s pData = true ->
  Lock (huart s) = HAL_UNLOCKED ->
  RxState (huart s) = HAL_UART_STATE_READY ->
  PollsSucceed tickstart Timeout (Receive_flags Size) env hits ->
  exists s',
    HAL_UART_Receive pData Size Timeout tickstart env s = Some (HAL_OK, s') /\
    Z.of_nat (length hits) = Size /\
    ram s' = store_units (units_are_u16 s) (ram s) pData hits /\
    RxState (huart s') = HAL_UART_STATE_READY /\
    Lock (huart s') = HAL_UNLOCKED /\
    RxXferCount (huart s') = 0 /\
    ErrorCode (huart s') = HAL_UART_ERROR_NONE /\
    gState (huart s') = gState (huart s) /\
    control_kept s s' /\
    txd s' = txd s.
Proof.
  intros Hp Hsz Hfit Hal Hl Hr H.
  unfold HAL_UART_Receive, __HAL_LOCK. rewrite Hr, Hl.
  cbn [HAL_UART_StateTypeDef_eqb].
  replace ((pData =? 0) || (Size =? 0)) with false
    by (symmetry; apply orb_false_iff; split; apply Z.eqb_neq; lia).
  unfold aligned_for in Hal. apply negb_true_iff in Hal. rewrite Hal.
  cbv zeta.
  set (s1 := on_huart (set_RxXferCount Size) _).
  assert (F1 : polling_frame
                 (on_huart (set_RxState HAL_UART_STATE_BUSY_RX)
                    (on_huart (set_ErrorCode HAL_UART_ERROR_NONE)
                       (on_huart (set_Lock HAL_LOCKED) s))) s1 /\
               ram s1 = ram s /\ txd s1 = txd s /\
               units_are_u16 s1 = units_are_u16 s) by (subst s1; repeat split).
  assert (C1 : RxXferCount (huart s1) = Z.of_nat (Z.to_nat Size))
    by (subst s1; cbn; symmetry; apply Z2Nat.id; lia).
  destruct F1 as (F1 & M1 & X1 & U1). rewrite U1. clearbody s1.
  unfold Receive_flags in H. rewrite <- (app_nil_r (repeat _ _)) in H.
  destruct (Receive_loop_succeeds tickstart Timeout [] (Z.to_nat Size) s1
              (if units_are_u16 s then 0 else pData)
              (if units_are_u16 s then pData else 0) env hits C1 ltac:(lia))
    as (s2 & env2 & hs & hits2 & Eh & Hlen & E & P & F2 & X2 & C2 & M2); [|exact H|].
  { destruct (units_are_u16 s); [left; reflexivity|]. right; right. lia. }
  rewrite E. inversion P; subst. rewrite app_nil_r.
  eexists. split; [reflexivity|].
  pose proof (polling_frame_trans _ _ _ F1 F2) as ((K1 & K2 & K3) & G & R & L & Ec & I).
  cbn [huart on_huart __HAL_UNLOCK set_RxState set_Lock gState Lock RxXferCount ErrorCode
       RxState txd ram].
  split; [rewrite Hlen; apply Z2Nat.id; lia|]. split.
  - rewrite M2, M1. destruct (units_are_u16 s); [reflexivity|].
    replace (pData =? 0) with false by (symmetry; apply Z.eqb_neq; lia). reflexivity.
  - repeat split; try assumption; try reflexivity. congruence.
Qed.

(** ** Blocking transfers without a deadline *)

Lemma WaitOnFlag_no_deadline (Flag : Z) (Status : FlagStatus) (Tickstart : Z)
    (env : list HwSample) :
  forall s : System,
  match UART_WaitOnFlagUntilTimeout Flag Status Tickstart HAL_MAX_DELAY s env with
  | Some (st, _, _) => st = HAL_OK
  | None => True
  end.
Proof.
  induction env as [|e env IH]; intros s; [exact I|].
  cbn [UART_WaitOnFlagUntilTimeout]. rewrite Z.eqb_refl. cbn [negb andb].
  destruct (FlagStatus_eqb _ _); [apply IH | reflexivity].
Qed.

Lemma Transmit_loop_no_deadline (Tickstart : Z) (n : nat) :
  forall (s : System) (p8 p16 : Z) (env : list HwSample),
  match Transmit_loop n p8 p16 Tickstart HAL_MAX_DELAY s env with
  | Some (st, _, _) => st = HAL_OK
  | None => True
  end.
Proof.
  induction n as [|n IH]; intros s p8 p16 env; cbn [Transmit_loop];
    destruct (TxXferCount (huart s) >? 0); try exact I; try reflexivity.
  pose proof (WaitOnFlag_no_deadline UART_FLAG_TXE RESET Tickstart env s) as W.
  destruct (UART_WaitOnFlagUntilTimeout _ _ _ _ _ _) as [[[st s1] env1]|]; [|exact I].
  subst st. destruct (p8 =? 0); apply IH.
Qed.

Lemma Receive_loop_no_deadline (Tickstart : Z) (n : nat) :
  forall (s : System) (p8 p16 : Z) (env : list HwSample),
  match Receive_loop n p8 p16 Tickstart HAL_MAX_DELAY s env with
  | Some (st, _, _) => st = HAL_OK
  | None => True
  end.
Proof.
  induction n as [|n IH]; intros s p8 p16 env; cbn [Receive_loop];
    destruct (RxXferCount (huart s) >? 0); try exact I; try reflexivity.
  pose proof (WaitOnFlag_no_deadline UART_FLAG_RXNE RESET Tickstart env s) as W.
  destruct (UART_WaitOnFlagUntilTimeout _ _ _ _ _ _) as [[[st s1] env1]|]; [|exact I].
  subst st. destruct (p8 =? 0); apply IH.
Qed.

(** X18. With the timeout [HAL_MAX_DELAY] a blocking transmit or receive
    never returns Timeout, whatever the hardware shows and whatever the
    tick counter does: it returns another status or goes on polling. *)
Theorem no_timeout_without_deadline (pData Size tickstart : Z) (env : list HwSample)
    (s : System) :
  match HAL_UART_Transmit pData Size HAL_MAX_DELAY tickstart env s with
  | Some (st, _) => HAL_StatusTypeDef_eqb st HAL_TIMEOUT = false
  | None => True
  end /\
  match HAL_UART_Receive pData Size HAL_MAX_DELAY tickstart env s with
  | Some (st, _) => HAL_StatusTypeDef_eqb st HAL_TIMEOUT = false
  | None => True
  end.
Proof.
  split.
  - unfold HAL_UART_Transmit.
    destruct (HAL_UART_StateTypeDef_eqb _ _); [|reflexivity].
    destruct ((pData =? 0) || (Size =? 0)); [reflexivity|].
    destruct (units_are_u16 s && negb (Z.land pData 1 =? 0)); [reflexivity|].
    destruct (__HAL_LOCK s) as [s0|]; [|reflexivity]. cbv zeta.
    match goal with
    | |- context [Transmit_loop ?n ?a ?b ?t _ ?x ?e] =>
      pose proof (Transmit_loop_no_deadline t n x a b e) as L;
      destruct (Transmit_loop n a b t HAL_MAX_DELAY x e) as [[[st s1] env1]|]; [|exact I]
    end.
    subst st.
    pose proof (WaitOnFlag_no_deadline UART_FLAG_TC RESET tickstart env1 s1) as W.
    destruct (UART_WaitOnFlagUntilTimeout _ _ _ _ _ _) as [[[st s2] env2]|]; [|exact I].
    subst st. reflexivity.
  - unfold HAL_UART_Receive.
    destruct (HAL_UART_StateTypeDef_eqb _ _); [|reflexivity].
    destruct ((pData =? 0) || (Size =? 0)); [reflexivity|].
    destruct (units_are_u16 s && negb (Z.land pData 1 =? 0)); [reflexivity|].
    destruct (__HAL_LOCK s) as [s0|]; [|reflexivity]. cbv zeta.
    match goal with
    | |- context [Receive_loop ?n ?a ?b ?t _ ?x ?e] =>
      pose proof (Receive_loop_no_deadline t n x a b e) as L;
      destruct (Receive_loop n a b t HAL_MAX_DELAY x e) as [[[st s1] env1]|]; [|exact I]
    end.
    subst st. reflexivity.
Qed.

(** ** A transmission in DMA mode, from the start to the completion *)

Lemma Transmit_DMA_starts (dma : DMA_Answer) (pData Size : Z) (s : System)
    (d : DMA.DMA_HandleTypeDef) :
  gState (huart s) = HAL_UART_STATE_READY ->
  Lock (huart s) = HAL_UNLOCKED ->
  pData <> 0 -> Size <> 0 ->
  hdmatx (huart s) = Some d ->
  exists s1 d1,
    HAL_UART_Transmit_DMA dma pData Size s = Some (HAL_OK, s1) /\
    hdmatx (huart s1) = Some d1 /\
    DMA.XferCpltCallback d1 = Some PTR_UART_DMATransmitCplt /\
    DMA.CCR d1 = DMA.CCR d /\
    DMA.Request d1 = match dma_status dma with
                     | HAL_OK => Some (pData, DR_address s, Size)
                     | _ => DMA.Request d
                     end /\
    gState (huart s1) = HAL_UART_STATE_BUSY_TX /\
    RxState (huart s1) = RxState (huart s) /\
    CR1 (Instance (huart s1)) = CR1 (Instance (huart s)) /\
    CR3 (Instance (huart s1)) = SET_BIT (CR3 (Instance (huart s))) USART_CR3_DMAT /\
    calls s1 = calls s.
Proof.
  intros Hg Hl Hp Hsz Hd.
  assert (Hnull : (pData =? 0) || (Size =? 0) = false)
    by (apply orb_false_iff; split; apply Z.eqb_neq; assumption).
  destruct s as [h m c t]; destruct h as [b u i a p1 n1 k1 p2 n2 k2 dt dr l g rx ec].
  cbn in Hg, Hl, Hd. subst g l dt.
  unfold HAL_UART_Transmit_DMA, __HAL_LOCK; cbn.
  rewrite Hnull; cbn.
  unfold HAL_DMA_Start_IT.
  destruct (dma_status dma); cbn.
  all: eexists _, _; split; [reflexivity|]; cbn.
  all: repeat split; reflexivity.
Qed.

(** X19. A transmission in DMA mode on a channel in normal mode, in a
    register layout where TXEIE and TCIE are two bits.  The start returns
    Ok with gState BusyTx and the Tx DMA request enabled whatever the DMA
    engine answers: when the engine refuses, the request of the channel is
    the one it had.  The completion of the DMA transfer calls no
    callback: it zeroes the counter, disables the Tx DMA request and
    enables the TC interrupt, gState staying BusyTx.  The interrupt on the
    end of the last frame then calls the Tx complete callback once, with
    gState Ready and the TC interrupt disabled; RxState is untouched. *)
Theorem Transmit_DMA_completion (dma dma_rx : DMA_Answer) (pData Size : Z) (s : System)
    (d : DMA.DMA_HandleTypeDef) (e_tc : HwSample) :
  USART_CR1_TXEIE_Pos <> USART_CR1_TCIE_Pos ->
  gState (huart s) = HAL_UART_STATE_READY ->
  Lock (huart s) = HAL_UNLOCKED ->
  pData <> 0 -> Size <> 0 ->
  hdmatx (huart s) = Some d ->
  Z.land (DMA.CCR d) DMA_CCR_CIRC = 0 ->
  __HAL_UART_GET_IT_SOURCE UART_IT_TXE s = false ->
  transmitter_event USART_SR_TC e_tc = true ->
  exists s1 d1,
    HAL_UART_Transmit_DMA dma pData Size s = Some (HAL_OK, s1) /\
    hdmatx (huart s1) = Some d1 /\
    DMA.XferCpltCallback d1 = Some PTR_UART_DMATransmitCplt /\
    DMA.Request d1 = match dma_status dma with
                     | HAL_OK => Some (pData, DR_address s, Size)
                     | _ => DMA.Request d
                     end /\
    gState (huart s1) = HAL_UART_STATE_BUSY_TX /\
    HAL_IS_BIT_SET (CR3 (Instance (huart s1))) USART_CR3_DMAT = true /\
    calls s1 = calls s /\
    let s2 := call_DMA_callback PTR_UART_DMATransmitCplt d1 s1 in
    calls s2 = calls s /\
    gState (huart s2) = HAL_UART_STATE_BUSY_TX /\
    TxXferCount (huart s2) = 0 /\
    HAL_IS_BIT_SET (CR3 (Instance (huart s2))) USART_CR3_DMAT = false /\
    __HAL_UART_GET_IT_SOURCE UART_IT_TC s2 = true /\
    let s3 := IRQ_entry dma_rx e_tc s2 in
    calls s3 = calls s ++ [(HAL_UART_TxCpltCallback, huart s3)] /\
    gState (huart s3) = HAL_UART_STATE_READY /\
    __HAL_UART_GET_IT_SOURCE UART_IT_TC s3 = false /\
    RxState (huart s3) = RxState (huart s).
Proof.
  intros Hpos Hg Hl Hp Hsz Hd Hc Hie Htc.
  destruct (Transmit_DMA_starts dma pData Size s d Hg Hl Hp Hsz Hd)
    as (s1 & d1 & E & Hd1 & Cb & Hc1 & Rq & Hg1 & Hr1 & H1 & H3 & Hk1).
  destruct CR1_positions as (_ & _ & Hptc & Hptxe & _).
  destruct CR3_positions as ((_ & _ & Hpt) & _).
  exists s1, d1. split; [exact E|]. split; [exact Hd1|]. split; [exact Cb|].
  split; [exact Rq|]. split; [exact Hg1|].
  split; [rewrite H3; apply HAL_IS_BIT_SET_SET_same; lia|]. split; [exact Hk1|].
  unfold __HAL_UART_GET_IT_SOURCE in Hie. rewrite <- H1 in Hie.
  rewrite <- Hk1, <- Hr1. rewrite <- Hc1 in Hc.
  clear E Hg Hl Hd Hk1 Hc1 Hr1 H1 H3 Rq s.
  cbv zeta. unfold call_DMA_callback, UART_DMATransmitCplt. rewrite Hc.
  cbn [Z.eqb].
  match goal with |- context [calls ?x = calls s1] => set (s2 := x) end.
  assert (F : calls s2 = calls s1 /\
              gState (huart s2) = HAL_UART_STATE_BUSY_TX /\
              TxXferCount (huart s2) = 0 /\
              HAL_IS_BIT_SET (CR3 (Instance (huart s2))) USART_CR3_DMAT = false /\
              flagged (CR1 (Instance (huart s2))) USART_CR1_TCIE = true /\
              flagged (CR1 (Instance (huart s2))) USART_CR1_TXEIE = false /\
              RxState (huart s2) = RxState (huart s1)).
  { subst s2. cbn [huart calls on_huart on_CR1 on_CR3 on_Instance set_TxXferCount
      set_Instance set_CR1 set_CR3 gState RxState TxXferCount Instance CR1 CR3].
    split; [reflexivity|]. split; [exact Hg1|]. split; [reflexivity|].
    split; [apply DMAT_after_clear_DMAT|].
    split; [apply flagged_SET_BIT_same; lia|]. split; [|reflexivity].
    unfold USART_CR1_TXEIE, USART_CR1_TCIE in *.
    rewrite flagged_bit in * by lia. rewrite testbit_SET_BIT, testbit_bit, Hie by lia.
    apply Z.eqb_neq. lia. }
  destruct F as (F1 & F2 & F3 & F4 & F5 & F6 & F7). clearbody s2.
  unfold __HAL_UART_GET_IT_SOURCE.
  split; [exact F1|]. split; [exact F2|]. split; [exact F3|]. split; [exact F4|].
  split; [exact F5|].
  rewrite (IRQ_entry_ends_transmit dma_rx e_tc s2 F6 F5 Htc).
  unfold UART_EndTransmit_IT, __HAL_UART_DISABLE_IT.
  cbn [snd huart calls invoke on_huart on_CR1 on_Instance hardware set_gState set_Instance
       set_CR1 set_SR set_DR gState RxState Instance CR1].
  rewrite F1, F7. repeat split.
  apply flagged_CLEAR_BIT_same; lia.
Qed.

End Driver.

(** * The properties on concrete systems *)

#[local] Existing Instance reference_header.

(** An interrupt-mode transmission is refused while one is in progress. *)
Lemma transfer_start_busy_witness :
  transfer_start Transmit_IT 0x20000000 8 transmit_ending
    = Some (HAL_BUSY, transmit_ending).
Proof.
  apply (transfer_start_busy Transmit_IT 0x20000000 8 transmit_ending).
  simpl. discriminate.
Defined.

(** A reception of zero units is refused. *)
Lemma transfer_start_invalid_argument_witness :
  transfer_start Receive_IT 0x20000100 0 ready_system
    = Some (HAL_ERROR, ready_system).
Proof.
  apply (transfer_start_invalid_argument Receive_IT 0x20000100 0 ready_system).
  - reflexivity.
  - right. reflexivity.
Defined.


(** The combined abort of a handle served by DMA in both directions; the
    Rx channel reports first. *)
Lemma Abort_IT_join_witness :
  calls (DMA_IRQ_AbortCplts [DMA_RX]
           (snd (HAL_UART_Abort_IT DMA_accepts DMA_accepts duplex_DMA))) = [] /\
  invocations HAL_UART_AbortCpltCallback
    (calls (DMA_IRQ_AbortCplts [DMA_RX; DMA_TX]
              (snd (HAL_UART_Abort_IT DMA_accepts DMA_accepts duplex_DMA)))) = 1%nat.
Proof.
  split.
  - apply (Abort_IT_join DMA_accepts DMA_accepts duplex_DMA tx_channel rx_channel
             [DMA_RX]); reflexivity.
  - destruct (Abort_IT_join DMA_accepts DMA_accepts duplex_DMA tx_channel rx_channel
                [DMA_RX; DMA_TX])
      as (_ & _ & _ & _ & h & E & _);
      [reflexivity | reflexivity | reflexivity | reflexivity | reflexivity
      | reflexivity |].
    rewrite E. reflexivity.
Defined.

(** The blocking abort of a Ready handle. *)
Lemma Abort_of_ready_handle_witness :
  HAL_UART_Abort DMA_accepts DMA_accepts ready_after_overrun
    = (HAL_OK, Abort_without_DMA ready_after_overrun).
Proof.
  apply (Abort_of_ready_handle DMA_accepts DMA_accepts ready_after_overrun);
    reflexivity.
Defined.

(** C6 fails as stated: the blocking abort of a handle that is Ready, its
    DMA requests disabled, resets an error code that was set. *)
Lemma ready_Abort_resets_ErrorCode :
  gState (huart ready_after_overrun) = HAL_UART_STATE_READY /\
  RxState (huart ready_after_overrun) = HAL_UART_STATE_READY /\
  HAL_IS_BIT_SET (CR3 (Instance (huart ready_after_overrun))) USART_CR3_DMAT = false /\
  HAL_IS_BIT_SET (CR3 (Instance (huart ready_after_overrun))) USART_CR3_DMAR = false /\
  fst (HAL_UART_Abort DMA_accepts DMA_accepts ready_after_overrun) = HAL_OK /\
  ErrorCode (huart ready_after_overrun) = 8 /\
  ErrorCode (huart (snd (HAL_UART_Abort DMA_accepts DMA_accepts ready_after_overrun))) = 0 /\
  ErrorCode (huart (snd (HAL_UART_Abort DMA_accepts DMA_accepts ready_after_overrun)))
    <> ErrorCode (huart ready_after_overrun).
Proof. vm_compute. repeat split; discriminate. Qed.

(** A blocking reception times out at its first poll. *)
Lemma blocking_timeout_abandons_witness :
  exists s',
    HAL_UART_Receive 0x20000100 1 10 0 [mkSample 0xC0 0 11] ready_system
      = Some (HAL_TIMEOUT, s') /\
    RxState (huart s') = HAL_UART_STATE_READY /\
    __HAL_UART_GET_IT_SOURCE UART_IT_RXNE s' = false.
Proof.
  destruct (blocking_timeout_abandons 0x20000100 1 10 0 [mkSample 0xC0 0 11] ready_system)
    as (_ & R); [lia | lia | reflexivity | reflexivity |].
  destruct R as (s' & E & A).
  - reflexivity.
  - apply expire_here; reflexivity.
  - exists s'. split; [exact E|]. tauto.
Defined.

(** C5 fails as stated: a blocking reception that times out while an
    interrupt-mode transmission waits for its last frame leaves the
    transmission-complete interrupt enabled. *)
Lemma timeout_leaves_TC_interrupt_enabled :
  exists s',
    HAL_UART_Receive 0x20000100 1 10 0 [mkSample 0x80 0 11] transmit_ending
      = Some (HAL_TIMEOUT, s') /\
    __HAL_UART_GET_IT_SOURCE UART_IT_TC s' = true /\
    no_interrupt_source_enabled s' = false.
Proof. eexists. split; [vm_compute; reflexivity|]. split; reflexivity. Qed.

(** C10 fails as stated: a blocking reception times out while an
    interrupt-mode transmission waits for its last frame.  gState is
    forced to Ready, but the transmission-complete interrupt source of the
    transmission stays enabled, and the next transmission-complete
    interrupt is still served: it calls the Tx-complete callback. *)
Lemma receive_timeout_keeps_TC_source :
  gState (huart transmit_ending) = HAL_UART_STATE_BUSY_TX /\
  __HAL_UART_GET_IT_SOURCE UART_IT_TC transmit_ending = true /\
  exists s',
    HAL_UART_Receive 0x20000100 1 10 0 [mkSample 0x80 0 11] transmit_ending
      = Some (HAL_TIMEOUT, s') /\
    gState (huart s') = HAL_UART_STATE_READY /\
    __HAL_UART_GET_IT_SOURCE UART_IT_TXE s' = false /\
    __HAL_UART_GET_IT_SOURCE UART_IT_TC s' = true /\
    invocations HAL_UART_TxCpltCallback
      (calls (HAL_UART_IRQHandler DMA_accepts (hardware (mkSample 0xC0 0 12) s'))) = 1%nat.
Proof.
  split; [reflexivity|]. split; [reflexivity|].
  eexists. split; [vm_compute; reflexivity|]. repeat split; reflexivity.
Qed.

(** A blocking transmission times out while an interrupt-mode reception is
    in progress; a blocking reception times out while an interrupt-mode
    transmission waits for its last frame. *)
Lemma timeout_resets_both_directions_witness :
  let s := snd (HAL_UART_Receive_IT 0x20000100 4 ready_system) in
  (RxState (huart s) = HAL_UART_STATE_BUSY_RX /\
   __HAL_UART_GET_IT_SOURCE UART_IT_RXNE s = true /\
   exists s',
     HAL_UART_Transmit 0x20000000 2 10 0 [mkSample 0x00 0 11] s = Some (HAL_TIMEOUT, s') /\
     RxState (huart s') = HAL_UART_STATE_READY /\
     __HAL_UART_GET_IT_SOURCE UART_IT_RXNE s' = false) /\
  (exists s',
     HAL_UART_Receive 0x20000100 1 10 0 [mkSample 0x80 0 11] transmit_ending
       = Some (HAL_TIMEOUT, s') /\
     gState (huart s') = HAL_UART_STATE_READY /\
     __HAL_UART_GET_IT_SOURCE UART_IT_TC s'
       = __HAL_UART_GET_IT_SOURCE UART_IT_TC transmit_ending).
Proof.
  intros s. split.
  - split; [reflexivity|]. split; [reflexivity|].
    destruct (timeout_resets_both_directions 0x20000000 2 10 0 [mkSample 0x00 0 11] s)
      as (_ & T & _); [lia | lia | reflexivity | reflexivity |].
    destruct T as (s' & E & A).
    + reflexivity.
    + apply expire_here; reflexivity.
    + exists s'. split; [exact E|]. tauto.
  - destruct (timeout_resets_both_directions 0x20000100 1 10 0 [mkSample 0x80 0 11]
                transmit_ending)
      as (_ & _ & R); [lia | lia | reflexivity | reflexivity |].
    destruct R as (s' & E & G & _ & _ & K).
    + reflexivity.
    + apply expire_here; reflexivity.
    + exists s'. split; [exact E|]. split; [exact G|].
      apply K; simpl; lia.
Defined.

(** An overrun during a DMA reception. *)
Lemma blocking_line_error_witness :
  RxState (huart (HAL_UART_IRQHandler DMA_accepts overrun_in_DMA_receive))
    = HAL_UART_STATE_READY /\
  calls (HAL_UART_IRQHandler DMA_accepts overrun_in_DMA_receive) = [].
Proof.
  destruct (blocking_line_error DMA_accepts overrun_in_DMA_receive)
    as (R & _ & _ & _ & _ & _ & B); [reflexivity | reflexivity |].
  split; [exact R|]. exact (proj1 (proj2 (proj2 B))).
Defined.

(** C2 fails as stated: an overrun during an interrupt-mode reception on a
    handle that has an Rx DMA channel bound.  No abort of the channel is
    requested; the user error callback is called directly. *)
Lemma overrun_without_DMA_request :
  error_detected overrun_in_IT_receive = true /\
  flagged (accumulated_ErrorCode overrun_in_IT_receive) HAL_UART_ERROR_ORE = true /\
  hdmarx (huart overrun_in_IT_receive) = Some idle_channel /\
  hdmarx (huart (HAL_UART_IRQHandler DMA_accepts overrun_in_IT_receive))
    = Some idle_channel /\
  DMA.XferAbortCallback idle_channel <> Some PTR_UART_DMAAbortOnError /\
  invocations HAL_UART_ErrorCallback
    (calls (HAL_UART_IRQHandler DMA_accepts overrun_in_IT_receive)) = 1%nat.
Proof. vm_compute. repeat split; discriminate. Qed.

(** A parity error on a unit of an interrupt-mode reception that is not
    the last one. *)
Lemma non_blocking_line_error_witness :
  ErrorCode (huart (HAL_UART_IRQHandler DMA_accepts parity_error_in_IT_receive))
    = HAL_UART_ERROR_NONE /\
  RxState (huart (HAL_UART_IRQHandler DMA_accepts parity_error_in_IT_receive))
    = HAL_UART_STATE_BUSY_RX.
Proof.
  destruct (non_blocking_line_error DMA_accepts parity_error_in_IT_receive)
    as (_ & E & _ & _ & _ & G & _); [reflexivity | reflexivity | reflexivity |].
  split; [exact E|].
  destruct G as (G & _); [right; vm_compute; discriminate | exact G].
Defined.

(** C3 fails as stated: a parity error on the last unit of an
    interrupt-mode reception, no overrun, no DMA request.  The reception
    does not go on: RxState is Ready and the receive interrupt is
    disabled when the handler returns. *)
Lemma parity_error_on_last_unit_completes :
  PE_detected parity_error_on_last_unit = true /\
  flagged (accumulated_ErrorCode parity_error_on_last_unit) HAL_UART_ERROR_ORE = false /\
  HAL_IS_BIT_SET (CR3 (Instance (huart parity_error_on_last_unit))) USART_CR3_DMAR = false /\
  RxState (huart parity_error_on_last_unit) = HAL_UART_STATE_BUSY_RX /\
  __HAL_UART_GET_IT_SOURCE UART_IT_RXNE parity_error_on_last_unit = true /\
  RxState (huart (HAL_UART_IRQHandler DMA_accepts parity_error_on_last_unit))
    <> HAL_UART_STATE_BUSY_RX /\
  __HAL_UART_GET_IT_SOURCE UART_IT_RXNE
    (HAL_UART_IRQHandler DMA_accepts parity_error_on_last_unit) = false.
Proof. vm_compute. repeat split; discriminate. Qed.

(** ** The traces of two interrupt entries *)

(** A parity error on the last unit: the unit is stored, the reception
    completes, then the error is reported. *)
Example IRQ_parity_error_on_last_unit :
  let s' := HAL_UART_IRQHandler DMA_accepts parity_error_on_last_unit in
  map fst (calls s') = [HAL_UART_RxCpltCallback; HAL_UART_ErrorCallback] /\
  ram s' 0x20000107 = 0x55 /\
  ErrorCode (huart s') = 0.
Proof. vm_compute. repeat split. Qed.

(** An overrun during a DMA reception that the engine refuses to abort:
    the error is reported at once, with the overrun in the error code and
    the DMA receive request disabled. *)
Example IRQ_overrun_DMA_refuses :
  let s' := HAL_UART_IRQHandler DMA_refuses overrun_in_DMA_receive in
  map fst (calls s') = [HAL_UART_ErrorCallback] /\
  ErrorCode (huart s') = 8 /\
  RxState (huart s') = HAL_UART_STATE_READY /\
  HAL_IS_BIT_SET (CR3 (Instance (huart s'))) USART_CR3_DMAR = false.
Proof. vm_compute. repeat split. Qed.

(** ** More of the driver on concrete systems *)

(** Every flag of the status register up, no interrupt source enabled. *)
Lemma IRQHandler_sources_disabled_witness :
  let s := hardware (mkSample 0xF8 0x41 5) ready_system in
  HAL_UART_IRQHandler DMA_accepts s = s.
Proof.
  intros s. apply (IRQHandler_sources_disabled DMA_accepts s). reflexivity.
Defined.

(** The engine accepts the abort of the Tx channel and refuses the abort
    of the Rx channel. *)
Lemma Abort_IT_Rx_refused_witness :
  let armed := snd (HAL_UART_Abort_IT DMA_accepts DMA_refuses duplex_DMA) in
  invocations HAL_UART_AbortCpltCallback (calls armed) = 1%nat /\
  invocations HAL_UART_AbortCpltCallback (calls (DMA_IRQ_AbortCplt DMA_TX armed)) = 2%nat.
Proof.
  intros armed.
  destruct (Abort_IT_Rx_refused DMA_accepts DMA_refuses duplex_DMA tx_channel rx_channel)
    as (h1 & h2 & E1 & _ & _ & E2 & _);
    [reflexivity | reflexivity | reflexivity | reflexivity | reflexivity | reflexivity |].
  fold armed in E1, E2. rewrite E1, E2. split; reflexivity.
Defined.

(** Both directions served by DMA, paused and resumed. *)
Lemma DMAPause_DMAResume_round_trip_witness :
  HAL_IS_BIT_SET (CR3 (Instance (huart (snd (HAL_UART_DMAPause duplex_DMA))))) USART_CR3_DMAT
    = false /\
  snd (HAL_UART_DMAResume (snd (HAL_UART_DMAPause duplex_DMA))) = duplex_DMA.
Proof.
  destruct (DMAPause_DMAResume_round_trip duplex_DMA)
    as (_ & P & _ & _ & _ & _ & R);
    [reflexivity | cbn; lia | cbn; lia | reflexivity |].
  split; [exact P | exact R].
Defined.

(** The transmitter of a half-duplex line selected. *)
Lemma HalfDuplex_direction_witness :
  Z.land (CR1 (Instance (huart (snd (HAL_HalfDuplex_EnableTransmitter ready_system))))) 0xC
    = 0x8 /\
  Z.land (CR1 (Instance (huart (snd (HAL_HalfDuplex_EnableReceiver ready_system))))) 0xC
    = 0x4.
Proof.
  destruct (HalfDuplex_direction ready_system) as ((_ & T & _) & (_ & R & _));
    [reflexivity | cbn; lia | cbn; lia |].
  split; [exact T | exact R].
Defined.

(** A reception of 16 units in DMA mode; the engine accepts the start. *)
Lemma Receive_DMA_completion_witness :
  exists s1 d1,
    HAL_UART_Receive_DMA DMA_accepts 0x20000100 16 ready_with_DMA = Some (HAL_OK, s1) /\
    hdmarx (huart s1) = Some d1 /\
    invocations HAL_UART_RxCpltCallback
      (calls (call_DMA_callback PTR_UART_DMAReceiveCplt d1 s1)) = 1%nat /\
    RxState (huart (call_DMA_callback PTR_UART_DMAReceiveCplt d1 s1)) = HAL_UART_STATE_READY.
Proof.
  destruct (Receive_DMA_completion DMA_accepts DMA_accepts 0x20000100 16 ready_with_DMA
              idle_channel)
    as (s1 & d1 & E & D & _ & _ & _ & C & R & _);
    [reflexivity | reflexivity | lia | lia | reflexivity | reflexivity | reflexivity |].
  exists s1, d1. split; [exact E|]. split; [exact D|]. split; [|exact R].
  rewrite C. reflexivity.
Defined.

(** Three units received in interrupt mode. *)
Lemma Receive_IT_completion_witness :
  let es := [mkSample 0x20 0x41 1; mkSample 0x20 0x42 2; mkSample 0xA0 0x43 3] in
  let s := IRQ_entries DMA_accepts es (snd (HAL_UART_Receive_IT 0x20000100 3 ready_system)) in
  invocations HAL_UART_RxCpltCallback (calls s) = 1%nat /\
  RxState (huart s) = HAL_UART_STATE_READY /\
  (ram s 0x20000100, ram s 0x20000101, ram s 0x20000102) = (0x41, 0x42, 0x43).
Proof.
  intros es s.
  destruct (Receive_IT_completion DMA_accepts 0x20000100 3 ready_system
              [mkSample 0x20 0x41 1] [mkSample 0xA0 0x43 3] (mkSample 0x20 0x42 2))
    as (_ & _ & C & R & _ & M & _);
    [reflexivity | reflexivity | lia | reflexivity | lia | reflexivity |].
  subst s es. cbn [app] in C, R, M.
  split; [rewrite C; reflexivity|]. split; [exact R|]. rewrite M. reflexivity.
Defined.

(** Two units sent in interrupt mode, then the end of the frame. *)
Lemma Transmit_IT_completion_witness :
  let s1 := IRQ_entries DMA_accepts [mkSample 0x80 0 1; mkSample 0x80 0 2]
              (snd (HAL_UART_Transmit_IT 0x20000041 2 ready_with_DMA)) in
  let s2 := IRQ_entry DMA_accepts (mkSample 0xC0 0 3) s1 in
  txd s1 = [0x41; 0x42] /\ calls s1 = [] /\
  invocations HAL_UART_TxCpltCallback (calls s2) = 1%nat /\
  gState (huart s2) = HAL_UART_STATE_READY.
Proof.
  intros s1 s2.
  destruct (Transmit_IT_completion DMA_accepts 0x20000041 2 ready_with_DMA
              (mkSample 0x80 0 1) [mkSample 0x80 0 2] (mkSample 0xC0 0 3))
    as (_ & (X & K & _) & C & G & _);
    [cbn; lia | reflexivity | reflexivity | lia | reflexivity | lia | reflexivity
    | reflexivity |].
  fold s1 in X, K, C, G. fold s2 in C, G.
  split; [rewrite X; reflexivity|]. split; [exact K|].
  split; [rewrite C; reflexivity | exact G].
Defined.

(** Two units sent by the blocking call: the data register is busy at the
    first poll, and the frame not yet over at the fourth. *)
Lemma Transmit_succeeds_witness :
  exists s',
    HAL_UART_Transmit 0x20000041 2 10 0
      [mkSample 0x00 0 1; mkSample 0x80 0 2; mkSample 0x80 0 3; mkSample 0x80 0 4;
       mkSample 0xC0 0 5] ready_with_DMA = Some (HAL_OK, s') /\
    txd s' = [0x41; 0x42] /\
    gState (huart s') = HAL_UART_STATE_READY.
Proof.
  destruct (Transmit_succeeds 0x20000041 2 10 0
              [mkSample 0x00 0 1; mkSample 0x80 0 2; mkSample 0x80 0 3; mkSample 0x80 0 4;
               mkSample 0xC0 0 5]
              [mkSample 0x80 0 2; mkSample 0x80 0 3; mkSample 0xC0 0 5] ready_with_DMA)
    as (s' & E & X & G & _);
    [lia | lia | lia | reflexivity | reflexivity | reflexivity | |].
  - apply succeed_later; [reflexivity | reflexivity |].
    apply succeed_here; [reflexivity|]. apply succeed_here; [reflexivity|].
    apply succeed_later; [reflexivity | reflexivity |].
    apply succeed_here; [reflexivity|]. apply succeed_done.
  - exists s'. split; [exact E|]. split; [rewrite X; reflexivity | exact G].
Defined.

(** Two units received by the blocking call, the first at the second
    poll. *)
Lemma Receive_succeeds_witness :
  exists s',
    HAL_UART_Receive 0x20000100 2 10 0
      [mkSample 0x00 0 1; mkSample 0x20 0x41 2; mkSample 0x20 0x42 3] ready_system
      = Some (HAL_OK, s') /\
    (ram s' 0x20000100, ram s' 0x20000101) = (0x41, 0x42) /\
    RxState (huart s') = HAL_UART_STATE_READY.
Proof.
  destruct (Receive_succeeds 0x20000100 2 10 0
              [mkSample 0x00 0 1; mkSample 0x20 0x41 2; mkSample 0x20 0x42 3]
              [mkSample 0x20 0x41 2; mkSample 0x20 0x42 3] ready_system)
    as (s' & E & _ & M & R & _);
    [lia | lia | lia | reflexivity | reflexivity | reflexivity | |].
  - apply succeed_later; [reflexivity | reflexivity |].
    apply succeed_here; [reflexivity|]. apply succeed_here; [reflexivity|].
    apply succeed_done.
  - exists s'. split; [exact E|]. split; [rewrite M; reflexivity | exact R].
Defined.

(** A transmission of 16 units in DMA mode that the engine refuses to
    start: the call returns Ok all the same. *)
Lemma Transmit_DMA_completion_witness :
  exists s1 d1,
    HAL_UART_Transmit_DMA DMA_refuses 0x20000000 16 ready_with_DMA = Some (HAL_OK, s1) /\
    hdmatx (huart s1) = Some d1 /\
    DMA.Request d1 = None /\
    gState (huart s1) = HAL_UART_STATE_BUSY_TX /\
    invocations HAL_UART_TxCpltCallback
      (calls (IRQ_entry DMA_accepts (mkSample 0xC0 0 9)
                (call_DMA_callback PTR_UART_DMATransmitCplt d1 s1))) = 1%nat.
Proof.
  destruct (Transmit_DMA_completion DMA_refuses DMA_accepts 0x20000000 16 ready_with_DMA
              idle_channel (mkSample 0xC0 0 9))
    as (s1 & d1 & E & D & _ & Q & G & _ & _ & _ & _ & _ & _ & _ & C & _);
    [cbn; lia | reflexivity | reflexivity | lia | lia | reflexivity | reflexivity
    | reflexivity | reflexivity |].
  exists s1, d1. split; [exact E|]. split; [exact D|]. split; [exact Q|].
  split; [exact G|]. rewrite C. reflexivity.
Defined.
